(** * AppManager: the instance lifecycle engine of [app_manager_server.py]

    A shallow embedding of the AppServer instance manager: the API-server
    pool ([ensure_api_server], [stop_api_server], [populate_api_servers]),
    the health probe ([wait_on_app], [add_routing]), the registry client
    ([register_instance], [unregister_instance], [declare_instance_nodes]),
    the supervisor teardown ([unmonitor], [unmonitor_and_terminate]) and the
    three operations [start_app], [stop_app_instance] and [stop_app].

    Python integers are [Z], Python strings are [string], the module level
    dictionary [api_servers] is a [gmap string Z] and the module level set
    [running_instances] is a [gset Instance].  Code that talks to Monit,
    ZooKeeper or the network runs in a small monad that threads the module
    state, records every outside call in a trace and propagates exceptions. *)

From Stdlib Require Import ZArith Lia Ascii String List Bool.
From Stdlib Require Import DecimalString Decimal DecimalPos DecimalZ.
From stdpp Require Import base option list gmap strings sets.

Local Open Scope string_scope.
Local Open Scope list_scope.
Local Open Scope Z_scope.

(** ** Python string primitives *)

Module Py.

(** [str(n)] for an integer. *)
Definition str (n : Z) : string := NilZero.string_of_int (Z.to_int n).

(** The characters that [int] skips at both ends of its argument: the
    blanks of C's [isspace], which are the space and the characters 9 to
    13 (tab, line feed, vertical tab, form feed, carriage return). *)
Definition is_space (c : ascii) : bool :=
  let n := nat_of_ascii c in
  (n =? 32)%nat || ((9 <=? n) && (n <=? 13))%nat.

Fixpoint lstrip (s : string) : string :=
  match s with
  | EmptyString => EmptyString
  | String c s' => if is_space c then lstrip s' else s
  end.

Fixpoint rstrip (s : string) : string :=
  match s with
  | EmptyString => EmptyString
  | String c s' =>
      match rstrip s' with
      | EmptyString => if is_space c then EmptyString else String c EmptyString
      | rest => String c rest
      end
  end.

(** [int(s)] for a string, in base 10, as CPython 2 reads it
    ([PyInt_FromString] over [PyOS_strtol]): [None] stands for
    [ValueError].  Blanks at both ends are skipped, then an optional sign,
    [+] or [-], then blanks again; what is left has to be one decimal digit
    or more. *)
Definition int (s : string) : option Z :=
  match rstrip (lstrip s) with
  | EmptyString => None
  | String c rest as literal =>
      if Ascii.eqb c "+"
      then option_map Z.of_uint (NilZero.uint_of_string (lstrip rest))
      else if Ascii.eqb c "-"
      then option_map (fun n => - Z.of_uint n) (NilZero.uint_of_string (lstrip rest))
      else option_map Z.of_uint (NilZero.uint_of_string literal)
  end.

(** [s[n:]] for [0 <= n]. *)
Fixpoint slice_from (n : nat) (s : string) : string :=
  match n, s with
  | O, _ => s
  | S _, EmptyString => EmptyString
  | S k, String _ s' => slice_from k s'
  end.

(** [s.startswith(p)]. *)
Fixpoint startswith (p s : string) : bool :=
  match p with
  | EmptyString => true
  | String a p' =>
      match s with
      | EmptyString => false
      | String b s' => Ascii.eqb a b && startswith p' s'
      end
  end.

(** [s.rsplit(sep, 1)] for a one character separator.  Python returns a
    list of one or two strings; every call site unpacks two, so [None]
    stands for the [ValueError] of the unpacking when [sep] is absent. *)
Fixpoint rsplit1 (sep : ascii) (s : string) : option (string * string) :=
  match s with
  | EmptyString => None
  | String c s' =>
      match rsplit1 sep s' with
      | Some (a, b) => Some (String c a, b)
      | None => if Ascii.eqb c sep then Some (EmptyString, s') else None
      end
  end.

(** [s.split(sep)] for a non-empty separator: [skip] counts the characters
    of a separator occurrence that are still to be consumed, [cur] is the
    field read so far. *)
Fixpoint split_go (sep : string) (skip : nat) (cur : string) (s : string)
  : list string :=
  match s with
  | EmptyString => [cur]
  | String c s' =>
      match skip with
      | S k => split_go sep k cur s'
      | O =>
          if startswith sep s
          then cur :: split_go sep (String.length sep - 1) EmptyString s'
          else split_go sep O (cur +:+ String c EmptyString) s'
      end
  end.

Definition split (sep s : string) : list string :=
  split_go sep O EmptyString s.

(** [sep.join(parts)]. *)
Definition join (sep : string) (parts : list string) : string :=
  String.concat sep parts.

(** [s.endswith(suffix)]. *)
Fixpoint endswith (suffix s : string) : bool :=
  String.eqb s suffix ||
  match s with
  | EmptyString => false
  | String _ s' => endswith suffix s'
  end.

(** [c in s] for a character. *)
Fixpoint mem_char (c : ascii) (s : string) : bool :=
  match s with
  | EmptyString => false
  | String d s' => Ascii.eqb d c || mem_char c s'
  end.

End Py.

(** ** Constants *)

(** [API_SERVER_PREFIX], the Monit watch prefix for API servers. *)
Definition API_SERVER_PREFIX : string := "api-server_".

(** Modelled from the spec: [MONIT_INSTANCE_PREFIX] is imported from
    [appscale.admin.instance_manager.constants], which is not part of the
    sources at hand; the spec names instance watches
    [instance_{revisionKey}-{port}]. *)
Definition MONIT_INSTANCE_PREFIX : string := "instance_".

(** Modelled from the spec: [VERSION_PATH_SEPARATOR] is imported from
    [appscale.common.constants]; the spec serialises a version key with a
    single separator ([proj_default_v1]) and [recover_state] itself splits
    revisions on ['_']. *)
Definition VERSION_PATH_SEPARATOR : string := "_".

Definition START_APP_TIMEOUT : Z := 180.
Definition BACKOFF_TIME : Z := 1.
Definition FETCH_PATH : string := "/_ah/health_check".
Definition VERSION_REGISTRATION_NODE : string := "/appscale/instances_by_version".
Definition HTTP_OK : Z := 200.
Definition MAX_API_SERVER_PORT : Z := 19999.

(** Modelled from the spec: [HTTPCodes] is imported from
    [appscale.common.constants]; the spec surfaces a missing entry on
    stop-one as HTTP 500 and a bad configuration as HTTP 400. *)
Definition INTERNAL_ERROR : Z := 500.
Definition BAD_REQUEST : Z := 400.

(** Modelled from the spec: the runtime tags of [appscale.common.constants]
    are [python27], [go], [php] and [java]. *)
Definition PYTHON27 : string := "python27".
Definition GO : string := "go".
Definition PHP : string := "php".
Definition JAVA : string := "java".

(** ** Data model *)

(** [class Instance]: equality and hashing are by [(revision_key, port)]. *)
Record Instance : Type := mkInstance { revision_key : string; port : Z }.

#[global] Instance Instance_eq_dec : EqDecision Instance.
Proof. solve_decision. Defined.

#[global] Program Instance Instance_countable : Countable Instance :=
  inj_countable' (fun i => (revision_key i, port i))
                 (fun p => mkInstance (fst p) (snd p)) _.
Next Obligation. by intros []. Qed.

(** [Instance.version_key]: the first three components of the revision key. *)
Definition version_key (i : Instance) : string :=
  Py.join VERSION_PATH_SEPARATOR
    (take 3 (Py.split VERSION_PATH_SEPARATOR (revision_key i))).

(** [Instance.revision]: the last component of the revision key. *)
Definition revision (i : Instance) : string :=
  List.last (Py.split VERSION_PATH_SEPARATOR (revision_key i)) EmptyString.

(** The JSON body of a start request, [{app_port: int, login_server: str}];
    a key that is absent from the dictionary is [None]. *)
Record Config : Type := mkConfig {
  app_port : option Z;
  login_server : option string
}.

(** The fields of [version_details] that [start_app] reads. *)
Record VersionDetails : Type := mkVersionDetails {
  runtime : string;
  instanceClass : option string;
  vd_revision : Z;
  sourceUrl : string
}.

(** The exceptions that cross function boundaries in the module. *)
Inductive exn : Type :=
| BadConfigurationException (value : string)
| HTTPError (code : Z) (message : string)
| ProcessNotFound (message : string)
| AssertionError (message : string)
| ValueError (message : string)
| NoNodeError (node : string).

(** The start commands, by the arguments handed to their builders; the text
    of the command line is outside the lifecycle engine. *)
Inductive start_cmd : Type :=
| ApiServerCmd (server_port : Z) (project_id : string) (zk_locations : list string)
| Python27Cmd (app_name login_ip : string) (app_port : Z)
              (pidfile revision_key : string) (api_server_port : Z)
| JavaCmd (app_name : string) (app_port : Z) (load_balancer_host : string)
          (max_heap : Z) (pidfile revision_key : string) (api_server_port : Z).

(** Callbacks handed to [IOLoop.current().spawn_callback]. *)
Inductive task : Type :=
| AddRouting (instance : Instance)
| StopInstance (watch : string).

(** Entries into functions of the module that the properties speak about. *)
Inductive call : Type :=
| EnsureApiServer (project_id : string)
| RegisterInstance (instance : Instance)
| UnregisterInstance (instance : Instance).

Inductive level : Type := INFO | WARNING | ERROR.

(** What a run does to the outside world, in order. *)
Inductive event : Type :=
| Log (lvl : level) (message : string)
| Call (c : call)
| CreateConfigFile (watch : string) (cmd : start_cmd) (pidfile : string)
                   (port max_memory : Z)
| MonitStart (full_watch : string)
| MonitGetEntries
| UnmonitorPost (process_name : string)
| RemoveConfiguration (watch : string)
| MonitReload
| ZkCreate (node value : string)
| ZkSet (node value : string)
| ZkDelete (node : string)
| ZkEnsurePath (node : string)
| EnsureSource (revision_key source_archive runtime : string)
| CleanOldRevisions (active_revisions : gset string)
| SpawnCallback (t : task)
| OpenUrl (url : string)
| Sleep (seconds : Z)
| WriteLogrotate (app_name : string) (log_size : Z)
| RemoveLogrotate (app_name : string).

(** The module level state together with the two stores it drives: the
    ZooKeeper subtree under [VERSION_REGISTRATION_NODE] (version node to
    its children, child name to payload) and Monit's list of watches. *)
Record State : Type := mkState {
  api_servers : gmap string Z;
  running_instances : gset Instance;
  zk_nodes : gmap string (gmap string string);
  monit_entries : list string
}.

(** What the collaborators answer.  [unmonitor_response name k] is the
    outcome of the [k]-th POST that asks Monit to unmonitor [name]: [None]
    when [fetch] returns, [Some code] when it raises [HTTPError].
    [open_url url k] is the outcome of the [k]-th request of a health
    probe: [Some code] for a response with that status, [None] for an
    [IOError]. *)
Record Env : Type := mkEnv {
  private_ip : string;
  is_app_name_valid : string -> bool;
  zk_locations : list string;
  monit_start : string -> bool;
  unmonitor_response : string -> nat -> option Z;
  open_url : string -> nat -> option Z;
  projects_manager : gmap string (gmap string (gmap string VersionDetails));
  default_max_appserver_memory : option Z;
  DEFAULT_MAX_APPSERVER_MEMORY : Z;
  INSTANCE_CLASSES : gmap string Z;
  DASHBOARD_PROJECT_ID : string;
  DASHBOARD_LOG_SIZE : Z;
  APP_LOG_SIZE : Z;
  logrotate_removable : string -> bool
}.

(** ** The monad of the module: state, trace and exceptions *)

Definition M (A : Type) : Type := State -> (exn + A) * State * list event.

Definition ret {A} (a : A) : M A := fun st => (inr a, st, []).

Definition bind {A B} (m : M A) (k : A -> M B) : M B := fun st =>
  match m st with
  | (inl e, st1, tr1) => (inl e, st1, tr1)
  | (inr a, st1, tr1) =>
      match k a st1 with
      | (r, st2, tr2) => (r, st2, tr1 ++ tr2)
      end
  end.

Definition raise {A} (e : exn) : M A := fun st => (inl e, st, []).

Definition tell (ev : event) : M unit := fun st => (inr tt, st, [ev]).

Definition get : M State := fun st => (inr st, st, []).

Definition modify (f : State -> State) : M unit := fun st => (inr tt, f st, []).

(** [try: m except <handled>: h] *)
Definition try_except {A} (m : M A) (h : exn -> option (M A)) : M A := fun st =>
  match m st with
  | (inl e, st1, tr1) =>
      match h e with
      | Some k => match k st1 with (r, st2, tr2) => (r, st2, tr1 ++ tr2) end
      | None => (inl e, st1, tr1)
      end
  | ok => ok
  end.

Declare Scope m_scope.
Delimit Scope m_scope with M.
Notation "x <- m ;; k" := (bind m (fun x => k))
  (at level 100, m at next level, right associativity) : m_scope.
Notation "m ;; k" := (bind m (fun _ => k))
  (at level 100, right associativity) : m_scope.
Local Open Scope m_scope.

(** [for x in xs: body x] *)
Fixpoint for_each {A} (xs : list A) (body : A -> M unit) : M unit :=
  match xs with
  | [] => ret tt
  | x :: xs' => body x ;; for_each xs' body
  end.

Definition result {A} (r : (exn + A) * State * list event) : exn + A := fst (fst r).
Definition final {A} (r : (exn + A) * State * list event) : State := snd (fst r).
Definition trace {A} (r : (exn + A) * State * list event) : list event := snd r.

Definition set_api_servers (f : gmap string Z -> gmap string Z) (st : State) : State :=
  mkState (f (api_servers st)) (running_instances st) (zk_nodes st) (monit_entries st).
Definition set_running_instances (f : gset Instance -> gset Instance) (st : State) : State :=
  mkState (api_servers st) (f (running_instances st)) (zk_nodes st) (monit_entries st).
Definition set_zk_nodes (f : gmap string (gmap string string) -> gmap string (gmap string string))
  (st : State) : State :=
  mkState (api_servers st) (running_instances st) (f (zk_nodes st)) (monit_entries st).
Definition set_monit_entries (f : list string -> list string) (st : State) : State :=
  mkState (api_servers st) (running_instances st) (zk_nodes st) (f (monit_entries st)).

Definition lift {A} (r : exn + A) : M A := fun st => (r, st, []).

(** A list comprehension whose element expression may raise. *)
Fixpoint map_raising {A B} (f : A -> exn + B) (xs : list A) : exn + list B :=
  match xs with
  | [] => inr []
  | x :: xs' =>
      match f x with
      | inl e => inl e
      | inr y =>
          match map_raising f xs' with
          | inl e => inl e
          | inr ys => inr (y :: ys)
          end
      end
  end.

(** ** Watch names *)

(** [full_watch] of [ensure_api_server]:
    ['-'.join([''.join([API_SERVER_PREFIX, project_id]), str(server_port)])]. *)
Definition api_server_watch (project_id : string) (server_port : Z) : string :=
  Py.join "-" [API_SERVER_PREFIX +:+ project_id; Py.str server_port].

(** [full_watch] of [start_app]:
    ['{}-{}'.format(''.join([MONIT_INSTANCE_PREFIX, revision_key]), app_port)]. *)
Definition instance_watch (revision_key : string) (app_port : Z) : string :=
  (MONIT_INSTANCE_PREFIX +:+ revision_key) +:+ "-" +:+ Py.str app_port.

(** [api_server_info] of [populate_api_servers]. *)
Definition api_server_info (entry : string) : exn + (string * Z) :=
  match Py.rsplit1 "-" entry with
  | None => inl (ValueError "need more than 1 value to unpack")
  | Some (prefix, port) =>
      let project_id := Py.slice_from (String.length API_SERVER_PREFIX) prefix in
      match Py.int port with
      | None => inl (ValueError "invalid literal for int()")
      | Some p => inr (project_id, p)
      end
  end.

(** [revision_key, port = entry[len(MONIT_INSTANCE_PREFIX):].rsplit('-', 1)]
    followed by [int(port)]: the parse of [recover_state],
    [stop_app_instance] and [stop_app]. *)
Definition instance_info (entry : string) : exn + (string * Z) :=
  match Py.rsplit1 "-" (Py.slice_from (String.length MONIT_INSTANCE_PREFIX) entry) with
  | None => inl (ValueError "need more than 1 value to unpack")
  | Some (revision_key, port) =>
      match Py.int port with
      | None => inl (ValueError "invalid literal for int()")
      | Some p => inr (revision_key, p)
      end
  end.

(** [instance_key_re.match(entry)] for
    [re.compile('{}{}.*-{}'.format(MONIT_INSTANCE_PREFIX, version_key, port))].
    [match] anchors the pattern at the start of [entry] only.  The formatted
    parts are literals of the expression: the prefix has no metacharacter,
    version keys reach the module through the route [[a-z0-9-_]+] and a port
    is printed in decimal.  [dot_star_then lit s] is [.*lit] matched at the
    start of [s], where [.] is any character but a newline. *)
Fixpoint dot_star_then (lit s : string) : bool :=
  Py.startswith lit s ||
  match s with
  | EmptyString => false
  | String c s' => negb (Ascii.eqb c "010"%char) && dot_star_then lit s'
  end.

Definition instance_key_re_match (version_key : string) (port : Z) (entry : string) : bool :=
  let head := MONIT_INSTANCE_PREFIX +:+ version_key in
  Py.startswith head entry &&
  dot_star_then ("-" +:+ Py.str port) (Py.slice_from (String.length head) entry).

(** [ensure_api_server], lines 222 to 225: the loop over
    [api_servers.values()]. *)
Definition next_api_server_port (ports : list Z) : Z :=
  fold_left (fun server_port port =>
               if port <=? server_port then port - 1 else server_port)
            ports MAX_API_SERVER_PORT.

(** [api_servers.values()], in the iteration order of the dictionary. *)
Definition values (servers : gmap string Z) : list Z := (map_to_list servers).*2.

(** [math.ceil(START_APP_TIMEOUT / BACKOFF_TIME)]: the division of two
    Python 2 integers is the floor division, whose ceiling is itself. *)
Definition probe_retries : nat := Z.to_nat (START_APP_TIMEOUT / BACKOFF_TIME).

(** [NoRedirection.http_response]: the response is handed back as it came,
    so no status code raises and no [Location] is followed. *)
Definition http_response (request : string) (response : Z) : Z := response.

(** ** The functions of the module *)

Section AppManager.

Variable env : Env.

(** *** Collaborators: Monit and ZooKeeper *)

(** [monit_app_configuration.create_config_file]. *)
Definition create_config_file (watch : string) (cmd : start_cmd) (pidfile : string)
    (port max_memory : Z) : M unit :=
  tell (CreateConfigFile watch cmd pidfile port max_memory).

(** [monit_interface.start(full_watch, is_group=False)]: Monit lists the
    watch once it has been started. *)
Definition monit_interface_start (full_watch : string) : M bool :=
  tell (MonitStart full_watch) ;;
  if monit_start env full_watch
  then modify (set_monit_entries (fun entries =>
                 if bool_decide (full_watch ∈ entries) then entries
                 else entries ++ [full_watch])) ;;
       ret true
  else ret false.

(** [monit_operator.get_entries()]. *)
Definition get_entries : M (list string) :=
  tell MonitGetEntries ;;
  st <- get ;;
  ret (monit_entries st).

(** [monit_operator.remove_configuration(watch)]. *)
Definition remove_configuration (watch : string) : M unit :=
  tell (RemoveConfiguration watch) ;;
  modify (set_monit_entries (filter (fun entry => entry ≠ watch))).

(** [zk_client.ensure_path('/'.join([VERSION_REGISTRATION_NODE, version_key]))]. *)
Definition ensure_version_node (version_key : string) : M unit :=
  tell (ZkEnsurePath (Py.join "/" [VERSION_REGISTRATION_NODE; version_key])) ;;
  modify (set_zk_nodes (fun zk =>
            match zk !! version_key with
            | Some _ => zk
            | None => <[version_key := ∅]> zk
            end)).

(** *** Registry client *)

Definition instance_entry (instance : Instance) : string :=
  Py.join ":" [private_ip env; Py.str (port instance)].

Definition instance_node (instance : Instance) : string :=
  Py.join "/" [VERSION_REGISTRATION_NODE; version_key instance; instance_entry instance].

Definition unregister_instance (instance : Instance) : M unit :=
  tell (Call (UnregisterInstance instance)) ;;
  tell (ZkDelete (instance_node instance)) ;;
  (* a NoNodeError of the delete is passed over *)
  modify (set_zk_nodes (alter (delete (instance_entry instance)) (version_key instance))) ;;
  st <- get ;;
  if bool_decide (instance ∈ running_instances st)
  then modify (set_running_instances (fun s => s ∖ {[instance]}))
  else tell (Log INFO "unregister_instance: non-existent instance").

Definition register_instance (instance : Instance) : M unit :=
  tell (Call (RegisterInstance instance)) ;;
  st <- get ;;
  tell (ZkCreate (instance_node instance) (revision instance)) ;;
  match zk_nodes st !! version_key instance with
  | None =>
      (* ZooKeeper refuses a child of a node that does not exist *)
      raise (NoNodeError (instance_node instance))
  | Some children =>
      (match children !! instance_entry instance with
       | Some _ => (* NodeExistsError *)
           tell (ZkSet (instance_node instance) (revision instance))
       | None => ret tt
       end) ;;
      modify (set_zk_nodes
                <[version_key instance :=
                    <[instance_entry instance := revision instance]> children]>) ;;
      modify (set_running_instances (fun s => {[instance]} ∪ s))
  end.

(** The body of the inner loop of [declare_instance_nodes] for one child
    of one version node: [None] when the entry belongs to another
    machine. *)
Definition local_registration (version_key instance_entry payload : string)
  : exn + option Instance :=
  let parts := Py.split ":" instance_entry in
  let machine_ip := hd EmptyString parts in
  if negb (String.eqb machine_ip (private_ip env)) then inr None
  else
    match Py.int (List.last parts EmptyString) with
    | None => inl (ValueError "invalid literal for int()")
    | Some port =>
        let revision_key := Py.join VERSION_PATH_SEPARATOR [version_key; payload] in
        inr (Some (mkInstance revision_key port))
    end.

(** The children of every version node, in the order the two nested loops
    of [declare_instance_nodes] visit them. *)
Definition registry_children (zk : gmap string (gmap string string))
  : list (string * string * string) :=
  flat_map (fun vc => map (fun ep => (fst vc, fst ep, snd ep)) (map_to_list (snd vc)))
           (map_to_list zk).

Fixpoint collect_registered (nodes : list (string * string * string))
  : exn + gset Instance :=
  match nodes with
  | [] => inr ∅
  | (version_key, instance_entry, payload) :: rest =>
      match local_registration version_key instance_entry payload with
      | inl e => inl e
      | inr found =>
          match collect_registered rest with
          | inl e => inl e
          | inr registered =>
              inr (match found with
                   | Some instance => {[instance]} ∪ registered
                   | None => registered
                   end)
          end
      end
  end.

Definition registered_instances (zk : gmap string (gmap string string))
  : exn + gset Instance :=
  collect_registered (registry_children zk).

(** [declare_instance_nodes(running_instances, zk_client)]: the parameter
    [running] is the caller's set; [unregister_instance] and
    [register_instance] work on the module level set. *)
Definition declare_instance_nodes (running : gset Instance) : M unit :=
  st <- get ;;
  registered <- lift (registered_instances (zk_nodes st)) ;;
  for_each (elements (registered ∖ running)) unregister_instance ;;
  for_each (elements (running ∖ registered)) register_instance.

(** *** Supervisor teardown *)

(** [unmonitor(process_name, retries)]; [attempt] counts the POSTs already
    made.  [retries -= 1; if retries < 0: raise] is the case [O]. *)
Fixpoint unmonitor_from (attempt : nat) (process_name : string) (retries : nat)
  : M unit :=
  tell (UnmonitorPost process_name) ;;
  match unmonitor_response env process_name attempt with
  | None => ret tt
  | Some code =>
      if code =? 404
      then raise (ProcessNotFound (process_name +:+ " not listed by Monit"))
      else if code =? 503
      then match retries with
           | O => raise (HTTPError code ("HTTP " +:+ Py.str code))
           | S retries' => unmonitor_from (S attempt) process_name retries'
           end
      else raise (HTTPError code ("HTTP " +:+ Py.str code))
  end.

Definition unmonitor (process_name : string) : M unit :=
  unmonitor_from 0 process_name 5.

(** [unmonitor_and_terminate(watch)]: the handler of [ProcessNotFound]
    returns from the function. *)
Definition unmonitor_and_terminate (watch : string) : M unit :=
  listed <- try_except (unmonitor watch ;; ret true)
              (fun e => match e with
                        | ProcessNotFound _ => Some (ret false)
                        | _ => None
                        end) ;;
  if listed : bool
  then remove_configuration watch ;;
       tell (SpawnCallback (StopInstance watch))
  else ret tt.

(** *** API-server pool *)

Definition ensure_api_server (project_id : string) : M Z :=
  tell (Call (EnsureApiServer project_id)) ;;
  st <- get ;;
  match api_servers st !! project_id with
  | Some cached => ret cached
  | None =>
      let server_port := next_api_server_port (values (api_servers st)) in
      let cmd := ApiServerCmd server_port project_id (zk_locations env) in
      let watch := API_SERVER_PREFIX +:+ project_id in
      let full_watch := api_server_watch project_id server_port in
      let pidfile := full_watch +:+ ".pid" in
      create_config_file watch cmd pidfile server_port (DEFAULT_MAX_APPSERVER_MEMORY env) ;;
      started <- monit_interface_start full_watch ;;
      (if started : bool then ret tt
       else raise (AssertionError ("Monit was unable to start " +:+ watch))) ;;
      modify (set_api_servers <[project_id := server_port]>) ;;
      ret server_port
  end.

Definition stop_api_server (project_id : string) : M unit :=
  st <- get ;;
  match api_servers st !! project_id with
  | None => ret tt
  | Some port =>
      let watch := API_SERVER_PREFIX +:+ project_id +:+ "-" +:+ Py.str port in
      unmonitor_and_terminate watch ;;
      modify (set_api_servers (delete project_id))
  end.

Definition populate_api_servers : M unit :=
  entries <- get_entries ;;
  server_entries <- lift (map_raising api_server_info
                            (List.filter (Py.startswith API_SERVER_PREFIX) entries)) ;;
  for_each server_entries
    (fun info => modify (set_api_servers <[fst info := snd info]>)).

(** *** Health probe *)

Definition health_url (port : Z) : string :=
  "http://" +:+ private_ip env +:+ ":" +:+ Py.str port +:+ FETCH_PATH.

(** The [while retries > 0] loop of [wait_on_app]; [attempt] counts the
    requests already made. *)
Fixpoint wait_loop (url : string) (attempt retries : nat) : M bool :=
  match retries with
  | O =>
      tell (Log ERROR "Application did not come up") ;;
      ret false
  | S retries' =>
      tell (OpenUrl url) ;;
      match open_url env url attempt with
      | Some code =>
          let response := http_response url code in
          (if negb (response =? HTTP_OK)
           then tell (Log WARNING "unexpected status")
           else ret tt) ;;
          ret true
      | None =>
          (* except IOError: retries -= 1 *)
          tell (Sleep BACKOFF_TIME) ;;
          wait_loop url (S attempt) retries'
      end
  end.

Definition wait_on_app (port : Z) : M bool :=
  wait_loop (health_url port) 0 probe_retries.

Definition add_routing (instance : Instance) : M unit :=
  tell (Log INFO "Waiting for instance") ;;
  start_successful <- wait_on_app (port instance) ;;
  if start_successful : bool
  then register_instance instance
  else tell (Log WARNING "instance did not come up in time").

(** *** Lifecycle engine *)

(** [projects_manager[project_id][service_id][version_id].version_details];
    [None] is the [KeyError]. *)
Definition lookup_version (project_id service_id version_id : string)
  : option VersionDetails :=
  match projects_manager env !! project_id with
  | None => None
  | Some project_manager =>
      match project_manager !! service_id with
      | None => None
      | Some service_manager => service_manager !! version_id
      end
  end.

(** [max_memory] of [start_app], lines 318 to 323. *)
Definition max_memory_of (version_details : VersionDetails) : Z :=
  let max_memory :=
    default (DEFAULT_MAX_APPSERVER_MEMORY env) (default_max_appserver_memory env) in
  match instanceClass version_details with
  | Some cls => default max_memory (INSTANCE_CLASSES env !! cls)
  | None => max_memory
  end.

Definition pidfile_of (revision_key : string) (port : Z) : string :=
  "/var/run/appscale/app___" +:+ revision_key +:+ "-" +:+ Py.str port +:+ ".pid".

Definition is_python_front_end (runtime : string) : bool :=
  String.eqb runtime PYTHON27 || String.eqb runtime GO || String.eqb runtime PHP.

Definition setup_logrotate (app_name : string) (log_size : Z) : M bool :=
  tell (WriteLogrotate app_name log_size) ;;
  ret true.

Definition remove_logrotate (app_name : string) : M bool :=
  tell (RemoveLogrotate app_name) ;;
  if logrotate_removable env app_name then ret true
  else tell (Log ERROR "Error deleting logrotate script") ;; ret false.

Definition start_app (version_key : string) (config : Config) : M unit :=
  match app_port config with
  | None => raise (BadConfigurationException "app_port is required")
  | Some port =>
  match login_server config with
  | None | Some EmptyString =>
      raise (BadConfigurationException "login_server is required")
  | Some login_server =>
  match Py.split VERSION_PATH_SEPARATOR version_key with
  | [project_id; service_id; version_id] =>
      if negb (is_app_name_valid env project_id)
      then raise (BadConfigurationException ("Invalid project ID: " +:+ project_id))
      else
      match lookup_version project_id service_id version_id with
      | None => raise (BadConfigurationException "Version not found")
      | Some version_details =>
          let runtime := runtime version_details in
          let max_memory := max_memory_of version_details in
          let revision_key :=
            Py.join VERSION_PATH_SEPARATOR
              [project_id; service_id; version_id;
               Py.str (vd_revision version_details)] in
          let source_archive := sourceUrl version_details in
          api_server_port <- ensure_api_server project_id ;;
          tell (EnsureSource revision_key source_archive runtime) ;;
          tell (Log INFO "Starting application") ;;
          let pidfile := pidfile_of revision_key port in
          let watch := MONIT_INSTANCE_PREFIX +:+ revision_key in
          cmd <- (if is_python_front_end runtime
                  then ret (Python27Cmd project_id login_server port pidfile
                                        revision_key api_server_port)
                  else if String.eqb runtime JAVA
                  then
                    let max_heap := max_memory - 250 in
                    if max_heap <=? 0
                    then raise (BadConfigurationException
                           "Memory for Java applications must be greater than 250MB")
                    else ret (JavaCmd project_id port login_server max_heap pidfile
                                      revision_key api_server_port)
                  else raise (BadConfigurationException
                         ("Unknown runtime " +:+ runtime +:+ " for " +:+ project_id))) ;;
          tell (Log INFO "Start command") ;;
          create_config_file watch cmd pidfile port max_memory ;;
          let full_watch := instance_watch revision_key port in
          started <- monit_interface_start full_watch ;;
          (if started : bool then ret tt
           else raise (AssertionError
                  ("Monit was unable to start " +:+ project_id +:+ ":" +:+ Py.str port))) ;;
          ensure_version_node version_key ;;
          tell (SpawnCallback (AddRouting (mkInstance revision_key port))) ;;
          let log_size :=
            if String.eqb project_id (DASHBOARD_PROJECT_ID env)
            then DASHBOARD_LOG_SIZE env else APP_LOG_SIZE env in
          ok <- setup_logrotate project_id log_size ;;
          if ok : bool then ret tt
          else tell (Log ERROR "Error while setting up log rotation")
      end
  | _ => raise (ValueError "wrong number of values to unpack")
  end
  end
  end.

(** [entry[len(MONIT_INSTANCE_PREFIX):].rsplit('-', 1)[0]] *)
Definition entry_revision (entry : string) : string :=
  let rest := Py.slice_from (String.length MONIT_INSTANCE_PREFIX) entry in
  match Py.rsplit1 "-" rest with
  | Some (revision_key, _) => revision_key
  | None => rest
  end.

(** The revision keys of every version the projects manager knows. *)
Definition declared_revisions : list string :=
  flat_map (fun pm =>
    flat_map (fun sm =>
      map (fun vm =>
             Py.join VERSION_PATH_SEPARATOR
               [fst pm; fst sm; fst vm; Py.str (vd_revision (snd vm))])
          (map_to_list (snd sm)))
      (map_to_list (snd pm)))
    (map_to_list (projects_manager env)).

Definition clean_old_sources : M unit :=
  entries <- get_entries ;;
  let active_revisions : gset string :=
    list_to_set (map entry_revision
                     (List.filter (Py.startswith MONIT_INSTANCE_PREFIX) entries)) in
  tell (CleanOldRevisions (active_revisions ∪ list_to_set declared_revisions)).

Definition project_of (version_key : string) : string :=
  hd EmptyString (Py.split VERSION_PATH_SEPARATOR version_key).

Definition stop_app_instance (version_key : string) (port : Z) : M unit :=
  let project_id := project_of version_key in
  if negb (is_app_name_valid env project_id)
  then raise (BadConfigurationException ("Invalid project ID: " +:+ project_id))
  else
    tell (Log INFO "Stopping instance") ;;
    entries <- get_entries ;;
    match List.find (instance_key_re_match version_key port) entries with
    | None =>
        raise (HTTPError INTERNAL_ERROR
                 ("No entries exist for " +:+ version_key +:+ ":" +:+ Py.str port))
    | Some watch =>
        info <- lift (instance_info watch) ;;
        unregister_instance (mkInstance (fst info) (snd info)) ;;
        unmonitor_and_terminate watch ;;
        let project_prefix := MONIT_INSTANCE_PREFIX +:+ project_id in
        let remaining_instances :=
          List.filter (fun entry => Py.startswith project_prefix entry &&
                                    negb (instance_key_re_match version_key port entry))
                      entries in
        (match remaining_instances with
         | [] => stop_api_server project_id
         | _ :: _ => ret tt
         end) ;;
        tell MonitReload ;;
        clean_old_sources
    end.

Definition stop_app (version_key : string) : M unit :=
  let project_id := project_of version_key in
  if negb (is_app_name_valid env project_id)
  then raise (BadConfigurationException ("Invalid project ID: " +:+ project_id))
  else
    tell (Log INFO "Stopping version") ;;
    let version_group := MONIT_INSTANCE_PREFIX +:+ version_key in
    entries <- get_entries ;;
    let version_entries := List.filter (Py.startswith version_group) entries in
    for_each version_entries
      (fun entry =>
         info <- lift (instance_info entry) ;;
         unregister_instance (mkInstance (fst info) (snd info)) ;;
         unmonitor_and_terminate entry) ;;
    let project_prefix := MONIT_INSTANCE_PREFIX +:+ project_id in
    let remaining_instances :=
      List.filter (fun entry => Py.startswith project_prefix entry &&
                                negb (bool_decide (entry ∈ version_entries)))
                  entries in
    (match remaining_instances with
     | [] => stop_api_server project_id
     | _ :: _ => ret tt
     end) ;;
    (match projects_manager env !! project_id with
     | Some _ => ret tt
     | None =>
         removed <- remove_logrotate project_id ;;
         if removed : bool then ret tt
         else tell (Log ERROR "Error while removing log rotation")
     end) ;;
    tell MonitReload ;;
    clean_old_sources.

(** *** The event loop and the HTTP surface *)

(** The callbacks a run handed to [spawn_callback], in order. *)
Definition spawned (tr : list event) : list task :=
  omap (fun ev => match ev with SpawnCallback t => Some t | _ => None end) tr.

(** A spawned callback: [stop_instance] belongs to another module and is
    not followed; an exception of a callback is logged by the loop. *)
Definition run_callback (t : task) : M unit :=
  match t with
  | AddRouting instance =>
      try_except (add_routing instance)
        (fun _ => Some (tell (Log ERROR "Exception in callback")))
  | StopInstance _ => ret tt
  end.

(** A coroutine run to its end on the IOLoop, followed by the callbacks it
    spawned. *)
Definition on_ioloop {A} (m : M A) : M A := fun st =>
  match m st with
  | (r, st1, tr1) =>
      match for_each (spawned tr1) run_callback st1 with
      | (_, st2, tr2) => (r, st2, tr1 ++ tr2)
      end
  end.

(** [VersionHandler.post]: a [BadConfigurationException] of [start_app] is
    raised again as [HTTPError(HTTPCodes.BAD_REQUEST, error.message)]. *)
Definition VersionHandler_post (version_key : string) (config : Config) : M unit :=
  try_except (start_app version_key config)
    (fun e => match e with
              | BadConfigurationException value => Some (raise (HTTPError BAD_REQUEST value))
              | _ => None
              end).

(** [InstanceHandler.delete], after [int(port)]. *)
Definition InstanceHandler_delete (version_key : string) (port : Z) : M unit :=
  try_except (stop_app_instance version_key port)
    (fun e => match e with
              | BadConfigurationException value => Some (raise (HTTPError BAD_REQUEST value))
              | _ => None
              end).

End AppManager.

(** ** The rest of the module *)

Section Handlers.

Variable env : Env.

(** [VersionHandler.delete]. *)
Definition VersionHandler_delete (version_key : string) : M unit :=
  try_except (stop_app env version_key)
    (fun e => match e with
              | BadConfigurationException value => Some (raise (HTTPError BAD_REQUEST value))
              | _ => None
              end).

End Handlers.

(** *** What Tornado answers *)

(** [isinstance(e, tornado.web.HTTPError)], with the status code of the
    exception when it is one.  The name [HTTPError] of this module is bound
    to [tornado.httpclient.HTTPError] (line 22, [from tornado.httpclient
    import HTTPError]; [tornado.web] is imported as a module only, line
    14), a class of its own that [tornado.web.HTTPError] is no base of: no
    exception that the module raises is a [tornado.web.HTTPError]. *)
Definition web_http_error (e : exn) : option Z :=
  match e with
  | BadConfigurationException _ => None
  | HTTPError _ _ => None
  | ProcessNotFound _ => None
  | AssertionError _ => None
  | ValueError _ => None
  | NoNodeError _ => None
  end.

(** The status of the response to a request, from the outcome of its
    handler: [RequestHandler._handle_request_exception] answers a
    [tornado.web.HTTPError] with the status it carries and every other
    exception with 500; a handler that returns has left the status at
    200. *)
Definition response_status {A} (outcome : exn + A) : Z :=
  match outcome with
  | inr _ => 200
  | inl e => default 500 (web_http_error e)
  end.

(** *** Failure detector *)

(** A server of a proxy, and a proxy, in the statistics that Hermes
    reports: the fields that [get_failed_instances] reads. *)
Record ServerStats : Type := mkServerStats {
  server_private_ip : string;
  server_port : Z;
  server_status : string
}.

Record ProxyStats : Type := mkProxyStats {
  proxy_name : string;
  proxy_servers : list ServerStats
}.

(** The exceptions of a run of the periodic callback: those of the module
    and the one of Python's set iterator. *)
Inductive tick_exn : Type :=
| Raised (e : exn)
| RuntimeError (message : string).

Definition tick_result {A} (r : (tick_exn + A) * State * list event) : tick_exn + A :=
  fst (fst r).
Definition tick_final {A} (r : (tick_exn + A) * State * list event) : State :=
  snd (fst r).

Section FailureDetector.

Variable env : Env.

(** The outcome of the request to Hermes, decoded:
    [json.loads(response.body)['proxies_stats']], or what was raised on the
    way. *)
Variable proxies_stats : exn + list ProxyStats.

(** The order in which Python iterates over a set. *)
Variable iteration_order : gset Instance -> list Instance.

(** The body of [get_failed_instances] after the response: the servers of
    the [gae_] proxies that are on this machine and whose status starts
    with [DOWN]. *)
Definition failed_of (proxy_stats : list ProxyStats) : gset (string * Z) :=
  let routed_versions :=
    List.filter (fun server => Py.startswith "gae_" (proxy_name server)) proxy_stats in
  list_to_set
    (flat_map
       (fun version =>
          let version_key := Py.slice_from (String.length "gae_") (proxy_name version) in
          flat_map
            (fun server =>
               if negb (String.eqb (server_private_ip server) (private_ip env)) then []
               else if negb (Py.startswith "DOWN" (server_status server)) then []
               else [(version_key, server_port server)])
            (proxy_servers version))
       routed_versions).

Definition get_failed_instances : M (gset (string * Z)) :=
  proxy_stats <- lift proxies_stats ;;
  ret (failed_of proxy_stats).

(** [for instance in running_instances: ...] of [stop_failed_instances].
    [used] is the size of the set when the iteration began and [todo] the
    instances still to come.  The iterator compares the size of the set
    with [used] each time it is asked for the next instance, the time that
    finds it exhausted included, and raises [RuntimeError] when they
    differ. *)
Fixpoint stop_failed_loop (failed_instances : gset (string * Z)) (used : nat)
    (todo : list Instance) (st : State) : (tick_exn + unit) * State * list event :=
  if negb (size (running_instances st) =? used)%nat
  then (inl (RuntimeError "Set changed size during iteration"), st, [])
  else
    match todo with
    | [] => (inr tt, st, [])
    | instance :: todo' =>
        if bool_decide ((version_key instance, port instance) ∈ failed_instances)
        then
          match stop_app_instance env (version_key instance) (port instance) st with
          | (inl e, st1, tr1) => (inl (Raised e), st1, tr1)
          | (inr _, st1, tr1) =>
              match stop_failed_loop failed_instances used todo' st1 with
              | (r, st2, tr2) => (r, st2, tr1 ++ tr2)
              end
          end
        else stop_failed_loop failed_instances used todo' st
    end.

Definition stop_failed_instances (st : State) : (tick_exn + unit) * State * list event :=
  match get_failed_instances st with
  | (inl e, st1, tr1) => (inl (Raised e), st1, tr1)
  | (inr failed_instances, st1, tr1) =>
      match stop_failed_loop failed_instances (size (running_instances st1))
              (iteration_order (running_instances st1)) st1 with
      | (r, st2, tr2) => (r, st2, tr1 ++ tr2)
      end
  end.

End FailureDetector.

(** *** Recovery when the module starts *)

(** The exceptions of [recover_state]: those of the module, and the two
    that the reading of a command line can raise besides [ValueError]. *)
Inductive boot_exn : Type :=
| Failed (e : exn)
| StopIteration
| IndexError (message : string).

(** What [recover_state] does to the outside world: the events of the
    module, and [os.killpg(group, signal.SIGKILL)]. *)
Inductive boot_event : Type :=
| Engine (ev : event)
| KillProcessGroup (group : Z).

Definition B (A : Type) : Type := State -> (boot_exn + A) * State * list boot_event.

Definition boot_ret {A} (a : A) : B A := fun st => (inr a, st, []).

Definition boot_bind {A C} (m : B A) (k : A -> B C) : B C := fun st =>
  match m st with
  | (inl e, st1, tr1) => (inl e, st1, tr1)
  | (inr a, st1, tr1) =>
      match k a st1 with
      | (r, st2, tr2) => (r, st2, tr1 ++ tr2)
      end
  end.

(** A computation of the module, run during recovery. *)
Definition engine {A} (m : M A) : B A := fun st =>
  match m st with
  | (inl e, st1, tr1) => (inl (Failed e), st1, map Engine tr1)
  | (inr a, st1, tr1) => (inr a, st1, map Engine tr1)
  end.

Definition boot_lift {A} (r : boot_exn + A) : B A := fun st => (r, st, []).

Definition boot_tell (ev : boot_event) : B unit := fun st => (inr tt, st, [ev]).

Declare Scope boot_scope.
Delimit Scope boot_scope with B.
Notation "x <- m ;; k" := (boot_bind m (fun x => k))
  (at level 100, m at next level, right associativity) : boot_scope.
Notation "m ;; k" := (boot_bind m (fun _ => k))
  (at level 100, right associativity) : boot_scope.

Fixpoint boot_for_each {A} (xs : list A) (body : A -> B unit) : B unit :=
  match xs with
  | [] => boot_ret tt
  | x :: xs' => (body x ;; boot_for_each xs' body)%B
  end.

Definition boot_result {A} (r : (boot_exn + A) * State * list boot_event)
  : boot_exn + A := fst (fst r).
Definition boot_final {A} (r : (boot_exn + A) * State * list boot_event) : State :=
  snd (fst r).
Definition boot_trace {A} (r : (boot_exn + A) * State * list boot_event)
  : list boot_event := snd r.

(** [parts[-2]] *)
Definition last_but_one (parts : list string) : boot_exn + string :=
  match rev parts with
  | _ :: part :: _ => inr part
  | _ => inl (IndexError "list index out of range")
  end.

(** [next(arg for arg in cmd if test(arg))] *)
Definition next_arg (test : string -> bool) (cmd : list string) : boot_exn + string :=
  match List.find test cmd with
  | Some arg => inr arg
  | None => inl StopIteration
  end.

(** [cmd.index(arg)] *)
Fixpoint index_of (arg : string) (cmd : list string) : option nat :=
  match cmd with
  | [] => None
  | a :: cmd' => if String.eqb a arg then Some O else S <$> index_of arg cmd'
  end.

(** [int(text)] *)
Definition int_of (text : string) : boot_exn + Z :=
  match Py.int text with
  | Some n => inr n
  | None => inl (Failed (ValueError "invalid literal for int()"))
  end.

Section Recovery.

Variable env : Env.

(** [state == MonitStates.UNMONITORED] for the state that
    [monit_operator.get_entries_sync()] gives with the watch. *)
Variable unmonitored : string -> bool.

(** The processes of [psutil.process_iter()]: the process id with
    [process.cmdline()]. *)
Variable processes : list (Z * list string).

(** [os.getpgid]. *)
Variable getpgid : Z -> Z.

(** The imported constants that [clean_up_instances] tells AppServer
    processes by. *)
Variables JAVA_APPSERVER_CLASS PYTHON_APPSERVER APPS_PATH : string.

(** The body of the loop of [clean_up_instances] up to the test against
    [monitored]: the revision and the port that a command line names,
    [None] for a command line that is passed over. *)
Definition process_instance (cmd : list string) : boot_exn + option (string * Z) :=
  if (length cmd <? 2)%nat then inr None
  else if bool_decide (JAVA_APPSERVER_CLASS ∈ cmd) then
    match last_but_one (Py.split "/" (List.last cmd EmptyString)) with
    | inl e => inl e
    | inr revision =>
        match next_arg (Py.startswith "--port=") cmd with
        | inl e => inl e
        | inr port_arg =>
            match int_of (List.last (Py.split "=" port_arg) EmptyString) with
            | inl e => inl e
            | inr port => inr (Some (revision, port))
            end
        end
    end
  else if String.eqb (nth 1 cmd EmptyString) PYTHON_APPSERVER then
    match next_arg (Py.startswith APPS_PATH) cmd with
    | inl e => inl e
    | inr source_arg =>
        match last_but_one (Py.split "/" source_arg) with
        | inl e => inl e
        | inr revision =>
            match index_of "--port" cmd with
            | None => inl (Failed (ValueError "'--port' is not in list"))
            | Some i =>
                match cmd !! S i with
                | None => inl (IndexError "list index out of range")
                | Some port_text =>
                    match int_of port_text with
                    | inl e => inl e
                    | inr port => inr (Some (revision, port))
                    end
                end
            end
        end
    end
  else inr None.

(** The first loop of [clean_up_instances]: the processes [to_stop]. *)
Fixpoint unaccounted (monitored : gset (string * Z)) (procs : list (Z * list string))
  : boot_exn + list Z :=
  match procs with
  | [] => inr []
  | (pid, cmd) :: procs' =>
      match process_instance cmd with
      | inl e => inl e
      | inr found =>
          match unaccounted monitored procs' with
          | inl e => inl e
          | inr to_stop =>
              inr (match found with
                   | Some key =>
                       if bool_decide (key ∈ monitored) then to_stop else pid :: to_stop
                   | None => to_stop
                   end)
          end
      end
  end.

Definition clean_up_instances (monit_entries : list (string * Z)) : B unit :=
  (let monitored : gset (string * Z) := list_to_set monit_entries in
   to_stop <- boot_lift (unaccounted monitored processes) ;;
   match to_stop with
   | [] => boot_ret tt
   | _ :: _ =>
       boot_tell (Engine (Log INFO "Killing unmonitored instances")) ;;
       boot_for_each to_stop (fun pid => boot_tell (KillProcessGroup (getpgid pid)))
   end)%B.

Definition recover_state : B (gset Instance) :=
  (boot_tell (Engine (Log INFO "Getting current state")) ;;
   monit_entries <- engine get_entries ;;
   let instance_entries :=
     List.filter (Py.startswith MONIT_INSTANCE_PREFIX) monit_entries in
   let removed := List.filter unmonitored instance_entries in
   boot_for_each removed (fun entry => engine (remove_configuration entry)) ;;
   let instance_entries := List.filter (fun entry => negb (unmonitored entry))
                                       instance_entries in
   match removed with
   | [] => boot_ret tt
   | _ :: _ => boot_tell (Engine MonitReload)
   end ;;
   instance_details <- engine (lift (map_raising instance_info instance_entries)) ;;
   clean_up_instances instance_details ;;
   let running_versions : gset string :=
     list_to_set (map (fun instance =>
                         Py.join "_" (take 3 (Py.split "_" (fst instance))))
                      instance_details) in
   boot_tell (Engine (ZkEnsurePath VERSION_REGISTRATION_NODE)) ;;
   boot_for_each (elements running_versions)
     (fun version_key => engine (ensure_version_node version_key)) ;;
   let running_instances : gset Instance :=
     list_to_set (map (fun instance => mkInstance (fst instance) (snd instance))
                      instance_details) in
   engine (declare_instance_nodes env running_instances) ;;
   boot_ret running_instances)%B.

(** [running_instances = recover_state(zk_client)] of the main program. *)
Definition main_recover_state : B unit :=
  (recovered <- recover_state ;;
   engine (modify (set_running_instances (fun _ => recovered))))%B.

End Recovery.

(** ** What the properties are stated with *)

(** The port the spec assigns: [min(MAX_PORT, min(assigned_ports) - 1)],
    and the ceiling itself when no port is assigned. *)
Definition port_below_assigned (servers : gmap string Z) (p : Z) : Prop :=
  (servers = ∅ /\ p = MAX_API_SERVER_PORT) \/
  (exists m, (exists k, servers !! k = Some m) /\
             (forall k q, servers !! k = Some q -> m <= q) /\
             p = Z.min MAX_API_SERVER_PORT (m - 1)).

(** [k] requests that ended in an [IOError], each followed by the pause
    of [BACKOFF_TIME] seconds. *)
Definition failed_attempts (url : string) (k : nat) : list event :=
  concat (replicate k [OpenUrl url; Sleep BACKOFF_TIME]).

(** The seconds a run spent in [gen.sleep]. *)
Definition slept (tr : list event) : Z :=
  fold_right (fun ev acc => match ev with Sleep s => s + acc | _ => acc end) 0 tr.

(** The warning of [wait_on_app] about a status other than 200. *)
Definition status_warning (code : Z) : list event :=
  if negb (code =? HTTP_OK) then [Log WARNING "unexpected status"] else [].

(** Classes of events. *)
Definition is_ensure_api_server (ev : event) : bool :=
  match ev with Call (EnsureApiServer _) => true | _ => false end.

Definition is_instance_config (ev : event) : bool :=
  match ev with
  | CreateConfigFile watch _ _ _ _ => Py.startswith MONIT_INSTANCE_PREFIX watch
  | _ => false
  end.

Definition is_ensure_source (ev : event) : bool :=
  match ev with EnsureSource _ _ _ => true | _ => false end.

Definition is_instance_start (ev : event) : bool :=
  match ev with
  | MonitStart full_watch => Py.startswith MONIT_INSTANCE_PREFIX full_watch
  | _ => false
  end.

Definition is_register (ev : event) : bool :=
  match ev with Call (RegisterInstance _) => true | _ => false end.

(** An event that retracts, unmonitors, removes a configuration or
    schedules a termination. *)
Definition is_teardown (ev : event) : bool :=
  match ev with
  | Call (UnregisterInstance _) | ZkDelete _ | UnmonitorPost _
  | RemoveConfiguration _ | SpawnCallback (StopInstance _) => true
  | _ => false
  end.

(** The events of a health probe and of logging. *)
Definition is_probe_or_log (ev : event) : bool :=
  match ev with
  | Log _ _ | OpenUrl _ | Sleep _ => true
  | _ => false
  end.

Definition is_unmonitor_post (ev : event) : bool :=
  match ev with UnmonitorPost _ => true | _ => false end.

(** [happens_before a b tr]: every event of class [b] in [tr] comes after
    some event of class [a]; [seen] tells whether an [a] has been met. *)
Fixpoint happens_before_from (seen : bool) (a b : event -> bool) (tr : list event)
  : bool :=
  match tr with
  | [] => true
  | ev :: tr' =>
      (if b ev then seen else true) && happens_before_from (seen || a ev) a b tr'
  end.

Definition happens_before (a b : event -> bool) (tr : list event) : bool :=
  happens_before_from false a b tr.

(** The version record of a version key, as [start_app] looks it up. *)
Definition version_record (env : Env) (vk : string) : option VersionDetails :=
  match Py.split VERSION_PATH_SEPARATOR vk with
  | [project_id; service_id; version_id] =>
      lookup_version env project_id service_id version_id
  | _ => None
  end.

(** The runtime is not served: it is none of the Python front-end runtimes
    and is either not [java] at all or [java] with too little memory. *)
Definition runtime_refused (env : Env) (vd : VersionDetails) : bool :=
  negb (is_python_front_end (runtime vd)) &&
  (negb (String.eqb (runtime vd) JAVA) || (max_memory_of env vd - 250 <=? 0)).

(** The preconditions of [start] as the spec lists them: a missing
    [app_port], a missing [login_server], an invalid project id, no version
    record, an unknown runtime, or [java] with [maxMemory - 250 <= 0]. *)
Definition precondition_violated (env : Env) (vk : string) (config : Config) : bool :=
  bool_decide (app_port config = None) ||
  bool_decide (login_server config = None) ||
  negb (is_app_name_valid env (project_of vk)) ||
  match version_record env vk with
  | None => true
  | Some vd => runtime_refused env vd
  end.

(** The API server of the project is there for [start_app]: its port is
    cached, or Monit starts its watch. *)
Definition api_server_ensured (env : Env) (st : State) (project_id : string) : bool :=
  match api_servers st !! project_id with
  | Some _ => true
  | None =>
      monit_start env
        (api_server_watch project_id (next_api_server_port (values (api_servers st))))
  end.

(** When [start_app] raises [BadConfigurationException]. *)
Definition bad_configuration (env : Env) (st : State) (vk : string) (config : Config)
  : bool :=
  match app_port config with
  | None => true
  | Some _ =>
  match login_server config with
  | None | Some EmptyString => true
  | Some _ =>
  match Py.split VERSION_PATH_SEPARATOR vk with
  | [project_id; service_id; version_id] =>
      if negb (is_app_name_valid env project_id) then true
      else match lookup_version env project_id service_id version_id with
           | None => true
           | Some vd => api_server_ensured env st project_id && runtime_refused env vd
           end
  | _ => false
  end
  end
  end.

(** Monit answers the request to unmonitor [name] or does not know the
    process: [unmonitor] returns or raises [ProcessNotFound], and no
    [HTTPError] escapes. *)
Definition unmonitor_quiet (env : Env) (name : string) : Prop :=
  forall st code message,
    result (unmonitor env name st) <> inl (HTTPError code message).

(** The teardown of the API server of a project, should the stop reach it,
    meets no [HTTPError]. *)
Definition api_server_teardown_quiet (env : Env) (st : State) (project_id : string)
  : Prop :=
  forall port,
    api_servers st !! project_id = Some port ->
    unmonitor_quiet env (API_SERVER_PREFIX +:+ project_id +:+ "-" +:+ Py.str port).

(** The calls of functions of the module that a run made, in order. *)
Definition calls (tr : list event) : list call :=
  omap (fun ev => match ev with Call c => Some c | _ => None end) tr.

(** [instance] is the reading of a child of a version node whose IP is the
    private IP of this node. *)
Definition local_entry (env : Env) (zk : gmap string (gmap string string))
    (instance : Instance) : Prop :=
  exists version_key children instance_entry payload port,
    zk !! version_key = Some children /\
    children !! instance_entry = Some payload /\
    hd EmptyString (Py.split ":" instance_entry) = private_ip env /\
    Py.int (List.last (Py.split ":" instance_entry) EmptyString) = Some port /\
    instance = mkInstance (Py.join VERSION_PATH_SEPARATOR [version_key; payload]) port.

(** Every child of this node in the registry ends in a port number. *)
Definition registry_parses (env : Env) (zk : gmap string (gmap string string)) : Prop :=
  forall version_key children instance_entry payload,
    zk !! version_key = Some children ->
    children !! instance_entry = Some payload ->
    hd EmptyString (Py.split ":" instance_entry) = private_ip env ->
    is_Some (Py.int (List.last (Py.split ":" instance_entry) EmptyString)).

(** The version node of every running instance exists, as
    [recover_state] ensures before it reconciles. *)
Definition version_nodes_exist (zk : gmap string (gmap string string))
    (running : gset Instance) : Prop :=
  forall instance, instance ∈ running -> is_Some (zk !! version_key instance).

(** [entry] is named by the pattern [instance_{versionKey}*-{port}] of the
    spec, read on the whole watch name: the name of an instance watch
    ([instance_{revisionKey}-{port}]) of some revision of the version, on
    that port. *)
Definition names_version_port (version_key : string) (port : Z) (entry : string) : bool :=
  let head := MONIT_INSTANCE_PREFIX +:+ version_key in
  Py.startswith head entry &&
  Py.endswith ("-" +:+ Py.str port) (Py.slice_from (String.length head) entry).

(** The project of an instance watch: the first component of its revision
    key; [None] for a watch of another family. *)
Definition entry_project (entry : string) : option string :=
  if Py.startswith MONIT_INSTANCE_PREFIX entry
  then Some (project_of (entry_revision entry))
  else None.

(** The instance watches of a project that Monit lists. *)
Definition project_instances (st : State) (project_id : string) : list string :=
  List.filter (fun entry => bool_decide (entry_project entry = Some project_id))
              (monit_entries st).

(** No two projects share an API-server port. *)
Definition ports_distinct (servers : gmap string Z) : Prop :=
  forall project1 project2 port,
    servers !! project1 = Some port -> servers !! project2 = Some port ->
    project1 = project2.

(** [m] raises nothing but exceptions of the kind [P]. *)
Definition raises_only {A} (P : exn -> Prop) (m : M A) : Prop :=
  forall st e, result (m st) = inl e -> P e.

Definition is_http_or_value_error (e : exn) : Prop :=
  match e with
  | HTTPError _ _ | ValueError _ => True
  | _ => False
  end.

(** The port of the external API server that a start command names. *)
Definition cmd_api_server_port (cmd : start_cmd) : option Z :=
  match cmd with
  | ApiServerCmd _ _ _ => None
  | Python27Cmd _ _ _ _ _ api_server_port => Some api_server_port
  | JavaCmd _ _ _ _ _ _ api_server_port => Some api_server_port
  end.

(** Monit's list of watches once [full_watch] has been started. *)
Definition with_watch (full_watch : string) (entries : list string) : list string :=
  if bool_decide (full_watch ∈ entries) then entries else entries ++ [full_watch].

(** The start command of an instance, as [start_app] builds it for the
    runtimes it serves. *)
Definition instance_cmd (env : Env) (vd : VersionDetails) (project_id login : string)
    (port : Z) (revision_key : string) (api_server_port : Z) : start_cmd :=
  if is_python_front_end (runtime vd)
  then Python27Cmd project_id login port (pidfile_of revision_key port) revision_key
                   api_server_port
  else JavaCmd project_id port login (max_memory_of env vd - 250)
               (pidfile_of revision_key port) revision_key api_server_port.

(** [m] takes every state to one that [R] relates it to, whether it
    returns or raises. *)
Definition preserves {A} (R : State -> State -> Prop) (m : M A) : Prop :=
  forall st, R st (final (m st)).

(** The registrations are the same in both states. *)
Definition same_registry (st st' : State) : Prop :=
  running_instances st' = running_instances st /\ zk_nodes st' = zk_nodes st.

(** Monit lists the same watches in both states. *)
Definition same_watches (st st' : State) : Prop :=
  monit_entries st' = monit_entries st.

(** Monit lists no watch in the second state that it did not list in the
    first. *)
Definition fewer_watches (st st' : State) : Prop :=
  forall watch, watch ∈ monit_entries st' -> watch ∈ monit_entries st.

(** The instances that the stop paths parse from watch names. *)
Definition parsed_instances (infos : list (string * Z)) : list Instance :=
  map (fun info => mkInstance (fst info) (snd info)) infos.

(** The registry once the child of [instance] is deleted. *)
Definition retracted (env : Env) (zk : gmap string (gmap string string))
    (instance : Instance) : gmap string (gmap string string) :=
  alter (delete (instance_entry env instance)) (version_key instance) zk.

(** [api_servers] after the assignments [api_servers[project_id] = port]
    for each pair of [servers], in order. *)
Definition assigned (servers : list (string * Z)) (api_servers : gmap string Z)
  : gmap string Z :=
  foldl (fun m info => <[fst info := snd info]> m) api_servers servers.

(** [order] lists the elements of a set, each once. *)
Definition iterates (order : gset Instance -> list Instance) : Prop :=
  forall s, order s ≡ₚ elements s.

(** The process groups that a run killed, in order. *)
Definition kills (tr : list boot_event) : list Z :=
  omap (fun ev => match ev with KillProcessGroup group => Some group | _ => None end) tr.

(** The second state has the version nodes of the first, and the same API
    servers and watches. *)
Definition keeps_nodes (st st' : State) : Prop :=
  (forall version_key, is_Some (zk_nodes st !! version_key) ->
                       is_Some (zk_nodes st' !! version_key)) /\
  api_servers st' = api_servers st /\
  monit_entries st' = monit_entries st.




(** ** A concrete node *)

(** Project identifiers of the concrete node: lower case letters, digits
    and hyphens. *)
Definition id_char (c : ascii) : bool :=
  let n := nat_of_ascii c in
  ((97 <=? n) && (n <=? 122))%nat || ((48 <=? n) && (n <=? 57))%nat || (n =? 45)%nat.

Fixpoint all_chars (f : ascii -> bool) (s : string) : bool :=
  match s with
  | EmptyString => true
  | String c s' => f c && all_chars f s'
  end.

Definition guestbook_v1 : VersionDetails :=
  mkVersionDetails "python27" None 3 "/opt/appscale/apps/proj.tar.gz".

Definition node_env : Env := {|
  private_ip := "10.0.0.2";
  is_app_name_valid := fun s => negb (String.eqb s EmptyString) && all_chars id_char s;
  zk_locations := ["10.0.0.1"];
  monit_start := fun _ => true;
  unmonitor_response := fun _ _ => None;
  open_url := fun _ _ => Some 200;
  projects_manager := {[ "proj" := {[ "default" := {[ "v1" := guestbook_v1 ]} ]} ]};
  default_max_appserver_memory := None;
  DEFAULT_MAX_APPSERVER_MEMORY := 400;
  INSTANCE_CLASSES := {[ "F1" := 128; "F4" := 512 ]};
  DASHBOARD_PROJECT_ID := "appscaledashboard";
  DASHBOARD_LOG_SIZE := 10485760;
  APP_LOG_SIZE := 262144000;
  logrotate_removable := fun _ => true
|}.

Definition empty_state : State := mkState ∅ ∅ ∅ [].

(** Two API servers are assigned, on 19997 and 19998. *)
Definition two_servers : State :=
  mkState {[ "alpha" := 19997; "beta" := 19998 ]} ∅ ∅
          ["api-server_alpha-19997"; "api-server_beta-19998"].

Definition with_open_url (f : string -> nat -> option Z) (e : Env) : Env :=
  mkEnv (private_ip e) (is_app_name_valid e) (zk_locations e) (monit_start e)
        (unmonitor_response e) f (projects_manager e)
        (default_max_appserver_memory e) (DEFAULT_MAX_APPSERVER_MEMORY e)
        (INSTANCE_CLASSES e) (DASHBOARD_PROJECT_ID e) (DASHBOARD_LOG_SIZE e)
        (APP_LOG_SIZE e) (logrotate_removable e).

Definition with_unmonitor_response (f : string -> nat -> option Z) (e : Env) : Env :=
  mkEnv (private_ip e) (is_app_name_valid e) (zk_locations e) (monit_start e)
        f (open_url e) (projects_manager e)
        (default_max_appserver_memory e) (DEFAULT_MAX_APPSERVER_MEMORY e)
        (INSTANCE_CLASSES e) (DASHBOARD_PROJECT_ID e) (DASHBOARD_LOG_SIZE e)
        (APP_LOG_SIZE e) (logrotate_removable e).

(** The instance answers the third request with a redirection. *)
Definition redirecting_env : Env :=
  with_open_url (fun _ k => if (k <? 2)%nat then None else Some 302) node_env.

(** The instance never answers. *)
Definition silent_env : Env := with_open_url (fun _ _ => None) node_env.

(** Monit has lost track of every process. *)
Definition forgetful_env : Env := with_unmonitor_response (fun _ _ => Some 404) node_env.

(** One instance of [proj_default_v1], revision 3, runs on port 8080. *)
Definition one_instance : State :=
  mkState {[ "proj" := 19999 ]}
          {[ mkInstance "proj_default_v1_3" 8080 ]}
          {[ "proj_default_v1" := {[ "10.0.0.2:8080" := "3" ]} ]}
          ["api-server_proj-19999"; "instance_proj_default_v1_3-8080"].



(** The only instance of [proj_default_v1] listens on port 20000. *)
Definition high_port_instance : State :=
  mkState {[ "proj" := 19999 ]}
          {[ mkInstance "proj_default_v1_3" 20000 ]}
          {[ "proj_default_v1" := {[ "10.0.0.2:20000" := "3" ]} ]}
          ["api-server_proj-19999"; "instance_proj_default_v1_3-20000"].

(** The projects [proj] and [proj2] have one instance each. *)
Definition two_projects : State :=
  mkState {[ "proj" := 19999; "proj2" := 19998 ]}
          {[ mkInstance "proj_default_v1_3" 8080; mkInstance "proj2_default_v1_1" 8081 ]}
          {[ "proj_default_v1" := {[ "10.0.0.2:8080" := "3" ]};
             "proj2_default_v1" := {[ "10.0.0.2:8081" := "1" ]} ]}
          ["api-server_proj-19999"; "api-server_proj2-19998";
           "instance_proj_default_v1_3-8080"; "instance_proj2_default_v1_1-8081"].

(** Monit is busy for the first two requests. *)
Definition busy_env : Env :=
  with_unmonitor_response
    (fun _ attempt => if (attempt <? 2)%nat then Some 503 else None) node_env.

(** A version of a runtime that the module does not serve. *)
Definition ruby_v1 : VersionDetails :=
  mkVersionDetails "ruby" None 1 "/opt/appscale/apps/legacy.tar.gz".

Definition legacy_env : Env :=
  mkEnv (private_ip node_env) (is_app_name_valid node_env) (zk_locations node_env)
        (monit_start node_env) (unmonitor_response node_env) (open_url node_env)
        {[ "legacy" := {[ "default" := {[ "v1" := ruby_v1 ]} ]} ]}
        (default_max_appserver_memory node_env) (DEFAULT_MAX_APPSERVER_MEMORY node_env)
        (INSTANCE_CLASSES node_env) (DASHBOARD_PROJECT_ID node_env)
        (DASHBOARD_LOG_SIZE node_env) (APP_LOG_SIZE node_env)
        (logrotate_removable node_env).

(** The module has just been started again: it remembers nothing, while
    Monit still lists two API servers and one instance. *)
Definition after_restart : State :=
  mkState ∅ ∅ ∅
          ["api-server_alpha-19997"; "api-server_beta-19998";
           "instance_alpha_default_v1_1-8080"].

(** HAProxy has marked both instances of [two_projects] as down, and a
    server of another machine as well. *)
Definition both_down : list ProxyStats :=
  [mkProxyStats "gae_proj_default_v1"
     [mkServerStats "10.0.0.2" 8080 "DOWN 1/2"; mkServerStats "10.0.0.9" 8080 "DOWN"];
   mkProxyStats "gae_proj2_default_v1" [mkServerStats "10.0.0.2" 8081 "DOWN"];
   mkProxyStats "appscale_dashboard" [mkServerStats "10.0.0.2" 1080 "DOWN"]].

(** Three processes: the AppServers of two revisions and another
    program; the constants that tell an AppServer are those of the
    sample. *)
Definition sample_processes : list (Z * list string) :=
  [(101, ["python"; "/opt/appserver/dev_appserver.py"; "--port"; "8080";
          "/var/apps/proj_default_v1_3/app"]);
   (102, ["python"; "/opt/appserver/dev_appserver.py"; "--port"; "8081";
          "/var/apps/proj_default_v1_2/app"]);
   (103, ["sshd"])].

(** Monit lists the instance of revision 3 as running and one of revision
    2 as unmonitored; the registry is empty. *)
Definition before_recovery : State :=
  mkState ∅ ∅ ∅
          ["api-server_proj-19999"; "instance_proj_default_v1_3-8080";
           "instance_proj_default_v1_2-8081"].

(** Monit starts the API servers and no instance. *)
Definition no_instance_env : Env :=
  mkEnv (private_ip node_env) (is_app_name_valid node_env) (zk_locations node_env)
        (fun full_watch => Py.startswith API_SERVER_PREFIX full_watch)
        (unmonitor_response node_env) (open_url node_env) (projects_manager node_env)
        (default_max_appserver_memory node_env) (DEFAULT_MAX_APPSERVER_MEMORY node_env)
        (INSTANCE_CLASSES node_env) (DASHBOARD_PROJECT_ID node_env)
        (DASHBOARD_LOG_SIZE node_env) (APP_LOG_SIZE node_env)
        (logrotate_removable node_env).

(** The node of [legacy_env] with a Monit that starts nothing. *)
Definition stalled_legacy_env : Env :=
  mkEnv (private_ip legacy_env) (is_app_name_valid legacy_env) (zk_locations legacy_env)
        (fun _ => false)
        (unmonitor_response legacy_env) (open_url legacy_env) (projects_manager legacy_env)
        (default_max_appserver_memory legacy_env) (DEFAULT_MAX_APPSERVER_MEMORY legacy_env)
        (INSTANCE_CLASSES legacy_env) (DASHBOARD_PROJECT_ID legacy_env)
        (DASHBOARD_LOG_SIZE legacy_env) (APP_LOG_SIZE legacy_env)
        (logrotate_removable legacy_env).



(** The API server of [proj] runs and no instance of the project does. *)
Definition lone_api_server : State :=
  mkState {[ "proj" := 19999 ]} ∅ ∅ ["api-server_proj-19999"].

(** * Properties *)

(** ** The Python primitives on concrete inputs *)

Example str_19996 : Py.str 19996 = "19996".
Proof. reflexivity. Qed.

Example int_8080 : Py.int "8080" = Some 8080.
Proof. reflexivity. Qed.

Example int_signed :
  Py.int "+19997" = Some 19997 /\ Py.int "-12" = Some (-12) /\ Py.int "007" = Some 7.
Proof. repeat split; reflexivity. Qed.

Example int_blanks :
  Py.int " 8080" = Some 8080 /\ Py.int "- 12" = Some (-12) /\ Py.int " + 7 " = Some 7 /\
  Py.int (String "009" (String "032" ("8080" +:+ String "010" EmptyString))) = Some 8080.
Proof. repeat split; reflexivity. Qed.

Example int_refused :
  Py.int EmptyString = None /\ Py.int "+" = None /\ Py.int "-" = None /\
  Py.int "+-5" = None /\ Py.int "--5" = None /\ Py.int "80 80" = None /\
  Py.int "0x10" = None /\ Py.int "http" = None.
Proof. repeat split; reflexivity. Qed.

(** The watch names and the port that [int] reads with a sign. *)
Example api_server_info_signed :
  api_server_info "api-server_alpha-+19997" = inr ("alpha", 19997).
Proof. reflexivity. Qed.

Example instance_info_signed :
  instance_info "instance_proj_default_v1_3-+8080" = inr ("proj_default_v1_3", 8080).
Proof. reflexivity. Qed.

Example process_instance_signed :
  process_instance "DevAppServerMain" "/opt/appserver/dev_appserver.py" "/var/apps/"
    ["python"; "/opt/appserver/dev_appserver.py"; "--port"; "+8080";
     "/var/apps/proj_default_v1_3/app"]
  = inr (Some ("proj_default_v1_3", 8080)).
Proof. reflexivity. Qed.

Example rsplit1_watch :
  Py.rsplit1 "-" "api-server_guestbook-19999" = Some ("api-server_guestbook", "19999").
Proof. reflexivity. Qed.

Example split_version_key :
  Py.split "_" "proj_default_v1" = ["proj"; "default"; "v1"].
Proof. reflexivity. Qed.

Example split_trailing : Py.split "_" "a_" = ["a"; EmptyString].
Proof. reflexivity. Qed.

Example dot_star_then_ex : dot_star_then "-80" "_3-8080" = true.
Proof. reflexivity. Qed.

Example next_port_P4 : next_api_server_port [19997; 19998] = 19996.
Proof. reflexivity. Qed.

Example next_port_empty : next_api_server_port [] = 19999.
Proof. reflexivity. Qed.

Example probe_retries_180 : probe_retries = 180%nat.
Proof. reflexivity. Qed.

(** ** Strings: printing, parsing and splitting *)

Section StringFacts.

Lemma append_cons (c : ascii) (a b : string) :
  String c a +:+ b = String c (a +:+ b).
Proof. reflexivity. Qed.

Lemma append_nil (b : string) : EmptyString +:+ b = b.
Proof. reflexivity. Qed.

Lemma append_assoc (a b c : string) : (a +:+ b) +:+ c = a +:+ (b +:+ c).
Proof.
  induction a as [|x a IH]; [done|].
  by rewrite !append_cons, IH.
Qed.

Lemma slice_from_app (p s : string) :
  Py.slice_from (String.length p) (p +:+ s) = s.
Proof.
  induction p as [|c p IH]; [by destruct s|].
  rewrite append_cons. exact IH.
Qed.

Lemma rsplit1_absent (c : ascii) (s : string) :
  Py.mem_char c s = false -> Py.rsplit1 c s = None.
Proof.
  induction s as [|d s IH]; simpl; [done|].
  intros H. apply orb_false_elim in H as [Hd Hs].
  by rewrite (IH Hs), Hd.
Qed.

Lemma rsplit1_last (c : ascii) (pre suf : string) :
  Py.mem_char c suf = false ->
  Py.rsplit1 c (pre +:+ String c suf) = Some (pre, suf).
Proof.
  intros Hsuf. induction pre as [|d pre IH].
  - rewrite append_nil. simpl.
    by rewrite (rsplit1_absent _ _ Hsuf), Ascii.eqb_refl.
  - rewrite append_cons. simpl. by rewrite IH.
Qed.

Lemma digits_no_minus (d : uint) :
  Py.mem_char "-" (NilEmpty.string_of_uint d) = false.
Proof. induction d; simpl; auto. Qed.

Lemma str_no_minus (n : Z) : 0 <= n -> Py.mem_char "-" (Py.str n) = false.
Proof.
  intros Hn. unfold Py.str. destruct n as [|p|p]; [done| |lia].
  simpl. destruct (Pos.to_uint p); simpl; auto using digits_no_minus.
Qed.

(** What [str] prints has no blank and no plus sign in it. *)
Lemma digits_plain (d : uint) :
  all_chars (fun c => negb (Py.is_space c) && negb (Ascii.eqb c "+"))
            (NilEmpty.string_of_uint d) = true.
Proof. induction d; simpl; auto. Qed.

Lemma str_plain (n : Z) :
  all_chars (fun c => negb (Py.is_space c) && negb (Ascii.eqb c "+")) (Py.str n) = true.
Proof.
  unfold Py.str. destruct n as [|p|p]; [done| |]; simpl;
    destruct (Pos.to_uint p); simpl; auto using digits_plain.
Qed.

Lemma lstrip_plain (s : string) :
  all_chars (fun c => negb (Py.is_space c) && negb (Ascii.eqb c "+")) s = true ->
  Py.lstrip s = s.
Proof.
  destruct s as [|c s]; [done|]. cbn [all_chars Py.lstrip]. intros H.
  apply andb_prop in H as [H _]. apply andb_prop in H as [H _].
  by destruct (Py.is_space c).
Qed.

Lemma rstrip_plain (s : string) :
  all_chars (fun c => negb (Py.is_space c) && negb (Ascii.eqb c "+")) s = true ->
  Py.rstrip s = s.
Proof.
  induction s as [|c s IH]; [done|]. cbn [all_chars Py.rstrip]. intros H.
  apply andb_prop in H as [Hc Hs]. apply andb_prop in Hc as [Hc _].
  rewrite (IH Hs). destruct s; [|done]. by destruct (Py.is_space c).
Qed.

Lemma int_str (n : Z) : Py.int (Py.str n) = Some n.
Proof.
  pose proof (str_plain n) as Hplain.
  unfold Py.int. rewrite (lstrip_plain _ Hplain), (rstrip_plain _ Hplain).
  assert (Hparse : option_map Z.of_int (NilZero.int_of_string (Py.str n)) = Some n).
  { unfold Py.str. rewrite NilZero.isi.
    - simpl. by rewrite DecimalZ.of_to.
    - destruct n; simpl; try discriminate.
      intros [= H]. by apply DecimalPos.Unsigned.to_uint_nonnil in H.
    - destruct n; simpl; try discriminate.
      intros [= H]. by apply DecimalPos.Unsigned.to_uint_nonnil in H. }
  destruct (Py.str n) as [|c rest]; [done|].
  cbn [all_chars] in Hplain. apply andb_prop in Hplain as [Hc Hrest].
  apply andb_prop in Hc as [_ Hc]. apply negb_true_iff in Hc. rewrite Hc.
  unfold NilZero.int_of_string in Hparse.
  destruct (Ascii.eqb c "-").
  - rewrite (lstrip_plain _ Hrest).
    by destruct (NilZero.uint_of_string rest).
  - by destruct (NilZero.uint_of_string (String c rest)).
Qed.

Lemma startswith_app (p s : string) : Py.startswith p (p +:+ s) = true.
Proof.
  induction p as [|c p IH]; [done|].
  rewrite append_cons. simpl. by rewrite Ascii.eqb_refl.
Qed.

End StringFacts.

(** ** Watch names *)

(** C9.  The name of an API-server watch built by [ensure_api_server] is
    kept by the filter of [populate_api_servers] and parsed back by its
    [api_server_info] into the project and the port it was built from; the
    name of an instance watch built by [start_app] is parsed back by the
    expression of [recover_state] and of the stop paths into the revision
    key and the port.  Ports are not negative. *)
Theorem watch_names_round_trip (project_id revision_key : string) (port : Z) :
  0 <= port ->
  Py.startswith API_SERVER_PREFIX (api_server_watch project_id port) = true /\
  api_server_info (api_server_watch project_id port) = inr (project_id, port) /\
  Py.startswith MONIT_INSTANCE_PREFIX (instance_watch revision_key port) = true /\
  instance_info (instance_watch revision_key port) = inr (revision_key, port).
Proof.
  intros Hport. pose proof (str_no_minus port Hport) as Hminus.
  unfold api_server_watch, instance_watch, Py.join.
  cbn [String.concat]. split; [|split; [|split]].
  - rewrite append_assoc. apply startswith_app.
  - unfold api_server_info.
    change ("-" +:+ Py.str port) with (String "-" (Py.str port)).
    rewrite rsplit1_last by done. rewrite slice_from_app, int_str. done.
  - rewrite append_assoc. apply startswith_app.
  - unfold instance_info.
    rewrite append_assoc, slice_from_app.
    change ("-" +:+ Py.str port) with (String "-" (Py.str port)).
    rewrite rsplit1_last by done. by rewrite int_str.
Qed.

Lemma watch_names_round_trip_witness :
  0 <= 19999 /\
  api_server_info (api_server_watch "guestbook" 19999) = inr ("guestbook", 19999) /\
  instance_info (instance_watch "proj_default_v1_3" 8080) = inr ("proj_default_v1_3", 8080).
Proof.
  split; [lia|].
  split.
  - apply (watch_names_round_trip "guestbook" "proj_default_v1_3" 19999). lia.
  - apply (watch_names_round_trip "guestbook" "proj_default_v1_3" 8080). lia.
Defined.

(** ** API-server pool: port assignment *)

Section PortAssignment.

Let step (server_port port : Z) : Z :=
  if port <=? server_port then port - 1 else server_port.

Lemma port_loop_bounds (ports : list Z) (start : Z) :
  let r := fold_left step ports start in
  r <= start /\
  (forall q, q ∈ ports -> r <= q - 1) /\
  (r = start \/ exists q, q ∈ ports /\ r = q - 1).
Proof.
  revert start. induction ports as [|x ports IH]; intros start; simpl.
  - split; [lia|]. split; [|by left]. intros q Hq. by apply elem_of_nil in Hq.
  - destruct (IH (step start x)) as (Hle & Hall & Hex).
    assert (Hstep : step start x <= start /\ step start x <= x - 1 /\
                    (step start x = start \/ step start x = x - 1)).
    { unfold step. destruct (Z.leb_spec x start); lia. }
    split; [lia|]. split.
    + intros q Hq. apply elem_of_cons in Hq as [->|Hq]; [lia | by apply Hall].
    + destruct Hex as [Hex | (q & Hq & Hr)].
      * destruct Hstep as (_ & _ & [Hs | Hs]).
        -- left. lia.
        -- right. exists x. split; [apply elem_of_cons; by left | lia].
      * right. exists q. split; [apply elem_of_cons; by right | done].
Qed.

Lemma list_has_min (l : list Z) :
  l <> [] -> exists m, m ∈ l /\ forall q, q ∈ l -> m <= q.
Proof.
  induction l as [|x l IH]; [done|]. intros _.
  destruct l as [|y l].
  - exists x. split; [apply elem_of_cons; by left|].
    intros q Hq. apply elem_of_cons in Hq as [->|Hq]; [lia|by apply elem_of_nil in Hq].
  - destruct IH as (m & Hm & Hmall); [done|].
    destruct (Z.le_gt_cases x m).
    + exists x. split; [apply elem_of_cons; by left|].
      intros q Hq. apply elem_of_cons in Hq as [->|Hq]; [lia|].
      specialize (Hmall q Hq). lia.
    + exists m. split; [apply elem_of_cons; by right|].
      intros q Hq. apply elem_of_cons in Hq as [->|Hq]; [lia|by apply Hmall].
Qed.

Lemma elem_of_values (servers : gmap string Z) (q : Z) :
  q ∈ values servers <-> exists k, servers !! k = Some q.
Proof.
  unfold values. rewrite list_elem_of_fmap. split.
  - intros ([k v] & -> & Hkv). exists k. by apply elem_of_map_to_list in Hkv.
  - intros (k & Hk). exists (k, q). split; [done|]. by apply elem_of_map_to_list.
Qed.

Lemma next_api_server_port_below_assigned (servers : gmap string Z) :
  port_below_assigned servers (next_api_server_port (values servers)).
Proof.
  unfold next_api_server_port.
  destruct (port_loop_bounds (values servers) MAX_API_SERVER_PORT) as (Hle & Hall & Hex).
  fold step. set (r := fold_left step (values servers) MAX_API_SERVER_PORT) in *.
  destruct (decide (servers = ∅)) as [->|Hne].
  - left. split; [done|]. subst r. unfold values. by rewrite map_to_list_empty.
  - right.
    (* a least assigned port exists: the loop result points at it *)
    destruct Hex as [Hr | (q & Hq & Hr)].
    + (* every assigned port is above the ceiling *)
      apply map_choose in Hne as (k0 & q0 & Hk0).
      assert (Hin : q0 ∈ values servers) by (apply elem_of_values; eauto).
      assert (Hmin : exists m, m ∈ values servers /\ forall q, q ∈ values servers -> m <= q).
      { apply list_has_min. intros Hnil. rewrite Hnil in Hin. by apply elem_of_nil in Hin. }
      destruct Hmin as (m & Hm & Hmall).
      exists m. split; [by apply elem_of_values|]. split.
      * intros k q Hk. apply Hmall, elem_of_values. eauto.
      * specialize (Hall m Hm). lia.
    + exists q. split; [by apply elem_of_values|]. split.
      * intros k q' Hk.
        assert (Hq' : q' ∈ values servers) by (apply elem_of_values; eauto).
        specialize (Hall q' Hq'). lia.
      * lia.
Qed.

End PortAssignment.

(** C1.  [ensure_api_server] answers a project that is already in
    [api_servers] with the cached port and touches neither Monit nor the
    state.  For a new project the port is
    [min(MAX_API_SERVER_PORT, min(assigned ports) - 1)], the ceiling when no
    port is assigned; once Monit has started the watch the port is cached
    for the project and returned.  When Monit cannot start the watch the
    assertion fails and nothing is cached. *)
Theorem ensure_api_server_assigns (env : Env) (st : State) (project_id : string) :
  (forall cached, api_servers st !! project_id = Some cached ->
     ensure_api_server env project_id st
     = (inr cached, st, [Call (EnsureApiServer project_id)])) /\
  (api_servers st !! project_id = None ->
     let p := next_api_server_port (values (api_servers st)) in
     port_below_assigned (api_servers st) p /\
     (monit_start env (api_server_watch project_id p) = true ->
        result (ensure_api_server env project_id st) = inr p /\
        api_servers (final (ensure_api_server env project_id st))
        = <[project_id := p]> (api_servers st)) /\
     (monit_start env (api_server_watch project_id p) = false ->
        result (ensure_api_server env project_id st)
        = inl (AssertionError
                 ("Monit was unable to start " +:+ API_SERVER_PREFIX +:+ project_id)) /\
        api_servers (final (ensure_api_server env project_id st)) = api_servers st)).
Proof.
  split.
  - intros cached Hc. unfold ensure_api_server, bind, tell, get, ret. simpl.
    by rewrite Hc.
  - intros Hnone p. split; [apply next_api_server_port_below_assigned|].
    split; intros Hstart;
      unfold ensure_api_server, bind, tell, get, ret, raise, create_config_file,
        monit_interface_start, modify, result, final; simpl;
      rewrite Hnone; simpl; fold p; rewrite Hstart; simpl; done.
Qed.

Lemma ensure_api_server_assigns_witness :
  result (ensure_api_server node_env "gamma" two_servers) = inr 19996 /\
  api_servers (final (ensure_api_server node_env "gamma" two_servers)) !! "gamma"
  = Some 19996 /\
  result (ensure_api_server node_env "alpha" two_servers) = inr 19997 /\
  result (ensure_api_server node_env "gamma" empty_state) = inr 19999.
Proof.
  destruct (ensure_api_server_assigns node_env two_servers "gamma") as [_ Hnew].
  destruct (Hnew eq_refl) as [_ [Hport _]].
  destruct (Hport eq_refl) as [Hres Hmap].
  destruct (ensure_api_server_assigns node_env two_servers "alpha") as [Hold _].
  destruct (ensure_api_server_assigns node_env empty_state "gamma") as [_ Hfirst].
  destruct (Hfirst eq_refl) as [_ [Hport0 _]].
  destruct (Hport0 eq_refl) as [Hres0 _].
  split; [exact Hres|]. split; [by rewrite Hmap|].
  split; [by rewrite (Hold 19997 eq_refl) | exact Hres0].
Defined.

(** ** Health probe *)

Section Probe.

Variable env : Env.

Lemma wait_loop_S (url : string) (attempt retries : nat) (st : State) :
  wait_loop env url attempt (S retries) st
  = match open_url env url attempt with
    | Some code => (inr true, st, OpenUrl url :: status_warning code)
    | None =>
        match wait_loop env url (S attempt) retries st with
        | (r, st', tr) => (r, st', OpenUrl url :: Sleep BACKOFF_TIME :: tr)
        end
    end.
Proof.
  simpl. unfold bind, tell, ret, status_warning, http_response. simpl.
  destruct (open_url env url attempt) as [code|]; simpl.
  - by destruct (negb (code =? HTTP_OK)).
  - by destruct (wait_loop env url (S attempt) retries st) as [[[e|b] st'] tr].
Qed.

Lemma wait_loop_ready (url : string) (k : nat) (code : Z) :
  forall (attempt retries : nat) (st : State),
  (k < retries)%nat ->
  (forall j, (j < k)%nat -> open_url env url (attempt + j) = None) ->
  open_url env url (attempt + k) = Some code ->
  wait_loop env url attempt retries st
  = (inr true, st, failed_attempts url k ++ OpenUrl url :: status_warning code).
Proof.
  induction k as [|k IH]; intros attempt retries st Hlt Hfail Hok.
  - destruct retries as [|retries]; [lia|].
    rewrite Nat.add_0_r in Hok. by rewrite wait_loop_S, Hok.
  - destruct retries as [|retries]; [lia|].
    pose proof (Hfail 0%nat ltac:(lia)) as H0. rewrite Nat.add_0_r in H0.
    rewrite wait_loop_S, H0.
    rewrite (IH (S attempt) retries st); [done|lia| |].
    + intros j Hj. replace (S attempt + j)%nat with (attempt + S j)%nat by lia.
      apply Hfail. lia.
    + by replace (S attempt + k)%nat with (attempt + S k)%nat by lia.
Qed.

Lemma wait_loop_exhausted (url : string) (retries : nat) :
  forall (attempt : nat) (st : State),
  (forall j, (j < retries)%nat -> open_url env url (attempt + j) = None) ->
  wait_loop env url attempt retries st
  = (inr false, st,
     failed_attempts url retries ++ [Log ERROR "Application did not come up"]).
Proof.
  induction retries as [|retries IH]; intros attempt st Hfail; [done|].
  pose proof (Hfail 0%nat ltac:(lia)) as H0. rewrite Nat.add_0_r in H0.
  rewrite wait_loop_S, H0.
  rewrite (IH (S attempt) st); [done|].
  intros j Hj. replace (S attempt + j)%nat with (attempt + S j)%nat by lia.
  apply Hfail. lia.
Qed.

Lemma slept_failed_attempts (url : string) (k : nat) (rest : list event) :
  slept (failed_attempts url k ++ rest) = Z.of_nat k * BACKOFF_TIME + slept rest.
Proof.
  induction k as [|k IH]; [simpl; lia|].
  change (failed_attempts url (S k)) with
    ([OpenUrl url; Sleep BACKOFF_TIME] ++ failed_attempts url k).
  rewrite <- app_assoc. simpl. rewrite IH. lia.
Qed.

End Probe.

(** C5.  [wait_on_app] requests [http://{private_ip}:{port}/_ah/health_check]
    and nothing else.  The first request that is answered, whatever its
    status (a redirection included), ends the probe with [True]; each
    request that ends in an [IOError] uses up one of the 180 retries and is
    followed by a pause of one second.  When all 180 requests fail the
    probe has slept 180 seconds and returns [False].  The module state is
    left as it was. *)
Theorem wait_on_app_probe (env : Env) (port : Z) (st : State) :
  let url := "http://" +:+ private_ip env +:+ ":" +:+ Py.str port +:+ "/_ah/health_check" in
  (forall k code,
     (k < 180)%nat ->
     (forall j, (j < k)%nat -> open_url env url j = None) ->
     open_url env url k = Some code ->
     wait_on_app env port st
     = (inr true, st, failed_attempts url k ++ OpenUrl url :: status_warning code)) /\
  ((forall j, (j < 180)%nat -> open_url env url j = None) ->
     wait_on_app env port st
     = (inr false, st,
        failed_attempts url 180 ++ [Log ERROR "Application did not come up"]) /\
     slept (trace (wait_on_app env port st)) = START_APP_TIMEOUT).
Proof.
  intros url. split.
  - intros k code Hk Hfail Hok.
    apply (wait_loop_ready env url k code 0 probe_retries st); [exact Hk | exact Hfail | exact Hok].
  - intros Hfail.
    assert (Heq : wait_on_app env port st
      = (inr false, st,
         failed_attempts url 180 ++ [Log ERROR "Application did not come up"])).
    { apply (wait_loop_exhausted env url probe_retries 0 st). exact Hfail. }
    split; [exact Heq|]. rewrite Heq.
    change (slept (failed_attempts url 180
                   ++ [Log ERROR "Application did not come up"]) = START_APP_TIMEOUT).
    rewrite slept_failed_attempts. reflexivity.
Qed.

Lemma wait_on_app_probe_witness :
  wait_on_app redirecting_env 8080 empty_state
  = (inr true, empty_state,
     [OpenUrl "http://10.0.0.2:8080/_ah/health_check"; Sleep 1;
      OpenUrl "http://10.0.0.2:8080/_ah/health_check"; Sleep 1;
      OpenUrl "http://10.0.0.2:8080/_ah/health_check";
      Log WARNING "unexpected status"]) /\
  result (wait_on_app silent_env 8080 empty_state) = inr false /\
  slept (trace (wait_on_app silent_env 8080 empty_state)) = 180.
Proof.
  split.
  - destruct (wait_on_app_probe redirecting_env 8080 empty_state) as [Hready _].
    apply (Hready 2%nat 302); [lia| |reflexivity].
    intros j Hj. destruct j as [|[|j]]; [reflexivity|reflexivity|lia].
  - destruct (wait_on_app_probe silent_env 8080 empty_state) as [_ Hsilent].
    destruct Hsilent as [Heq Hslept]; [intros j Hj; reflexivity|].
    split; [by rewrite Heq | exact Hslept].
Defined.

(** ** Traces *)

Section Traces.

Lemma bind_tell {B} (ev : event) (k : unit -> M B) (st : State) :
  bind (tell ev) k st
  = match k tt st with (r, st', tr) => (r, st', ev :: tr) end.
Proof. unfold bind, tell. by destruct (k tt st) as [[r st'] tr]. Qed.

Lemma bind_returns {A B} (m : M A) (k : A -> M B) (st st1 : State) (a : A)
    (tr1 : list event) :
  m st = (inr a, st1, tr1) ->
  bind m k st = match k a st1 with (r, st2, tr2) => (r, st2, tr1 ++ tr2) end.
Proof. intros Hm. unfold bind. by rewrite Hm. Qed.



Lemma bind_raises {A B} (m : M A) (k : A -> M B) (st st1 : State) (e : exn)
    (tr1 : list event) :
  m st = (inl e, st1, tr1) -> bind m k st = (inl e, st1, tr1).
Proof. intros Hm. unfold bind. by rewrite Hm. Qed.

Lemma happens_before_seen (a b : event -> bool) (tr : list event) :
  happens_before_from true a b tr = true.
Proof. induction tr as [|ev tr IH]; simpl; [done|]. rewrite IH. by destruct (b ev). Qed.

Lemma happens_before_app (a b : event -> bool) (l1 l2 : list event) (seen : bool) :
  happens_before_from seen a b (l1 ++ l2)
  = happens_before_from seen a b l1 &&
    happens_before_from (seen || existsb a l1) a b l2.
Proof.
  revert seen. induction l1 as [|ev l1 IH]; intros seen; simpl.
  - by rewrite orb_false_r.
  - rewrite IH. rewrite <- andb_assoc. by rewrite orb_assoc.
Qed.

Lemma happens_before_absent (a b : event -> bool) (tr : list event) (seen : bool) :
  existsb b tr = false -> happens_before_from seen a b tr = true.
Proof.
  revert seen. induction tr as [|ev tr IH]; intros seen; simpl; [done|].
  intros H. apply orb_false_elim in H as [Hb Htr]. by rewrite Hb, IH.
Qed.

Lemma existsb_false_forallb {A} (f g : A -> bool) (l : list A) :
  (forall x, g x = true -> f x = false) ->
  forallb g l = true -> existsb f l = false.
Proof.
  intros Hfg. induction l as [|x l IH]; simpl; [done|].
  intros H. apply andb_prop in H as [Hx Hl]. by rewrite (Hfg x Hx), (IH Hl).
Qed.

Lemma trace_on_ioloop {A} (env : Env) (m : M A) (st : State) :
  on_ioloop env m st
  = (result (m st),
     final (for_each (spawned (trace (m st))) (run_callback env) (final (m st))),
     trace (m st)
     ++ trace (for_each (spawned (trace (m st))) (run_callback env) (final (m st)))).
Proof.
  unfold on_ioloop, result, final, trace.
  destruct (m st) as [[r st1] tr1]. simpl.
  by destruct (for_each (spawned tr1) (run_callback env) st1) as [[r2 st2] tr2].
Qed.

Lemma on_ioloop_trace {A} (env : Env) (m : M A) (st : State) :
  trace (on_ioloop env m st)
  = trace (m st)
    ++ trace (for_each (spawned (trace (m st))) (run_callback env) (final (m st))).
Proof. by rewrite trace_on_ioloop. Qed.

Lemma on_ioloop_final {A} (env : Env) (m : M A) (st : State) :
  final (on_ioloop env m st)
  = final (for_each (spawned (trace (m st))) (run_callback env) (final (m st))).
Proof. by rewrite trace_on_ioloop. Qed.

Lemma on_ioloop_result {A} (env : Env) (m : M A) (st : State) :
  result (on_ioloop env m st) = result (m st).
Proof. by rewrite trace_on_ioloop. Qed.

End Traces.

(** ** Routing: the probe decides the registration *)

Section Routing.

Variable env : Env.

Lemma wait_loop_total (url : string) (retries : nat) :
  forall (attempt : nat) (st : State),
  exists b tr, wait_loop env url attempt retries st = (inr b, st, tr) /\
               forallb is_probe_or_log tr = true.
Proof.
  induction retries as [|retries IH]; intros attempt st.
  - by exists false, [Log ERROR "Application did not come up"].
  - rewrite wait_loop_S. destruct (open_url env url attempt) as [code|].
    + exists true, (OpenUrl url :: status_warning code). split; [done|].
      unfold status_warning. by destruct (negb (code =? HTTP_OK)).
    + destruct (IH (S attempt) st) as (b & tr & -> & Htr).
      by exists b, (OpenUrl url :: Sleep BACKOFF_TIME :: tr).
Qed.

Lemma register_instance_trace (instance : Instance) (st : State) :
  exists r st' tr, register_instance env instance st
                   = (r, st', Call (RegisterInstance instance) :: tr) /\
                   existsb is_teardown tr = false /\
                   existsb is_register tr = false.
Proof.
  unfold register_instance, bind, tell, get, ret, raise, modify. simpl.
  destruct (zk_nodes st !! version_key instance) as [children|]; simpl;
    [|eexists _, _, _; split; [reflexivity | split; reflexivity]].
  destruct (children !! instance_entry env instance); simpl;
    eexists _, _, _; (split; [reflexivity | split; reflexivity]).
Qed.

Lemma add_routing_run (instance : Instance) (st : State) :
  exists b tr,
    wait_on_app env (port instance) st = (inr b, st, tr) /\
    forallb is_probe_or_log tr = true /\
    add_routing env instance st
    = if b : bool
      then match register_instance env instance st with
           | (r, st', tr') => (r, st', Log INFO "Waiting for instance" :: tr ++ tr')
           end
      else (inr tt, st,
            Log INFO "Waiting for instance" :: tr
            ++ [Log WARNING "instance did not come up in time"]).
Proof.
  destruct (wait_loop_total (health_url env (port instance)) probe_retries 0%nat st)
    as (b & tr & Hw & Htr).
  exists b, tr. split; [exact Hw|]. split; [exact Htr|].
  unfold add_routing. rewrite bind_tell.
  rewrite (bind_returns _ _ _ _ _ _ Hw).
  destruct b.
  - by destruct (register_instance env instance st) as [[r st'] tr'].
  - done.
Qed.

End Routing.

(** ** The start path *)

(** Every branch of [start_app], one goal per branch. *)
Ltac break_start :=
  unfold start_app, ensure_api_server, create_config_file, monit_interface_start,
    ensure_version_node, setup_logrotate, bind, tell, get, ret, raise, modify, lift;
  repeat (simpl;
    match goal with
    | |- context [app_port ?c] => destruct (app_port c)
    | |- context [login_server ?c] => destruct (login_server c) as [[|]|]
    | |- context [Py.split ?a ?b] => destruct (Py.split a b) as [|? [|? [|? [|]]]]
    | |- context [is_app_name_valid ?e ?p] => destruct (is_app_name_valid e p)
    | |- context [lookup_version ?e ?a ?b ?c] => destruct (lookup_version e a b c)
    | |- context [api_servers ?s !! ?p] => destruct (api_servers s !! p)
    | |- context [monit_start ?e ?w] => destruct (monit_start e w)
    | |- context [is_python_front_end ?r] => destruct (is_python_front_end r)
    | |- context [String.eqb ?r JAVA] => destruct (String.eqb r JAVA)
    | |- context [?x <=? 0] => destruct (x <=? 0)
    end); simpl.

Section StartPath.

Variable env : Env.

Lemma start_app_order (vk : string) (config : Config) (st : State) :
  let tr := trace (start_app env vk config st) in
  happens_before is_ensure_api_server is_instance_config tr = true /\
  happens_before is_ensure_source is_instance_start tr = true /\
  existsb is_register tr = false /\
  existsb is_teardown tr = false.
Proof. unfold trace. break_start. all: repeat split; reflexivity. Qed.

Lemma start_app_callbacks (vk : string) (config : Config) (st : State) :
  let tr := trace (start_app env vk config st) in
  spawned tr = [] \/
  (existsb is_ensure_api_server tr = true /\
   existsb is_ensure_source tr = true /\
   existsb is_instance_start tr = true).
Proof.
  unfold trace. break_start.
  all: first [left; reflexivity | right; repeat split; reflexivity].
Qed.

(** A start that returns has gone through every step, in this order. *)
Lemma start_app_success (vk : string) (config : Config) (st : State) :
  result (start_app env vk config st) = inr tt ->
  exists revision_key port source_archive runtime cmd pidfile max_memory pre rest,
    app_port config = Some port /\
    trace (start_app env vk config st)
    = Call (EnsureApiServer (project_of vk)) :: pre
      ++ [EnsureSource revision_key source_archive runtime;
          Log INFO "Starting application"; Log INFO "Start command";
          CreateConfigFile (MONIT_INSTANCE_PREFIX +:+ revision_key) cmd pidfile
                           port max_memory;
          MonitStart (instance_watch revision_key port)]
      ++ rest /\
    existsb is_ensure_source pre = false /\
    existsb is_instance_start pre = false /\
    existsb is_instance_config pre = false /\
    spawned (trace (start_app env vk config st))
    = [AddRouting (mkInstance revision_key port)].
Proof.
  unfold result, trace, project_of. break_start.
  all: try (intros; discriminate).
  all: intros _.
  all: first
    [ eexists _, _, _, _, _, _, _, [], _;
      split; [reflexivity|]; split; [reflexivity|]; repeat split; reflexivity
    | eexists _, _, _, _, _, _, _, [_; _], _;
      split; [reflexivity|]; split; [reflexivity|]; repeat split; reflexivity ].
Qed.

Lemma start_app_failure (vk : string) (config : Config) (st : State) (e : exn) :
  result (start_app env vk config st) = inl e ->
  spawned (trace (start_app env vk config st)) = [].
Proof.
  unfold result, trace. break_start.
  all: try (intros; discriminate).
  all: reflexivity.
Qed.

End StartPath.

Section RoutingOnLoop.

Variable env : Env.

Lemma probe_or_log_not_register (ev : event) :
  is_probe_or_log ev = true -> is_register ev = false.
Proof. by destruct ev. Qed.

Lemma probe_or_log_not_teardown (ev : event) :
  is_probe_or_log ev = true -> is_teardown ev = false.
Proof. by destruct ev. Qed.

(** The callback [add_routing] as the loop runs it. *)
Lemma routing_callback (instance : Instance) (st : State) :
  exists b tr,
    wait_on_app env (port instance) st = (inr b, st, tr) /\
    let run := for_each [AddRouting instance] (run_callback env) st in
    if b : bool
    then existsb is_register (trace run) = true
    else final run = st /\ forallb is_probe_or_log (trace run) = true.
Proof.
  destruct (add_routing_run env instance st) as (b & tr & Hw & Htr & Hrun).
  exists b, tr. split; [exact Hw|].
  unfold for_each, run_callback, try_except, bind, ret, tell, trace, final.
  rewrite Hrun. destruct b.
  - destruct (register_instance_trace env instance st) as (r & st' & tr' & -> & _ & _).
    destruct r as [e|[]]; simpl; rewrite !existsb_app; simpl;
      by rewrite !orb_true_r.
  - simpl. split; [done|]. rewrite !forallb_app, Htr. done.
Qed.

End RoutingOnLoop.

(** C3.  [add_routing] calls [register_instance] for its instance exactly
    when [wait_on_app] returned [True]; when the probe gave up it only logs:
    it returns normally, leaves the module state as it was and its trace
    holds nothing but requests, pauses and log lines.  On the start path
    the instance handed to [add_routing] is the one [start_app] started,
    [start_app] itself registers nothing, and a probe that gave up leaves
    the state as [start_app] left it, with no retraction, unmonitor,
    configuration removal or termination in the whole run. *)
Theorem register_iff_probe_ready (env : Env) :
  (forall instance st,
     let ready := result (wait_on_app env (port instance) st) in
     let run := add_routing env instance st in
     (ready = inr true \/ ready = inr false) /\
     (Call (RegisterInstance instance) ∈ trace run <-> ready = inr true) /\
     (ready = inr false ->
        result run = inr tt /\ final run = st /\
        forallb is_probe_or_log (trace run) = true)) /\
  (forall vk config st,
     result (start_app env vk config st) = inr tt ->
     exists instance,
       let started := final (start_app env vk config st) in
       let ready := result (wait_on_app env (port instance) started) in
       let run := on_ioloop env (start_app env vk config) st in
       spawned (trace (start_app env vk config st)) = [AddRouting instance] /\
       (existsb is_register (trace run) = true <-> ready = inr true) /\
       (ready = inr false ->
          final run = started /\ existsb is_teardown (trace run) = false)).
Proof.
  split.
  - intros instance st ready run. subst ready run.
    destruct (add_routing_run env instance st) as (b & tr & Hw & Htr & Hrun).
    rewrite Hrun, Hw. unfold result, final, trace. simpl fst.
    destruct b.
    + destruct (register_instance_trace env instance st) as (r & st' & tr' & -> & _ & _).
      simpl. split; [by left|]. split; [|done].
      split; [done|]. intros _. apply elem_of_cons. right.
      apply elem_of_app. right. apply elem_of_cons. by left.
    + simpl. split; [by right|]. split.
      * split; [|done]. intros Hin. exfalso.
        apply elem_of_cons in Hin as [Hin|Hin]; [done|].
        apply elem_of_app in Hin as [Hin|Hin].
        -- rewrite forallb_forall in Htr. apply list_elem_of_In in Hin.
           by specialize (Htr _ Hin).
        -- apply elem_of_cons in Hin as [Hin|Hin]; [done|by apply elem_of_nil in Hin].
      * intros _. split; [done|]. split; [done|]. by rewrite forallb_app, Htr.
  - intros vk config st Hok.
    destruct (start_app_success env vk config st Hok)
      as (rk & p & src & rt & cmd & pidfile & mem & pre & rest & _ & _ & _ & _ & _ & Hsp).
    exists (mkInstance rk p). cbv zeta.
    split; [exact Hsp|].
    rewrite on_ioloop_trace, on_ioloop_final.
    rewrite Hsp, !existsb_app.
    destruct (start_app_order env vk config st) as (_ & _ & Hreg & Htear).
    rewrite Hreg, Htear. rewrite !orb_false_l.
    destruct (routing_callback env (mkInstance rk p) (final (start_app env vk config st)))
      as (b & tr & Hw & Hrun).
    rewrite Hw. unfold result. cbn [fst]. destruct b.
    + split; [by split|]. intros [=].
    + destruct Hrun as [Hfin Hquiet]. split.
      * split; [|intros [=]]. intros Hreg'.
        rewrite (existsb_false_forallb _ _ _ probe_or_log_not_register Hquiet) in Hreg'.
        done.
      * intros _. split; [exact Hfin|].
        exact (existsb_false_forallb _ _ _ probe_or_log_not_teardown Hquiet).
Qed.

Lemma register_iff_probe_ready_witness :
  existsb is_register
    (trace (on_ioloop node_env
              (start_app node_env "proj_default_v1" (mkConfig (Some 8080) (Some "10.0.0.1")))
              empty_state)) = true /\
  existsb is_register
    (trace (on_ioloop silent_env
              (start_app silent_env "proj_default_v1" (mkConfig (Some 8080) (Some "10.0.0.1")))
              empty_state)) = false.
Proof.
  split.
  - destruct (register_iff_probe_ready node_env) as [_ Hstart].
    destruct (Hstart "proj_default_v1" (mkConfig (Some 8080) (Some "10.0.0.1"))
                     empty_state eq_refl) as (instance & Hsp & Hiff & _).
    apply Hiff. vm_compute in Hsp. injection Hsp as <-. reflexivity.
  - destruct (register_iff_probe_ready silent_env) as [_ Hstart].
    destruct (Hstart "proj_default_v1" (mkConfig (Some 8080) (Some "10.0.0.1"))
                     empty_state eq_refl) as (instance & Hsp & Hiff & _).
    vm_compute in Hsp. injection Hsp as <-.
    apply not_true_is_false. intros Hreg. apply Hiff in Hreg. discriminate Hreg.
Defined.

(** C2.  In the run of one [start_app] together with the callback it
    spawns, every configuration of an instance watch is written after
    [ensure_api_server] was entered, every start of an instance watch comes
    after the source of the revision was ensured, and every call of
    [register_instance] comes after the start of the instance watch.  A
    start that returns has done all of it for one revision key and one
    port: the ensure of the API server, the ensure of the source, the
    configuration, the start of the watch and the spawn of [add_routing],
    in this order. *)
Theorem start_app_ordering (env : Env) (vk : string) (config : Config) (st : State) :
  let run := on_ioloop env (start_app env vk config) st in
  happens_before is_ensure_api_server is_instance_config (trace run) = true /\
  happens_before is_ensure_source is_instance_start (trace run) = true /\
  happens_before is_instance_start is_register (trace run) = true /\
  (result run = inr tt ->
   exists revision_key port source_archive runtime cmd pidfile max_memory pre rest,
     app_port config = Some port /\
     trace (start_app env vk config st)
     = Call (EnsureApiServer (project_of vk)) :: pre
       ++ [EnsureSource revision_key source_archive runtime;
           Log INFO "Starting application"; Log INFO "Start command";
           CreateConfigFile (MONIT_INSTANCE_PREFIX +:+ revision_key) cmd pidfile
                            port max_memory;
           MonitStart (instance_watch revision_key port)]
       ++ rest /\
     existsb is_ensure_source pre = false /\
     existsb is_instance_start pre = false /\
     existsb is_instance_config pre = false /\
     spawned (trace (start_app env vk config st))
     = [AddRouting (mkInstance revision_key port)]).
Proof.
  cbv zeta. rewrite on_ioloop_trace, on_ioloop_result.
  destruct (start_app_order env vk config st) as (Hcfg & Hsrc & Hreg & _).
  unfold happens_before in *. rewrite !happens_before_app, Hcfg, Hsrc.
  rewrite (happens_before_absent _ _ _ _ Hreg). cbn [andb orb].
  split; [|split; [|split]].
  - destruct (start_app_callbacks env vk config st) as [-> | (-> & _ & _)];
      [done | apply happens_before_seen].
  - destruct (start_app_callbacks env vk config st) as [-> | (_ & -> & _)];
      [done | apply happens_before_seen].
  - destruct (start_app_callbacks env vk config st) as [-> | (_ & _ & ->)];
      [done | apply happens_before_seen].
  - apply start_app_success.
Qed.

Lemma start_app_ordering_witness :
  trace (on_ioloop node_env
           (start_app node_env "proj_default_v1" (mkConfig (Some 8080) (Some "10.0.0.1")))
           empty_state)
  = [Call (EnsureApiServer "proj");
     CreateConfigFile "api-server_proj" (ApiServerCmd 19999 "proj" ["10.0.0.1"])
                      "api-server_proj-19999.pid" 19999 400;
     MonitStart "api-server_proj-19999";
     EnsureSource "proj_default_v1_3" "/opt/appscale/apps/proj.tar.gz" "python27";
     Log INFO "Starting application"; Log INFO "Start command";
     CreateConfigFile "instance_proj_default_v1_3"
       (Python27Cmd "proj" "10.0.0.1" 8080
          "/var/run/appscale/app___proj_default_v1_3-8080.pid"
          "proj_default_v1_3" 19999)
       "/var/run/appscale/app___proj_default_v1_3-8080.pid" 8080 400;
     MonitStart "instance_proj_default_v1_3-8080";
     ZkEnsurePath "/appscale/instances_by_version/proj_default_v1";
     SpawnCallback (AddRouting (mkInstance "proj_default_v1_3" 8080));
     WriteLogrotate "proj" 262144000;
     Log INFO "Waiting for instance";
     OpenUrl "http://10.0.0.2:8080/_ah/health_check";
     Call (RegisterInstance (mkInstance "proj_default_v1_3" 8080));
     ZkCreate "/appscale/instances_by_version/proj_default_v1/10.0.0.2:8080" "3"] /\
  exists revision_key port,
    spawned (trace (start_app node_env "proj_default_v1"
                      (mkConfig (Some 8080) (Some "10.0.0.1")) empty_state))
    = [AddRouting (mkInstance revision_key port)].
Proof.
  split; [vm_compute; reflexivity|].
  destruct (start_app_ordering node_env "proj_default_v1"
              (mkConfig (Some 8080) (Some "10.0.0.1")) empty_state)
    as (_ & _ & _ & Hok).
  destruct (Hok eq_refl) as (rk & p & _ & _ & _ & _ & _ & _ & _ & _ & _ & _ & _ & _ & Hsp).
  by exists rk, p.
Defined.

(** ** Bad configurations *)

(** C6, as the code has it.  [start_app] raises [BadConfigurationException],
    which [VersionHandler.post] raises again as [HTTPError] with the code
    [BAD_REQUEST], exactly when [app_port] is missing, [login_server] is
    missing or empty, or, for a version key of three components, the
    project id is not valid, the projects manager has no such version, or,
    with the API server of the project ensured, the runtime is neither a
    Python front-end runtime nor [java], or is [java] with
    [max_memory - 250 <= 0]. *)
Theorem start_app_bad_configuration (env : Env) (vk : string) (config : Config)
    (st : State) :
  ((exists value,
      result (start_app env vk config st) = inl (BadConfigurationException value))
   <-> bad_configuration env st vk config = true) /\
  ((exists value,
      result (VersionHandler_post env vk config st) = inl (HTTPError BAD_REQUEST value))
   <-> bad_configuration env st vk config = true).
Proof.
  unfold VersionHandler_post, try_except, bad_configuration, api_server_ensured,
    runtime_refused, result.
  break_start.
  all: split; (split;
         [ intros [value Hv]; first [discriminate Hv | reflexivity]
         | intros Hb; first [discriminate Hb | eexists; reflexivity] ]).
Qed.

(** C6, as stated, fails, in four ways.  With [app_port] and
    [login_server] both in the body, a valid project id, a version record
    and a known runtime, an empty [login_server] is refused all the same.
    A version key of two components has no version record, yet what is
    raised is the [ValueError] of the unpacking.  A version of an unknown
    runtime whose API server Monit does not start ends in the
    [AssertionError] of [ensure_api_server], before the runtime is looked
    at.  And a body without [app_port] is refused with
    [BadConfigurationException], which the POST handler raises again as
    [HTTPError] with the code 400; this [HTTPError] is the one of
    [tornado.httpclient], so the response carries the status 500, not
    400. *)
Lemma start_app_preconditions_as_stated_fail :
  (precondition_violated node_env "proj_default_v1"
     (mkConfig (Some 8080) (Some EmptyString)) = false /\
   result (start_app node_env "proj_default_v1" (mkConfig (Some 8080) (Some EmptyString))
             empty_state)
   = inl (BadConfigurationException "login_server is required")) /\
  (precondition_violated node_env "proj_default"
     (mkConfig (Some 8080) (Some "10.0.0.1")) = true /\
   result (start_app node_env "proj_default" (mkConfig (Some 8080) (Some "10.0.0.1"))
             empty_state)
   = inl (ValueError "wrong number of values to unpack")) /\
  (precondition_violated stalled_legacy_env "legacy_default_v1"
     (mkConfig (Some 8080) (Some "10.0.0.1")) = true /\
   result (start_app stalled_legacy_env "legacy_default_v1"
             (mkConfig (Some 8080) (Some "10.0.0.1")) empty_state)
   = inl (AssertionError "Monit was unable to start api-server_legacy")) /\
  (precondition_violated node_env "proj_default_v1" (mkConfig None (Some "10.0.0.1")) = true /\
   result (start_app node_env "proj_default_v1" (mkConfig None (Some "10.0.0.1"))
             empty_state)
   = inl (BadConfigurationException "app_port is required") /\
   result (VersionHandler_post node_env "proj_default_v1" (mkConfig None (Some "10.0.0.1"))
             empty_state)
   = inl (HTTPError BAD_REQUEST "app_port is required") /\
   response_status
     (result (VersionHandler_post node_env "proj_default_v1"
                (mkConfig None (Some "10.0.0.1")) empty_state)) = 500) /\
  ~ (forall env vk config st,
       (exists value,
          result (start_app env vk config st) = inl (BadConfigurationException value))
       <-> precondition_violated env vk config = true) /\
  ~ (forall env vk config st,
       precondition_violated env vk config = true ->
       response_status (result (VersionHandler_post env vk config st)) = BAD_REQUEST).
Proof.
  split; [by split|]. split; [by split|]. split; [by split|].
  split; [repeat split; reflexivity|]. split.
  - intros Hclaim.
    destruct (Hclaim node_env "proj_default_v1" (mkConfig (Some 8080) (Some EmptyString))
                empty_state) as [Hraise _].
    assert (Hv : precondition_violated node_env "proj_default_v1"
                   (mkConfig (Some 8080) (Some EmptyString)) = true).
    { apply Hraise. by eexists. }
    discriminate Hv.
  - intros Hclaim.
    specialize (Hclaim node_env "proj_default_v1" (mkConfig None (Some "10.0.0.1"))
                  empty_state eq_refl).
    discriminate Hclaim.
Qed.

(** ** Supervisor teardown *)

Section Teardown.

Variable env : Env.

(** [unmonitor] only talks to Monit: its outcome does not depend on the
    module state, which it leaves alone. *)
Lemma unmonitor_from_run (name : string) (retries : nat) :
  forall (attempt : nat),
  exists r tr,
    (forall st, unmonitor_from env attempt name retries st = (r, st, tr)) /\
    forallb is_unmonitor_post tr = true /\
    (r = inr tt \/ (exists m, r = inl (ProcessNotFound m)) \/
     (exists c m, r = inl (HTTPError c m))).
Proof.
  induction retries as [|retries IH]; intros attempt.
  - simpl. unfold bind, tell, ret, raise.
    destruct (unmonitor_response env name attempt) as [code|]; simpl.
    + destruct (code =? 404); simpl; [by eauto 10|].
      destruct (code =? 503); simpl; by eauto 10.
    + by eauto 10.
  - simpl. unfold bind at 1, tell at 1, ret, raise.
    destruct (unmonitor_response env name attempt) as [code|]; simpl.
    + destruct (code =? 404); simpl; [by eauto 10|].
      destruct (code =? 503); simpl; [|by eauto 10].
      destruct (IH (S attempt)) as (r & tr & Hrun & Htr & Hr).
      exists r, (UnmonitorPost name :: tr). split; [|by split].
      intros st. by rewrite Hrun.
    + by eauto 10.
Qed.

Lemma unmonitor_run (name : string) :
  exists r tr,
    (forall st, unmonitor env name st = (r, st, tr)) /\
    forallb is_unmonitor_post tr = true /\
    (r = inr tt \/ (exists m, r = inl (ProcessNotFound m)) \/
     (exists c m, r = inl (HTTPError c m))).
Proof. apply unmonitor_from_run. Qed.

Lemma unmonitor_and_terminate_run (watch : string) (st : State) :
  unmonitor_and_terminate env watch st
  = match unmonitor env watch st with
    | (inr _, st1, tr) =>
        (inr tt, set_monit_entries (filter (fun entry => entry <> watch)) st1,
         tr ++ [RemoveConfiguration watch; SpawnCallback (StopInstance watch)])
    | (inl (ProcessNotFound _), st1, tr) => (inr tt, st1, tr)
    | (inl e, st1, tr) => (inl e, st1, tr)
    end.
Proof.
  unfold unmonitor_and_terminate, try_except, remove_configuration,
    bind, tell, ret, modify.
  destruct (unmonitor env watch st) as [[[e|[]] st1] tr]; simpl.
  - destruct e; simpl; try done. by rewrite !app_nil_r.
  - by rewrite app_nil_r.
Qed.

Lemma unregister_instance_run (instance : Instance) (st : State) :
  exists st1 tr,
    unregister_instance env instance st
    = (inr tt, st1, Call (UnregisterInstance instance) :: tr) /\
    api_servers st1 = api_servers st /\
    monit_entries st1 = monit_entries st.
Proof.
  unfold unregister_instance, bind, tell, get, ret, modify. simpl.
  destruct (bool_decide (instance ∈ running_instances st)); simpl; by eauto.
Qed.

Lemma clean_old_sources_run (st : State) :
  exists tr, clean_old_sources env st = (inr tt, st, tr).
Proof. unfold clean_old_sources, get_entries, bind, tell, get, ret. simpl. by eauto. Qed.

End Teardown.

Section StopCompletes.

Variable env : Env.

Lemma unmonitor_and_terminate_quiet (watch : string) (st : State) :
  unmonitor_quiet env watch ->
  exists st1 tr,
    unmonitor_and_terminate env watch st = (inr tt, st1, tr) /\
    api_servers st1 = api_servers st.
Proof.
  intros Hq. rewrite unmonitor_and_terminate_run.
  destruct (unmonitor_run env watch) as (r & tr & Hrun & _ & Hr).
  specialize (Hq st). rewrite Hrun in *. unfold result in Hq. simpl in Hq.
  destruct Hr as [-> | [(m & ->) | (c & m & ->)]]; [by eauto | by eauto |].
  by destruct (Hq c m).
Qed.

Lemma stop_api_server_quiet (project_id : string) (st : State) :
  api_server_teardown_quiet env st project_id ->
  exists st1 tr, stop_api_server env project_id st = (inr tt, st1, tr).
Proof.
  intros Hq. unfold stop_api_server, bind, get, ret, modify. simpl.
  destruct (api_servers st !! project_id) as [p|] eqn:Hp; [|by eauto].
  destruct (unmonitor_and_terminate_quiet _ st (Hq p Hp)) as (st1 & tr & -> & _).
  by eauto.
Qed.

Lemma reload_and_clean_returns (st : State) :
  exists st1 tr, (tell MonitReload ;; clean_old_sources env)%M st = (inr tt, st1, tr).
Proof.
  rewrite bind_tell. destruct (clean_old_sources_run env st) as (tr & ->). by eauto.
Qed.

(** The end of both stop operations: the API server goes when no instance
    is left, then [k] reloads Monit and cleans old sources. *)
Lemma stop_tail_quiet (project_id : string) (remaining : list string) (st : State)
    (k : M unit) :
  api_server_teardown_quiet env st project_id ->
  (forall st', exists st1 tr, k st' = (inr tt, st1, tr)) ->
  exists st1 tr,
    ((match remaining with
      | [] => stop_api_server env project_id
      | _ :: _ => ret tt
      end) ;; k)%M st
    = (inr tt, st1, tr).
Proof.
  intros Hq Hk.
  assert (Hfirst : exists st1 tr1,
            (match remaining with
             | [] => stop_api_server env project_id
             | _ :: _ => ret tt
             end) st = (inr tt, st1, tr1)).
  { destruct remaining; [by apply stop_api_server_quiet | by eexists _, _]. }
  destruct Hfirst as (st1 & tr1 & Hfirst).
  rewrite (bind_returns _ _ _ _ _ _ Hfirst).
  destruct (Hk st1) as (st2 & tr2 & ->). by eauto.
Qed.

Lemma teardown_quiet_same_servers (st st1 : State) (project_id : string) :
  api_servers st1 = api_servers st ->
  api_server_teardown_quiet env st project_id ->
  api_server_teardown_quiet env st1 project_id.
Proof. intros Heq Hq p Hp. apply Hq. by rewrite <- Heq. Qed.

(** Unregistering and tearing down one watch. *)
Lemma stop_entry_quiet (entry : string) (st : State) :
  (exists info, instance_info entry = inr info) ->
  unmonitor_quiet env entry ->
  exists st1 tr,
    (info <- lift (instance_info entry) ;;
     unregister_instance env (mkInstance (fst info) (snd info)) ;;
     unmonitor_and_terminate env entry)%M st = (inr tt, st1, tr) /\
    api_servers st1 = api_servers st.
Proof.
  intros [info Hinfo] Hq. unfold lift. rewrite Hinfo.
  rewrite (bind_returns _ _ st st info [] eq_refl).
  destruct (unregister_instance_run env (mkInstance (fst info) (snd info)) st)
    as (st1 & tr1 & Hun & Hsame & _).
  rewrite (bind_returns _ _ _ _ _ _ Hun).
  destruct (unmonitor_and_terminate_quiet entry st1 Hq) as (st2 & tr2 & -> & Hsame2).
  eexists _, _. split; [reflexivity|]. by rewrite Hsame2.
Qed.

Lemma stop_app_instance_quiet (vk : string) (port : Z) (watch : string) (st : State) :
  is_app_name_valid env (project_of vk) = true ->
  List.find (instance_key_re_match vk port) (monit_entries st) = Some watch ->
  (exists info, instance_info watch = inr info) ->
  unmonitor_quiet env watch ->
  api_server_teardown_quiet env st (project_of vk) ->
  result (stop_app_instance env vk port st) = inr tt.
Proof.
  intros Hvalid Hfind Hinfo Hq Hapi.
  unfold stop_app_instance. rewrite Hvalid. cbn [negb].
  rewrite bind_tell.
  rewrite (bind_returns _ _ st st (monit_entries st) [MonitGetEntries] eq_refl).
  rewrite Hfind.
  destruct (stop_entry_quiet watch st Hinfo Hq) as (st1 & tr1 & Hstop & Hsame).
  pose proof (teardown_quiet_same_servers _ _ _ Hsame Hapi) as Hapi1.
  match goal with
  | |- context [List.filter ?f (monit_entries st)] =>
      destruct (stop_tail_quiet (project_of vk) (List.filter f (monit_entries st)) st1
                  (tell MonitReload ;; clean_old_sources env)%M Hapi1
                  reload_and_clean_returns) as (st2 & tr2 & Htail)
  end.
  unfold bind in Hstop, Htail |- *. unfold lift in *.
  destruct Hinfo as [info Hinfo]. rewrite Hinfo in *. simpl in *.
  destruct (unregister_instance env _ st) as [[[e|[]] sta] tra]; [done|].
  simpl in *.
  destruct (unmonitor_and_terminate env watch sta) as [[[e|[]] stb] trb]; [done|].
  injection Hstop as -> _. simpl.
  by rewrite Htail.
Qed.

Lemma stop_entries_quiet (entries : list string) :
  forall st,
  (forall entry, entry ∈ entries ->
     (exists info, instance_info entry = inr info) /\ unmonitor_quiet env entry) ->
  exists st1 tr,
    for_each entries
      (fun entry =>
         info <- lift (instance_info entry) ;;
         unregister_instance env (mkInstance (fst info) (snd info)) ;;
         unmonitor_and_terminate env entry)%M st = (inr tt, st1, tr) /\
    api_servers st1 = api_servers st.
Proof.
  induction entries as [|entry entries IH]; intros st Hall; simpl.
  - by eexists _, _.
  - destruct (Hall entry) as [Hinfo Hq]; [apply elem_of_cons; by left|].
    destruct (stop_entry_quiet entry st Hinfo Hq) as (st1 & tr1 & Hstop & Hsame).
    rewrite (bind_returns _ _ _ _ _ _ Hstop).
    destruct (IH st1) as (st2 & tr2 & -> & Hsame2).
    { intros e He. apply Hall, elem_of_cons. by right. }
    eexists _, _. split; [reflexivity|]. by rewrite Hsame2.
Qed.

Lemma logrotate_reload_and_clean_returns (project_id : string) (st : State) :
  exists st1 tr,
    ((match projects_manager env !! project_id with
      | Some _ => ret tt
      | None =>
          removed <- remove_logrotate env project_id ;;
          if removed : bool then ret tt
          else tell (Log ERROR "Error while removing log rotation")
      end) ;; tell MonitReload ;; clean_old_sources env)%M st
    = (inr tt, st1, tr).
Proof.
  assert (Hfirst : exists tr1,
    (match projects_manager env !! project_id with
     | Some _ => ret tt
     | None =>
         removed <- remove_logrotate env project_id ;;
         if removed : bool then ret tt
         else tell (Log ERROR "Error while removing log rotation")
     end)%M st = (inr tt, st, tr1)).
  { destruct (projects_manager env !! project_id); [by eexists|].
    unfold remove_logrotate, bind, tell, ret.
    destruct (logrotate_removable env project_id); by eexists. }
  destruct Hfirst as (tr1 & Hfirst). rewrite (bind_returns _ _ _ _ _ _ Hfirst).
  destruct (reload_and_clean_returns st) as (st1 & tr & ->). by eauto.
Qed.

Lemma stop_app_quiet (vk : string) (st : State) :
  is_app_name_valid env (project_of vk) = true ->
  (forall entry,
     entry ∈ List.filter (Py.startswith (MONIT_INSTANCE_PREFIX +:+ vk)) (monit_entries st) ->
     (exists info, instance_info entry = inr info) /\ unmonitor_quiet env entry) ->
  api_server_teardown_quiet env st (project_of vk) ->
  result (stop_app env vk st) = inr tt.
Proof.
  intros Hvalid Hall Hapi.
  unfold stop_app. rewrite Hvalid. cbn [negb].
  rewrite bind_tell.
  rewrite (bind_returns _ _ st st (monit_entries st) [MonitGetEntries] eq_refl).
  destruct (stop_entries_quiet _ st Hall) as (st1 & tr1 & Hloop & Hsame).
  rewrite (bind_returns _ _ _ _ _ _ Hloop).
  pose proof (teardown_quiet_same_servers _ _ _ Hsame Hapi) as Hapi1.
  match goal with
  | |- context [List.filter ?f (monit_entries st)] =>
      match f with
      | (fun entry => _ && _) =>
          destruct (stop_tail_quiet (project_of vk) (List.filter f (monit_entries st)) st1
                      _ Hapi1 (logrotate_reload_and_clean_returns (project_of vk)))
            as (st2 & tr2 & Htail)
      end
  end.
  by rewrite Htail.
Qed.

End StopCompletes.

(** C10.  When [unmonitor] raises [ProcessNotFound] for a watch,
    [unmonitor_and_terminate] returns at once: its trace is the POSTs of
    [unmonitor] and nothing else, so no configuration is removed and no
    termination is spawned, and the module state is the one it was called
    in.  The stop operation around it goes on to its end: [stop_api_server]
    forgets the port of the project, and [stop_app_instance] and [stop_app]
    return, as long as no other unmonitor request of the operation ends in
    an [HTTPError]. *)
Theorem unmonitor_not_found (env : Env) (watch : string) (st : State) (message : string) :
  result (unmonitor env watch st) = inl (ProcessNotFound message) ->
  unmonitor_and_terminate env watch st = (inr tt, st, trace (unmonitor env watch st)) /\
  forallb is_unmonitor_post (trace (unmonitor env watch st)) = true /\
  (forall project_id port,
     watch = API_SERVER_PREFIX +:+ project_id +:+ "-" +:+ Py.str port ->
     api_servers st !! project_id = Some port ->
     stop_api_server env project_id st
     = (inr tt, set_api_servers (delete project_id) st, trace (unmonitor env watch st))) /\
  (forall vk port st0,
     is_app_name_valid env (project_of vk) = true ->
     List.find (instance_key_re_match vk port) (monit_entries st0) = Some watch ->
     (exists info, instance_info watch = inr info) ->
     api_server_teardown_quiet env st0 (project_of vk) ->
     result (stop_app_instance env vk port st0) = inr tt) /\
  (forall vk st0,
     is_app_name_valid env (project_of vk) = true ->
     (forall entry,
        entry ∈ List.filter (Py.startswith (MONIT_INSTANCE_PREFIX +:+ vk))
                            (monit_entries st0) ->
        (exists info, instance_info entry = inr info) /\
        (entry <> watch -> unmonitor_quiet env entry)) ->
     api_server_teardown_quiet env st0 (project_of vk) ->
     result (stop_app env vk st0) = inr tt).
Proof.
  intros Hnf.
  destruct (unmonitor_run env watch) as (r & tr & Hrun & Htr & _).
  assert (Hr : r = inl (ProcessNotFound message)).
  { rewrite Hrun in Hnf. exact Hnf. }
  subst r.
  assert (Hquiet : unmonitor_quiet env watch).
  { intros st' c m. rewrite Hrun. discriminate. }
  assert (Hreturn : forall st', unmonitor_and_terminate env watch st' = (inr tt, st', tr)).
  { intros st'. by rewrite unmonitor_and_terminate_run, Hrun. }
  rewrite Hrun. unfold trace. cbn [snd].
  split; [apply Hreturn|]. split; [exact Htr|]. split; [|split].
  - intros project_id port Hwatch Hport.
    unfold stop_api_server, bind, get, modify. simpl. rewrite Hport.
    rewrite <- Hwatch, Hreturn. simpl. by rewrite app_nil_r.
  - intros vk port st0 Hvalid Hfind Hinfo Hapi.
    by apply (stop_app_instance_quiet env vk port watch).
  - intros vk st0 Hvalid Hall Hapi.
    apply stop_app_quiet; [exact Hvalid| |exact Hapi].
    intros entry Hentry. destruct (Hall entry Hentry) as [Hinfo Hq].
    split; [exact Hinfo|].
    destruct (decide (entry = watch)) as [->|Hne]; [exact Hquiet | by apply Hq].
Qed.

Lemma unmonitor_not_found_witness :
  unmonitor_and_terminate forgetful_env "instance_proj_default_v1_3-8080" one_instance
  = (inr tt, one_instance, [UnmonitorPost "instance_proj_default_v1_3-8080"]) /\
  result (stop_app_instance forgetful_env "proj_default_v1" 8080 one_instance) = inr tt /\
  result (stop_app forgetful_env "proj_default_v1" one_instance) = inr tt.
Proof.
  destruct (unmonitor_not_found forgetful_env "instance_proj_default_v1_3-8080"
              one_instance "instance_proj_default_v1_3-8080 not listed by Monit" eq_refl)
    as (Hreturn & _ & _ & Hone & Hall).
  assert (Hapi : api_server_teardown_quiet forgetful_env one_instance
                   (project_of "proj_default_v1")).
  { intros p _ st' c m H. vm_compute in H. discriminate H. }
  split; [exact Hreturn|]. split.
  - apply Hone; [reflexivity | reflexivity | by eexists | exact Hapi].
  - apply Hall; [reflexivity | | exact Hapi].
    intros entry Hentry. vm_compute in Hentry.
    apply elem_of_cons in Hentry as [->|Hentry]; [|by apply elem_of_nil in Hentry].
    split; [by eexists | done].
Defined.

(** ** Registry reconciliation *)

Section Reconcile.

Variable env : Env.

Lemma elem_of_registry_children (zk : gmap string (gmap string string))
    (vk entry payload : string) :
  (vk, entry, payload) ∈ registry_children zk <->
  exists children, zk !! vk = Some children /\ children !! entry = Some payload.
Proof.
  unfold registry_children. rewrite list_elem_of_In, in_flat_map. split.
  - intros ([vk' children] & Hvk & Hin). simpl in Hin.
    apply in_map_iff in Hin as ([e q] & [= <- <- <-] & Hin).
    apply list_elem_of_In, elem_of_map_to_list in Hvk.
    apply list_elem_of_In, elem_of_map_to_list in Hin. by exists children.
  - intros (children & Hvk & Hin). exists (vk, children). split.
    + by apply list_elem_of_In, elem_of_map_to_list.
    + simpl. apply in_map_iff. exists (entry, payload). split; [done|].
      by apply list_elem_of_In, elem_of_map_to_list.
Qed.

Lemma local_registration_some (vk entry payload : string) (instance : Instance) :
  local_registration env vk entry payload = inr (Some instance) <->
  hd EmptyString (Py.split ":" entry) = private_ip env /\
  exists port,
    Py.int (List.last (Py.split ":" entry) EmptyString) = Some port /\
    instance = mkInstance (Py.join VERSION_PATH_SEPARATOR [vk; payload]) port.
Proof.
  unfold local_registration.
  destruct (String.eqb_spec (hd EmptyString (Py.split ":" entry)) (private_ip env))
    as [Hip|Hip]; simpl.
  - destruct (Py.int (List.last (Py.split ":" entry) EmptyString)) as [port|].
    + split.
      * intros [= <-]. split; [done|]. by exists port.
      * intros (_ & port' & [= <-] & ->). done.
    + split; [done|]. by intros (_ & port' & [=] & _).
  - split; [done|]. by intros [? _].
Qed.

Lemma local_registration_returns (vk entry payload : string) :
  (hd EmptyString (Py.split ":" entry) = private_ip env ->
   is_Some (Py.int (List.last (Py.split ":" entry) EmptyString))) ->
  exists found, local_registration env vk entry payload = inr found.
Proof.
  intros Hparse. unfold local_registration.
  destruct (String.eqb_spec (hd EmptyString (Py.split ":" entry)) (private_ip env))
    as [Hip|Hip]; simpl; [|by eauto].
  destruct (Hparse Hip) as [port ->]. by eauto.
Qed.

Lemma collect_registered_spec (nodes : list (string * string * string)) :
  (forall vk entry payload, (vk, entry, payload) ∈ nodes ->
     exists found, local_registration env vk entry payload = inr found) ->
  exists registered,
    collect_registered env nodes = inr registered /\
    forall instance,
      instance ∈ registered <->
      exists vk entry payload,
        (vk, entry, payload) ∈ nodes /\
        local_registration env vk entry payload = inr (Some instance).
Proof.
  induction nodes as [|[[vk entry] payload] nodes IH]; intros Hall.
  - exists ∅. split; [done|]. intros instance.
    split; [by intros Hin%not_elem_of_empty|].
    intros (? & ? & ? & Hin & _). by apply elem_of_nil in Hin.
  - destruct (Hall vk entry payload) as [found Hfound]; [apply elem_of_cons; by left|].
    destruct IH as (registered & Hrest & Hspec).
    { intros ? ? ? Hin. apply Hall, elem_of_cons. by right. }
    simpl. rewrite Hfound, Hrest.
    eexists. split; [reflexivity|]. intros instance.
    destruct found as [i|].
    + rewrite elem_of_union, elem_of_singleton, Hspec. split.
      * intros [-> | (vk' & e' & p' & Hin & Hreg)].
        -- exists vk, entry, payload. split; [apply elem_of_cons; by left | done].
        -- exists vk', e', p'. split; [apply elem_of_cons; by right | done].
      * intros (vk' & e' & p' & Hin & Hreg).
        apply elem_of_cons in Hin as [[= -> -> ->] | Hin].
        -- left. rewrite Hfound in Hreg. by injection Hreg as ->.
        -- right. by exists vk', e', p'.
    + rewrite Hspec. split.
      * intros (vk' & e' & p' & Hin & Hreg).
        exists vk', e', p'. split; [apply elem_of_cons; by right | done].
      * intros (vk' & e' & p' & Hin & Hreg).
        apply elem_of_cons in Hin as [[= -> -> ->] | Hin].
        -- rewrite Hfound in Hreg. discriminate Hreg.
        -- by exists vk', e', p'.
Qed.

Lemma registered_instances_spec (zk : gmap string (gmap string string)) :
  registry_parses env zk ->
  exists registered,
    registered_instances env zk = inr registered /\
    forall instance, instance ∈ registered <-> local_entry env zk instance.
Proof.
  intros Hparse. unfold registered_instances.
  destruct (collect_registered_spec (registry_children zk)) as (registered & Heq & Hspec).
  { intros vk entry payload Hin.
    apply elem_of_registry_children in Hin as (children & Hvk & Hentry).
    apply local_registration_returns. by apply (Hparse vk children entry payload). }
  exists registered. split; [exact Heq|]. intros instance. rewrite Hspec. split.
  - intros (vk & entry & payload & Hin & Hreg).
    apply elem_of_registry_children in Hin as (children & Hvk & Hentry).
    apply local_registration_some in Hreg as (Hip & port & Hport & ->).
    by exists vk, children, entry, payload, port.
  - intros (vk & children & entry & payload & port & Hvk & Hentry & Hip & Hport & ->).
    exists vk, entry, payload. split.
    + apply elem_of_registry_children. by exists children.
    + apply local_registration_some. split; [done|]. by exists port.
Qed.

Lemma calls_app (tr1 tr2 : list event) : calls (tr1 ++ tr2) = calls tr1 ++ calls tr2.
Proof. apply omap_app. Qed.

Lemma unregister_all (instances : list Instance) :
  forall st,
  exists st1 tr,
    for_each instances (unregister_instance env) st = (inr tt, st1, tr) /\
    calls tr = map UnregisterInstance instances /\
    forall k, is_Some (zk_nodes st !! k) -> is_Some (zk_nodes st1 !! k).
Proof.
  induction instances as [|instance instances IH]; intros st; simpl.
  - by eexists _, _.
  - assert (Hone : exists st1 tr1,
              unregister_instance env instance st = (inr tt, st1, tr1) /\
              calls tr1 = [UnregisterInstance instance] /\
              forall k, is_Some (zk_nodes st !! k) -> is_Some (zk_nodes st1 !! k)).
    { unfold unregister_instance, bind, tell, get, ret, modify. simpl.
      destruct (bool_decide (instance ∈ running_instances st)); simpl;
        eexists _, _; (split; [reflexivity|]; split; [reflexivity|]);
        intros k Hk; simpl; by apply lookup_alter_is_Some. }
    destruct Hone as (st1 & tr1 & Hone & Hcalls & Hkeep).
    rewrite (bind_returns _ _ _ _ _ _ Hone).
    destruct (IH st1) as (st2 & tr2 & -> & Hcalls2 & Hkeep2).
    eexists _, _. split; [reflexivity|]. split.
    + by rewrite calls_app, Hcalls, Hcalls2.
    + intros k Hk. by apply Hkeep2, Hkeep.
Qed.

Lemma register_all (instances : list Instance) :
  forall st,
  (forall instance, instance ∈ instances -> is_Some (zk_nodes st !! version_key instance)) ->
  exists st1 tr,
    for_each instances (register_instance env) st = (inr tt, st1, tr) /\
    calls tr = map RegisterInstance instances.
Proof.
  induction instances as [|instance instances IH]; intros st Hnodes; simpl.
  - by eexists _, _.
  - assert (Hone : exists st1 tr1,
              register_instance env instance st = (inr tt, st1, tr1) /\
              calls tr1 = [RegisterInstance instance] /\
              forall k, is_Some (zk_nodes st !! k) -> is_Some (zk_nodes st1 !! k)).
    { destruct (Hnodes instance) as [children Hchildren]; [apply elem_of_cons; by left|].
      unfold register_instance, bind, tell, get, ret, modify. simpl.
      rewrite Hchildren.
      destruct (children !! instance_entry env instance); simpl;
        eexists _, _; (split; [reflexivity|]; split; [reflexivity|]);
        intros k Hk; simpl; apply lookup_insert_is_Some';  by right. }
    destruct Hone as (st1 & tr1 & Hone & Hcalls & Hkeep).
    rewrite (bind_returns _ _ _ _ _ _ Hone).
    destruct (IH st1) as (st2 & tr2 & -> & Hcalls2).
    { intros i Hi. apply Hkeep, Hnodes, elem_of_cons. by right. }
    eexists _, _. split; [reflexivity|]. by rewrite calls_app, Hcalls, Hcalls2.
Qed.

End Reconcile.

(** ** Stopping one instance *)

Section StopOne.

Variable env : Env.

(** With a valid project id and no watch that the expression matches,
    [stop_app_instance] raises the internal error after it has listed the
    watches, and has done nothing else. *)
Lemma stop_app_instance_no_entry (vk : string) (port : Z) (st : State) :
  is_app_name_valid env (project_of vk) = true ->
  List.find (instance_key_re_match vk port) (monit_entries st) = None ->
  stop_app_instance env vk port st
  = (inl (HTTPError INTERNAL_ERROR
            ("No entries exist for " +:+ vk +:+ ":" +:+ Py.str port)),
     st, [Log INFO "Stopping instance"; MonitGetEntries]).
Proof.
  intros Hvalid Hfind. unfold stop_app_instance. rewrite Hvalid. cbn [negb].
  rewrite bind_tell.
  rewrite (bind_returns _ _ st st (monit_entries st) [MonitGetEntries] eq_refl).
  by rewrite Hfind.
Qed.


End StopOne.

(** C7, on the code.  Monit lists one instance watch of [proj_default_v1],
    on port 20000, and none on port 2000.  A request to stop the instance
    on port 2000 does not fail with the internal error: the expression
    [instance_proj_default_v1.*-2000] is matched at the start of the name
    only, so the watch of port 20000 is taken, its instance is
    unregistered, the watch is unmonitored and removed, and with it the
    API server of the project. *)
Theorem stop_app_instance_takes_longer_port :
  existsb (names_version_port "proj_default_v1" 2000)
          (monit_entries high_port_instance) = false /\
  List.find (instance_key_re_match "proj_default_v1" 2000)
            (monit_entries high_port_instance)
  = Some "instance_proj_default_v1_3-20000" /\
  result (stop_app_instance node_env "proj_default_v1" 2000 high_port_instance) = inr tt /\
  List.filter is_teardown
    (trace (stop_app_instance node_env "proj_default_v1" 2000 high_port_instance))
  = [Call (UnregisterInstance (mkInstance "proj_default_v1_3" 20000));
     ZkDelete "/appscale/instances_by_version/proj_default_v1/10.0.0.2:20000";
     UnmonitorPost "instance_proj_default_v1_3-20000";
     RemoveConfiguration "instance_proj_default_v1_3-20000";
     SpawnCallback (StopInstance "instance_proj_default_v1_3-20000");
     UnmonitorPost "api-server_proj-19999";
     RemoveConfiguration "api-server_proj-19999";
     SpawnCallback (StopInstance "api-server_proj-19999")] /\
  monit_entries (final (stop_app_instance node_env "proj_default_v1" 2000
                          high_port_instance)) = [].
Proof. repeat split; vm_compute; reflexivity. Qed.

(** ** The API server of a project after a stop *)

(** C8, on the code.  The projects [proj] and [proj2] have one instance
    each.  After the instance of [proj] is stopped, by [stop_app_instance]
    or by [stop_app], Monit lists no instance watch of [proj]; yet the
    watch of [proj2] starts with [instance_proj] and counts as a remaining
    instance, so the API server of [proj] is not stopped: its watch stays
    and [proj] keeps its port in [api_servers]. *)
Theorem stop_keeps_api_server_of_emptied_project :
  let after_one := final (stop_app_instance node_env "proj_default_v1" 8080 two_projects) in
  let after_all := final (stop_app node_env "proj_default_v1" two_projects) in
  result (stop_app_instance node_env "proj_default_v1" 8080 two_projects) = inr tt /\
  project_instances after_one "proj" = [] /\
  api_servers after_one !! "proj" = Some 19999 /\
  monit_entries after_one
  = ["api-server_proj-19999"; "api-server_proj2-19998";
     "instance_proj2_default_v1_1-8081"] /\
  result (stop_app node_env "proj_default_v1" two_projects) = inr tt /\
  project_instances after_all "proj" = [] /\
  api_servers after_all !! "proj" = Some 19999 /\
  monit_entries after_all
  = ["api-server_proj-19999"; "api-server_proj2-19998";
     "instance_proj2_default_v1_1-8081"].
Proof. cbv zeta. repeat split; vm_compute; reflexivity. Qed.

(** Where no other project shares the prefix, the last stop of a project
    takes its API server down, as the second scenario of the spec has it. *)
Example stop_last_instance_stops_api_server :
  let after := final (stop_app_instance node_env "proj_default_v1" 8080 one_instance) in
  project_instances after "proj" = [] /\
  api_servers after !! "proj" = None /\
  monit_entries after = [].
Proof. cbv zeta. repeat split; vm_compute; reflexivity. Qed.

(** * Further properties of the module *)

(** ** API-server pool: the ports stay apart *)

Section PoolInvariants.

Variable env : Env.

Lemma next_api_server_port_below (servers : gmap string Z) (project : string) (port : Z) :
  servers !! project = Some port ->
  next_api_server_port (values servers) < port /\
  next_api_server_port (values servers) <= MAX_API_SERVER_PORT.
Proof.
  intros Hport. unfold next_api_server_port.
  destruct (port_loop_bounds (values servers) MAX_API_SERVER_PORT) as (Hle & Hall & _).
  split; [|exact Hle].
  assert (Hin : port ∈ values servers) by (apply elem_of_values; eauto).
  specialize (Hall port Hin). lia.
Qed.

(** The three ways [ensure_api_server] ends. *)
Lemma ensure_api_server_run (project_id : string) (st : State) :
  (exists cached,
     api_servers st !! project_id = Some cached /\
     ensure_api_server env project_id st
     = (inr cached, st, [Call (EnsureApiServer project_id)])) \/
  (api_servers st !! project_id = None /\
   monit_start env
     (api_server_watch project_id (next_api_server_port (values (api_servers st)))) = true /\
   exists st1 tr,
     ensure_api_server env project_id st
     = (inr (next_api_server_port (values (api_servers st))), st1, tr) /\
     api_servers st1
     = <[project_id := next_api_server_port (values (api_servers st))]> (api_servers st) /\
     running_instances st1 = running_instances st /\
     zk_nodes st1 = zk_nodes st /\
     api_server_watch project_id (next_api_server_port (values (api_servers st)))
     ∈ monit_entries st1) \/
  (api_servers st !! project_id = None /\
   monit_start env
     (api_server_watch project_id (next_api_server_port (values (api_servers st)))) = false /\
   exists message tr,
     ensure_api_server env project_id st = (inl (AssertionError message), st, tr)).
Proof.
  unfold ensure_api_server, bind, tell, get, ret, raise, create_config_file,
    monit_interface_start, modify. simpl.
  destruct (api_servers st !! project_id) as [cached|] eqn:Hp; simpl.
  - left. by exists cached.
  - right.
    destruct (monit_start env
                (api_server_watch project_id
                   (next_api_server_port (values (api_servers st))))); simpl.
    + left. split; [done|]. split; [done|]. eexists _, _. split; [reflexivity|]. simpl.
      repeat split.
      case_bool_decide as Hin; [exact Hin|]. apply elem_of_app. right.
      apply elem_of_cons. by left.
    + right. split; [done|]. split; [done|]. by eexists _, _.
Qed.

(** The watch name of [stop_api_server] is the one of [ensure_api_server]. *)
Lemma stop_watch_is_start_watch (project_id : string) (port : Z) :
  API_SERVER_PREFIX +:+ project_id +:+ "-" +:+ Py.str port
  = api_server_watch project_id port.
Proof.
  unfold api_server_watch, Py.join. cbn [String.concat]. by rewrite append_assoc.
Qed.

End PoolInvariants.

(** X1.  [ensure_api_server] keeps the ports of the projects apart: a new
    project gets a port that is below every assigned port and not above
    [MAX_API_SERVER_PORT], so when no two projects shared a port before
    the call, none do after it. *)
Theorem ensure_api_server_ports_distinct (env : Env) (project_id : string) (st : State) :
  ports_distinct (api_servers st) ->
  ports_distinct (api_servers (final (ensure_api_server env project_id st))) /\
  (forall port,
     api_servers st !! project_id = None ->
     result (ensure_api_server env project_id st) = inr port ->
     port <= MAX_API_SERVER_PORT /\
     forall other assigned, api_servers st !! other = Some assigned -> port < assigned).
Proof.
  intros Hdistinct.
  destruct (ensure_api_server_run env project_id st)
    as [(cached & Hc & ->) | [(Hnone & _ & st1 & tr & -> & Hmap & _)
                             | (Hnone & _ & m & tr & ->)]];
    unfold final, result; cbn [fst snd].
  - split; [exact Hdistinct|]. intros port Hnone. by rewrite Hnone in Hc.
  - split.
    + rewrite Hmap. intros p1 p2 port H1 H2.
      apply lookup_insert_Some in H1 as [[<- <-] | [Hne1 H1]];
        apply lookup_insert_Some in H2 as [[<- Heq] | [Hne2 H2]]; try done.
      * destruct (next_api_server_port_below _ _ _ H2). lia.
      * destruct (next_api_server_port_below _ _ _ H1). lia.
      * by apply (Hdistinct p1 p2 port).
    + intros port _ [= <-].
      split.
      * destruct (decide (api_servers st = ∅)) as [Hempty|Hne].
        -- rewrite Hempty. unfold values. by rewrite map_to_list_empty.
        -- apply map_choose in Hne as (k & q & Hk).
           by destruct (next_api_server_port_below _ _ _ Hk).
      * intros other assigned Hother.
        by destruct (next_api_server_port_below _ _ _ Hother).
  - split; [exact Hdistinct|]. by intros port _ [=].
Qed.

Lemma ensure_api_server_ports_distinct_witness :
  ports_distinct (api_servers (final (ensure_api_server node_env "gamma" two_servers))) /\
  api_servers (final (ensure_api_server node_env "gamma" two_servers)) !! "gamma"
  = Some 19996.
Proof.
  assert (Hdistinct : ports_distinct (api_servers two_servers)).
  { intros p1 p2 port H1 H2. unfold two_servers in *. cbn [api_servers] in *.
    apply lookup_insert_Some in H1 as [[<- <-] | [_ H1]];
      apply lookup_insert_Some in H2 as [[<- Heq] | [_ H2]]; try done.
    - by apply lookup_singleton_Some in H2 as [_ [=]].
    - apply lookup_singleton_Some in H1 as [<- <-]. discriminate Heq.
    - apply lookup_singleton_Some in H1 as [<- _].
      by apply lookup_singleton_Some in H2 as [<- _]. }
  destruct (ensure_api_server_ports_distinct node_env "gamma" two_servers Hdistinct)
    as [Hafter _].
  split; [exact Hafter | reflexivity].
Defined.

(** X2.  [ensure_api_server] is idempotent: once it has returned a port for
    a project, a second call returns the same port, leaves the state as it
    is and asks nothing of Monit. *)
Theorem ensure_api_server_twice (env : Env) (project_id : string) (st : State) (port : Z) :
  result (ensure_api_server env project_id st) = inr port ->
  ensure_api_server env project_id (final (ensure_api_server env project_id st))
  = (inr port, final (ensure_api_server env project_id st),
     [Call (EnsureApiServer project_id)]).
Proof.
  intros Hres.
  destruct (ensure_api_server_run env project_id st)
    as [(cached & Hc & Hrun) | [(Hnone & _ & st1 & tr & Hrun & Hmap & _)
                               | (Hnone & _ & m & tr & Hrun)]];
    rewrite Hrun in *; unfold final, result in *; cbn [fst snd] in *.
  - injection Hres as <-.
    destruct (ensure_api_server_run env project_id st)
      as [(c & Hc' & Hrun') | [(Hnone & _) | (Hnone & _)]];
      [|by rewrite Hnone in Hc..].
    rewrite Hrun'. rewrite Hc in Hc'. by injection Hc' as <-.
  - injection Hres as <-.
    destruct (ensure_api_server_run env project_id st1)
      as [(c & Hc' & Hrun') | [(Hnone' & _) | (Hnone' & _)]].
    + rewrite Hrun'. rewrite Hmap, lookup_insert_eq in Hc'. by injection Hc' as <-.
    + by rewrite Hmap, lookup_insert_eq in Hnone'.
    + by rewrite Hmap, lookup_insert_eq in Hnone'.
  - discriminate Hres.
Qed.

Lemma ensure_api_server_twice_witness :
  ensure_api_server node_env "gamma"
    (final (ensure_api_server node_env "gamma" two_servers))
  = (inr 19996, final (ensure_api_server node_env "gamma" two_servers),
     [Call (EnsureApiServer "gamma")]).
Proof. apply (ensure_api_server_twice node_env "gamma" two_servers 19996). reflexivity. Defined.

(** ** Unmonitor: retries and teardown *)

Section UnmonitorRetries.

Variable env : Env.

Lemma unmonitor_from_step (attempt : nat) (name : string) (retries : nat) (st : State) :
  unmonitor_from env attempt name retries st
  = match unmonitor_response env name attempt with
    | None => (inr tt, st, [UnmonitorPost name])
    | Some code =>
        if code =? 404
        then (inl (ProcessNotFound (name +:+ " not listed by Monit")), st,
              [UnmonitorPost name])
        else if code =? 503
        then match retries with
             | O => (inl (HTTPError code ("HTTP " +:+ Py.str code)), st,
                     [UnmonitorPost name])
             | S retries' =>
                 match unmonitor_from env (S attempt) name retries' st with
                 | (r, st', tr) => (r, st', UnmonitorPost name :: tr)
                 end
             end
        else (inl (HTTPError code ("HTTP " +:+ Py.str code)), st, [UnmonitorPost name])
    end.
Proof.
  destruct retries as [|retries']; simpl; unfold bind at 1, tell at 1, ret, raise;
    destruct (unmonitor_response env name attempt) as [code|]; simpl; try done;
    destruct (code =? 404); simpl; try done;
    destruct (code =? 503); simpl; try done.
Qed.

(** [k] answers 503 in a row use up [k] retries. *)
Lemma unmonitor_from_busy (name : string) (k : nat) :
  forall (attempt retries : nat) (st : State),
  (k <= retries)%nat ->
  (forall j, (j < k)%nat -> unmonitor_response env name (attempt + j) = Some 503) ->
  unmonitor_from env attempt name retries st
  = match unmonitor_from env (attempt + k) name (retries - k) st with
    | (r, st', tr) => (r, st', replicate k (UnmonitorPost name) ++ tr)
    end.
Proof.
  induction k as [|k IH]; intros attempt retries st Hk Hbusy.
  - rewrite Nat.add_0_r, Nat.sub_0_r.
    by destruct (unmonitor_from env attempt name retries st) as [[r st'] tr].
  - destruct retries as [|retries]; [lia|].
    rewrite unmonitor_from_step.
    pose proof (Hbusy 0%nat ltac:(lia)) as H0. rewrite Nat.add_0_r in H0.
    rewrite H0. cbn [Z.eqb Pos.eqb].
    rewrite (IH (S attempt) retries st); [|lia|].
    + replace (S attempt + k)%nat with (attempt + S k)%nat by lia.
      replace (S retries - S k)%nat with (retries - k)%nat by lia.
      by destruct (unmonitor_from env (attempt + S k) name (retries - k) st)
        as [[r st'] tr].
    + intros j Hj. replace (S attempt + j)%nat with (attempt + S j)%nat by lia.
      apply Hbusy. lia.
Qed.

End UnmonitorRetries.

(** X3.  [unmonitor] repeats its request while Monit answers 503, five
    times at most.  After [k <= 5] such answers, an accepted request ends
    it after [k + 1] POSTs, a 404 raises [ProcessNotFound] and any other
    status raises the [HTTPError] of that status; a sixth 503 in a row
    raises the [HTTPError] 503 after six POSTs.  The module state is never
    touched. *)
Theorem unmonitor_retries (env : Env) (name : string) (st : State) (k : nat) :
  (k <= 5)%nat ->
  (forall j, (j < k)%nat -> unmonitor_response env name j = Some 503) ->
  (unmonitor_response env name k = None ->
   unmonitor env name st = (inr tt, st, replicate (S k) (UnmonitorPost name))) /\
  (unmonitor_response env name k = Some 404 ->
   unmonitor env name st
   = (inl (ProcessNotFound (name +:+ " not listed by Monit")), st,
      replicate (S k) (UnmonitorPost name))) /\
  (forall code,
     unmonitor_response env name k = Some code -> code <> 404 -> code <> 503 ->
     unmonitor env name st
     = (inl (HTTPError code ("HTTP " +:+ Py.str code)), st,
        replicate (S k) (UnmonitorPost name))) /\
  (k = 5%nat -> unmonitor_response env name 5 = Some 503 ->
   unmonitor env name st
   = (inl (HTTPError 503 "HTTP 503"), st, replicate 6 (UnmonitorPost name))).
Proof.
  intros Hk Hbusy. unfold unmonitor.
  rewrite (unmonitor_from_busy env name k 0 5 st Hk Hbusy).
  rewrite unmonitor_from_step. cbn [Nat.add].
  assert (Hsnoc : forall ev : event, replicate k ev ++ [ev] = replicate (S k) ev).
  { intros ev. clear. induction k as [|k IH]; [done|]. cbn. by rewrite IH. }
  split; [|split; [|split]].
  - intros ->. by rewrite Hsnoc.
  - intros ->. cbn [Z.eqb Pos.eqb]. by rewrite Hsnoc.
  - intros code -> H404 H503.
    destruct (Z.eqb_spec code 404); [done|].
    destruct (Z.eqb_spec code 503); [done|]. by rewrite Hsnoc.
  - intros -> ->. reflexivity.
Qed.

Lemma unmonitor_retries_witness :
  unmonitor busy_env "instance_proj_default_v1_3-8080" one_instance
  = (inr tt, one_instance, replicate 3 (UnmonitorPost "instance_proj_default_v1_3-8080")).
Proof.
  assert (Hk : (2 <= 5)%nat) by lia.
  assert (Hbusy : forall j, (j < 2)%nat ->
            unmonitor_response busy_env "instance_proj_default_v1_3-8080" j = Some 503).
  { intros j Hj. destruct j as [|[|j]]; [reflexivity|reflexivity|lia]. }
  destruct (unmonitor_retries busy_env "instance_proj_default_v1_3-8080" one_instance 2
              Hk Hbusy) as [Haccepted _].
  exact (Haccepted eq_refl).
Defined.

Section PoolRoundTrip.

Variable env : Env.

Lemma stop_api_server_run (project_id : string) (port : Z) (st : State) :
  api_servers st !! project_id = Some port ->
  stop_api_server env project_id st
  = match unmonitor env (api_server_watch project_id port) st with
    | (inr _, st1, tr) =>
        (inr tt,
         set_api_servers (delete project_id)
           (set_monit_entries
              (filter (fun entry => entry <> api_server_watch project_id port)) st1),
         tr ++ [RemoveConfiguration (api_server_watch project_id port);
                SpawnCallback (StopInstance (api_server_watch project_id port))])
    | (inl (ProcessNotFound _), st1, tr) =>
        (inr tt, set_api_servers (delete project_id) st1, tr)
    | (inl e, st1, tr) => (inl e, st1, tr)
    end.
Proof.
  intros Hport. unfold stop_api_server.
  rewrite (bind_returns _ _ st st st [] eq_refl). rewrite Hport.
  rewrite stop_watch_is_start_watch.
  unfold bind. rewrite unmonitor_and_terminate_run.
  destruct (unmonitor env (api_server_watch project_id port) st) as [[[e|[]] st1] tr].
  - destruct e; unfold modify; simpl; try done. by rewrite app_nil_r.
  - unfold modify. simpl. by rewrite app_nil_r.
Qed.

End PoolRoundTrip.

(** X4.  Stopping the API server that [ensure_api_server] has just
    started for a new project gives the pool back as it was: when Monit
    accepts the unmonitor request or does not know the watch,
    [stop_api_server] returns, [api_servers] is the map of before the
    start and the next [ensure_api_server] of the project is given the same
    port again.  When the unmonitor request ends in an [HTTPError],
    [stop_api_server] raises it and the project keeps its port. *)
Theorem ensure_then_stop_api_server (env : Env) (project_id : string) (st : State)
    (port : Z) :
  api_servers st !! project_id = None ->
  result (ensure_api_server env project_id st) = inr port ->
  let started := final (ensure_api_server env project_id st) in
  let outcome := result (unmonitor env (api_server_watch project_id port) started) in
  ((forall code message, outcome <> inl (HTTPError code message)) ->
   result (stop_api_server env project_id started) = inr tt /\
   api_servers (final (stop_api_server env project_id started)) = api_servers st /\
   running_instances (final (stop_api_server env project_id started))
   = running_instances st /\
   zk_nodes (final (stop_api_server env project_id started)) = zk_nodes st /\
   result (ensure_api_server env project_id
             (final (stop_api_server env project_id started))) = inr port) /\
  (forall code message,
     outcome = inl (HTTPError code message) ->
     result (stop_api_server env project_id started) = inl (HTTPError code message) /\
     api_servers (final (stop_api_server env project_id started)) !! project_id
     = Some port).
Proof.
  intros Hnone Hres.
  destruct (ensure_api_server_run env project_id st)
    as [(cached & Hc & _) | [(_ & Hstart & st1 & tr & Hrun & Hmap & Hrunning & Hzk & _)
                            | (_ & _ & m & tr & Hrun)]].
  - by rewrite Hnone in Hc.
  - rewrite Hrun in *. unfold result, final in *. cbn [fst snd] in *.
    injection Hres as <-.
    set (port := next_api_server_port (values (api_servers st))) in *.
    assert (Hport : api_servers st1 !! project_id = Some port)
      by (by rewrite Hmap, lookup_insert_eq).
    rewrite (stop_api_server_run env project_id port st1 Hport).
    destruct (unmonitor_run env (api_server_watch project_id port))
      as (r & tr' & Hun & _ & Hr).
    rewrite Hun. cbn [fst snd].
    assert (Hback : delete project_id (api_servers st1) = api_servers st)
      by (by rewrite Hmap, delete_insert_eq, delete_id).
    assert (Hagain : forall st2,
              api_servers st2 = api_servers st ->
              (ensure_api_server env project_id st2).1.1 = inr port).
    { intros st2 Hsame.
      destruct (ensure_api_server_run env project_id st2)
        as [(c & Hc & _) | [(_ & _ & st3 & tr3 & -> & _) | (_ & Hfail & _)]].
      - by rewrite Hsame, Hnone in Hc.
      - by rewrite Hsame.
      - rewrite Hsame in Hfail. fold port in Hfail. by rewrite Hstart in Hfail. }
    split.
    + intros Hquiet.
      destruct Hr as [-> | [(m & ->) | (c & m & ->)]]; [| |by destruct (Hquiet c m)];
        cbn [fst snd api_servers running_instances zk_nodes set_api_servers
             set_monit_entries];
        (split; [done|]); (split; [exact Hback|]); (split; [done|]); (split; [done|]);
        by apply Hagain.
    + intros code message Hout.
      destruct Hr as [-> | [(m & ->) | (c & m & ->)]]; try discriminate Hout.
      injection Hout as -> ->. by cbn [fst snd].
  - rewrite Hrun in Hres. discriminate Hres.
Qed.

Lemma ensure_then_stop_api_server_witness :
  api_servers
    (final (stop_api_server node_env "gamma"
              (final (ensure_api_server node_env "gamma" two_servers))))
  = api_servers two_servers /\
  result (ensure_api_server node_env "gamma"
            (final (stop_api_server node_env "gamma"
                      (final (ensure_api_server node_env "gamma" two_servers)))))
  = inr 19996.
Proof.
  destruct (ensure_then_stop_api_server node_env "gamma" two_servers 19996
              eq_refl eq_refl) as [Hquiet _].
  destruct Hquiet as (_ & Hback & _ & _ & Hagain); [by intros code message|].
  split; [exact Hback | exact Hagain].
Defined.

(** ** Registry client: declare and retract *)

Section RegistryClient.

Variable env : Env.

Lemma register_instance_run (instance : Instance) (st : State) :
  register_instance env instance st
  = match zk_nodes st !! version_key instance with
    | None =>
        (inl (NoNodeError (instance_node env instance)), st,
         [Call (RegisterInstance instance);
          ZkCreate (instance_node env instance) (revision instance)])
    | Some children =>
        (inr tt,
         mkState (api_servers st) ({[instance]} ∪ running_instances st)
                 (<[version_key instance :=
                      <[instance_entry env instance := revision instance]> children]>
                    (zk_nodes st))
                 (monit_entries st),
         Call (RegisterInstance instance)
         :: ZkCreate (instance_node env instance) (revision instance)
         :: match children !! instance_entry env instance with
            | Some _ => [ZkSet (instance_node env instance) (revision instance)]
            | None => []
            end)
    end.
Proof.
  unfold register_instance, bind, tell, get, ret, raise, modify. simpl.
  destruct (zk_nodes st !! version_key instance) as [children|]; [|done].
  by destruct (children !! instance_entry env instance).
Qed.

Lemma unregister_instance_state (instance : Instance) (st : State) :
  exists tr,
    unregister_instance env instance st
    = (inr tt,
       mkState (api_servers st) (running_instances st ∖ {[instance]})
               (alter (delete (instance_entry env instance)) (version_key instance)
                      (zk_nodes st))
               (monit_entries st),
       Call (UnregisterInstance instance) :: ZkDelete (instance_node env instance) :: tr).
Proof.
  unfold unregister_instance, bind, tell, get, ret, modify. simpl.
  case_bool_decide as Hin; simpl.
  - by eexists.
  - eexists. do 2 f_equal. unfold set_zk_nodes. simpl. f_equal.
    apply set_eq. intros x. rewrite elem_of_difference, elem_of_singleton.
    split; [|by intros [? _]]. intros Hx. split; [done|]. by intros ->.
Qed.

End RegistryClient.

(** X5.  [register_instance] creates the node of the instance or
    overwrites it: under an existing version node it returns, the child
    [{private_ip}:{port}] holds the revision of the instance whatever it
    held before, the other children and version nodes are as they were and
    the instance is in [running_instances].  Registering again changes
    nothing: the create meets the existing node and the payload is set
    once more.  Without the version node the create raises [NoNodeError]
    and the state is untouched. *)
Theorem register_instance_overwrites (env : Env) (instance : Instance) (st : State) :
  (forall children,
     zk_nodes st !! version_key instance = Some children ->
     let registered := final (register_instance env instance st) in
     result (register_instance env instance st) = inr tt /\
     zk_nodes registered !! version_key instance
     = Some (<[instance_entry env instance := revision instance]> children) /\
     (forall other, other <> version_key instance ->
        zk_nodes registered !! other = zk_nodes st !! other) /\
     instance ∈ running_instances registered /\
     api_servers registered = api_servers st /\
     monit_entries registered = monit_entries st /\
     register_instance env instance registered
     = (inr tt, registered,
        [Call (RegisterInstance instance);
         ZkCreate (instance_node env instance) (revision instance);
         ZkSet (instance_node env instance) (revision instance)])) /\
  (zk_nodes st !! version_key instance = None ->
   result (register_instance env instance st)
   = inl (NoNodeError (instance_node env instance)) /\
   final (register_instance env instance st) = st).
Proof.
  split.
  - intros children Hvk. cbv zeta. rewrite !register_instance_run, Hvk.
    unfold result, final. cbn [fst snd zk_nodes running_instances api_servers monit_entries].
    split; [done|]. split; [by rewrite lookup_insert_eq|].
    split; [by intros other Hne; rewrite lookup_insert_ne|].
    split; [apply elem_of_union; left; by apply elem_of_singleton|].
    split; [done|]. split; [done|].
    rewrite lookup_insert_eq, lookup_insert_eq. f_equal. f_equal.
    f_equal.
    + apply set_eq. intros x. rewrite !elem_of_union. tauto.
    + by rewrite insert_insert_eq, insert_insert_eq.
  - intros Hvk. by rewrite register_instance_run, Hvk.
Qed.

Lemma register_instance_overwrites_witness :
  zk_nodes (final (register_instance node_env (mkInstance "proj_default_v1_4" 8080)
                     one_instance)) !! "proj_default_v1"
  = Some {[ "10.0.0.2:8080" := "4" ]} /\
  result (register_instance node_env (mkInstance "other_default_v1_4" 8080) one_instance)
  = inl (NoNodeError "/appscale/instances_by_version/other_default_v1/10.0.0.2:8080").
Proof.
  destruct (register_instance_overwrites node_env (mkInstance "proj_default_v1_4" 8080)
              one_instance) as [Hthere _].
  destruct (Hthere {[ "10.0.0.2:8080" := "3" ]} eq_refl) as (_ & Hnode & _).
  destruct (register_instance_overwrites node_env (mkInstance "other_default_v1_4" 8080)
              one_instance) as [_ Hmissing].
  destruct (Hmissing eq_refl) as [Hraise _].
  split; [|exact Hraise].
  refine (eq_trans Hnode _).
  change (Some (<[ "10.0.0.2:8080" := "4" ]>
                  ({[ "10.0.0.2:8080" := "3" ]} : gmap string string))
          = Some {[ "10.0.0.2:8080" := "4" ]}).
  by rewrite insert_singleton_eq.
Defined.

(** X6.  [unregister_instance] never raises: it deletes the child of the
    instance if there is one and takes the instance out of
    [running_instances] if it is in.  Retracting an instance right after it
    was registered gives back the state of before, when the instance was
    neither registered nor running; retracting an instance that is neither
    leaves the state as it is. *)
Theorem register_then_unregister (env : Env) (instance : Instance) (st : State)
    (children : gmap string string) :
  zk_nodes st !! version_key instance = Some children ->
  children !! instance_entry env instance = None ->
  instance ∉ running_instances st ->
  result (unregister_instance env instance st) = inr tt /\
  final (unregister_instance env instance st) = st /\
  result (unregister_instance env instance
            (final (register_instance env instance st))) = inr tt /\
  final (unregister_instance env instance (final (register_instance env instance st)))
  = st.
Proof.
  intros Hvk Hentry Hrunning.
  destruct (unregister_instance_state env instance st) as (tr & Hun).
  destruct (unregister_instance_state env instance
              (final (register_instance env instance st))) as (tr' & Hun').
  rewrite Hun, Hun'. rewrite register_instance_run, Hvk.
  unfold result, final. cbn [fst snd api_servers running_instances zk_nodes monit_entries].
  assert (Hset : running_instances st ∖ {[instance]} = running_instances st).
  { apply set_eq. intros x. rewrite elem_of_difference, elem_of_singleton.
    split; [by intros [? _]|]. intros Hx. split; [done|]. by intros ->. }
  assert (Hset' : ({[instance]} ∪ running_instances st) ∖ {[instance]}
                  = running_instances st).
  { apply set_eq. intros x.
    rewrite elem_of_difference, elem_of_union, elem_of_singleton.
    split; [intros [[->|Hx] Hne]; done|]. intros Hx. split; [by right|]. by intros ->. }
  assert (Hzk : alter (delete (instance_entry env instance)) (version_key instance)
                  (zk_nodes st) = zk_nodes st).
  { apply map_eq. intros k. rewrite lookup_alter. case_decide as Hk; [|done].
    subst k. rewrite Hvk. simpl. by rewrite delete_id. }
  assert (Hzk' : alter (delete (instance_entry env instance)) (version_key instance)
                   (<[version_key instance :=
                        <[instance_entry env instance := revision instance]> children]>
                      (zk_nodes st)) = zk_nodes st).
  { apply map_eq. intros k. rewrite lookup_alter. case_decide as Hk.
    - subst k. rewrite lookup_insert_eq. simpl.
      by rewrite delete_insert_eq, delete_id, Hvk.
    - by rewrite lookup_insert_ne. }
  rewrite Hset, Hset', Hzk, Hzk'. by destruct st.
Qed.

Lemma register_then_unregister_witness :
  final (unregister_instance node_env (mkInstance "proj_default_v1_3" 8082)
           (final (register_instance node_env (mkInstance "proj_default_v1_3" 8082)
                     one_instance)))
  = one_instance.
Proof.
  apply (register_then_unregister node_env (mkInstance "proj_default_v1_3" 8082)
           one_instance {[ "10.0.0.2:8080" := "3" ]}).
  - reflexivity.
  - reflexivity.
  - intros Hin. unfold one_instance in Hin. cbn [running_instances] in Hin.
    apply elem_of_singleton in Hin. discriminate Hin.
Defined.

(** ** Old sources *)

Section OldSources.

Variable env : Env.

Lemma entry_revision_watch (revision_key : string) (port : Z) :
  0 <= port -> entry_revision (instance_watch revision_key port) = revision_key.
Proof.
  intros Hport. unfold entry_revision, instance_watch.
  rewrite append_assoc, slice_from_app.
  change ("-" +:+ Py.str port) with (String "-" (Py.str port)).
  by rewrite rsplit1_last by (by apply str_no_minus).
Qed.

Lemma instance_watch_prefixed (revision_key : string) (port : Z) :
  Py.startswith MONIT_INSTANCE_PREFIX (instance_watch revision_key port) = true.
Proof. unfold instance_watch. rewrite append_assoc. apply startswith_app. Qed.

Lemma elem_of_declared_revisions (r : string) :
  r ∈ declared_revisions env <->
  exists project_id service_id version_id vd,
    lookup_version env project_id service_id version_id = Some vd /\
    r = Py.join VERSION_PATH_SEPARATOR
          [project_id; service_id; version_id; Py.str (vd_revision vd)].
Proof.
  unfold declared_revisions, lookup_version.
  rewrite list_elem_of_In, in_flat_map. split.
  - intros ([p pm] & Hp & Hin). apply in_flat_map in Hin as ([s sm] & Hs & Hin).
    apply in_map_iff in Hin as ([v vd] & <- & Hv).
    apply list_elem_of_In, elem_of_map_to_list in Hp, Hs, Hv.
    cbn [fst snd] in *. exists p, s, v, vd. by rewrite Hp, Hs.
  - intros (p & s & v & vd & Hlook & ->).
    destruct (projects_manager env !! p) as [pm|] eqn:Hp; [|done].
    destruct (pm !! s) as [sm|] eqn:Hs; [|done].
    exists (p, pm). split; [by apply list_elem_of_In, elem_of_map_to_list|].
    apply in_flat_map. exists (s, sm).
    split; [by apply list_elem_of_In, elem_of_map_to_list|].
    apply in_map_iff. exists (v, vd).
    split; [done | by apply list_elem_of_In, elem_of_map_to_list].
Qed.

End OldSources.

(** X7.  [clean_old_sources] hands [clean_old_revisions] a set that holds
    the revision of every instance watch Monit lists and the current
    revision of every version of the projects manager, and nothing else:
    the source of a supervised instance or of a declared version is never
    given up for removal.  It returns and leaves the module state alone. *)
Theorem clean_old_sources_keeps_active (env : Env) (st : State) :
  exists active,
    clean_old_sources env st
    = (inr tt, st, [MonitGetEntries; CleanOldRevisions active]) /\
    (forall revision_key port,
       0 <= port -> instance_watch revision_key port ∈ monit_entries st ->
       revision_key ∈ active) /\
    (forall project_id service_id version_id vd,
       lookup_version env project_id service_id version_id = Some vd ->
       Py.join VERSION_PATH_SEPARATOR
         [project_id; service_id; version_id; Py.str (vd_revision vd)] ∈ active) /\
    (forall r,
       r ∈ active ->
       (exists entry,
          entry ∈ monit_entries st /\
          Py.startswith MONIT_INSTANCE_PREFIX entry = true /\
          r = entry_revision entry) \/
       (exists project_id service_id version_id vd,
          lookup_version env project_id service_id version_id = Some vd /\
          r = Py.join VERSION_PATH_SEPARATOR
                [project_id; service_id; version_id; Py.str (vd_revision vd)])).
Proof.
  eexists. split; [reflexivity|]. split; [|split].
  - intros rk port Hport Hin. apply elem_of_union. left.
    apply elem_of_list_to_set, list_elem_of_In, in_map_iff.
    exists (instance_watch rk port). split; [by apply entry_revision_watch|].
    apply filter_In. split; [by apply list_elem_of_In | apply instance_watch_prefixed].
  - intros p s v vd Hlook. apply elem_of_union. right.
    apply elem_of_list_to_set, elem_of_declared_revisions. by exists p, s, v, vd.
  - intros r Hr. apply elem_of_union in Hr as [Hr | Hr].
    + left. apply elem_of_list_to_set, list_elem_of_In, in_map_iff in Hr
        as (entry & <- & Hin).
      apply filter_In in Hin as [Hin Hpre]. exists entry.
      split; [by apply list_elem_of_In | done].
    + right. by apply elem_of_list_to_set, elem_of_declared_revisions in Hr.
Qed.

Lemma clean_old_sources_keeps_active_witness :
  exists active,
    trace (clean_old_sources node_env one_instance)
    = [MonitGetEntries; CleanOldRevisions active] /\
    "proj_default_v1_3" ∈ active.
Proof.
  destruct (clean_old_sources_keeps_active node_env one_instance)
    as (active & Hrun & Hlisted & _).
  exists active. split; [by rewrite Hrun|].
  apply (Hlisted "proj_default_v1_3" 8080); [lia|].
  unfold one_instance. cbn [monit_entries].
  apply elem_of_cons. right. apply elem_of_cons. by left.
Defined.

(** ** The stop paths: what they raise *)

Section StopRaises.

Variable env : Env.

Lemma raises_only_bind {A B} (P : exn -> Prop) (m : M A) (k : A -> M B) :
  raises_only P m -> (forall a, raises_only P (k a)) -> raises_only P (bind m k).
Proof.
  intros Hm Hk st e. unfold bind, result.
  specialize (Hm st). unfold result in Hm.
  destruct (m st) as [[[e1|a] st1] tr1]; cbn [fst].
  - intros [= <-]. by apply Hm.
  - specialize (Hk a st1). unfold result in Hk.
    destruct (k a st1) as [[r st2] tr2]. cbn [fst] in *. apply Hk.
Qed.

Lemma raises_only_returns {A} (P : exn -> Prop) (m : M A) :
  (forall st, exists a st1 tr, m st = (inr a, st1, tr)) -> raises_only P m.
Proof. intros Hm st e. destruct (Hm st) as (a & st1 & tr & ->). by intros [=]. Qed.

Lemma raises_only_for_each {A} (P : exn -> Prop) (xs : list A) (body : A -> M unit) :
  (forall x, raises_only P (body x)) -> raises_only P (for_each xs body).
Proof.
  intros Hbody. induction xs as [|x xs IH]; simpl.
  - by intros st e [=].
  - apply raises_only_bind; [apply Hbody | by intros _].
Qed.

Lemma unmonitor_and_terminate_raises (watch : string) :
  raises_only is_http_or_value_error (unmonitor_and_terminate env watch).
Proof.
  intros st e. rewrite unmonitor_and_terminate_run.
  destruct (unmonitor_run env watch) as (r & tr & Hrun & _ & Hr). rewrite Hrun.
  destruct Hr as [-> | [(m & ->) | (c & m & ->)]]; cbn; by intros [= <-].
Qed.

Lemma stop_api_server_raises (project_id : string) :
  raises_only is_http_or_value_error (stop_api_server env project_id).
Proof.
  unfold stop_api_server. apply raises_only_bind; [by intros st e [=]|].
  intros st. destruct (api_servers st !! project_id); [|by intros ? e [=]].
  apply raises_only_bind; [apply unmonitor_and_terminate_raises | by intros _ ? e [=]].
Qed.

Lemma stop_entry_raises (entry : string) :
  raises_only is_http_or_value_error
    (info <- lift (instance_info entry) ;;
     unregister_instance env (mkInstance (fst info) (snd info)) ;;
     unmonitor_and_terminate env entry)%M.
Proof.
  apply raises_only_bind.
  - intros st e. unfold lift, result, instance_info. cbn [fst].
    destruct (Py.rsplit1 "-" _) as [[rk p]|]; [|by intros [= <-]].
    destruct (Py.int p); by intros [= <-].
  - intros info. apply raises_only_bind.
    + apply raises_only_returns. intros st.
      destruct (unregister_instance_run env (mkInstance (fst info) (snd info)) st)
        as (st1 & tr & -> & _). by eexists _, _, _.
    + intros _. apply unmonitor_and_terminate_raises.
Qed.

Lemma reload_and_clean_raises :
  raises_only is_http_or_value_error (tell MonitReload ;; clean_old_sources env)%M.
Proof.
  apply raises_only_returns. intros st.
  destruct (reload_and_clean_returns env st) as (st1 & tr & ->). by eexists _, _, _.
Qed.

Lemma stop_app_instance_raises (vk : string) (port : Z) :
  is_app_name_valid env (project_of vk) = true ->
  raises_only is_http_or_value_error (stop_app_instance env vk port).
Proof.
  intros Hvalid. unfold stop_app_instance. rewrite Hvalid. cbn [negb].
  apply raises_only_bind; [by intros st e [=]|]. intros _.
  apply raises_only_bind; [by intros st e [=]|]. intros entries.
  destruct (find _ entries) as [watch|]; [|by intros st e [= <-]].
  apply raises_only_bind; [|intros info].
  { intros st e. unfold lift, result, instance_info. cbn [fst].
    destruct (Py.rsplit1 "-" _) as [[rk p]|]; [|by intros [= <-]].
    destruct (Py.int p); by intros [= <-]. }
  apply raises_only_bind.
  { apply raises_only_returns. intros st.
    destruct (unregister_instance_run env (mkInstance (fst info) (snd info)) st)
      as (st1 & tr & -> & _). by eexists _, _, _. }
  intros _. apply raises_only_bind; [apply unmonitor_and_terminate_raises|]. intros _.
  apply raises_only_bind; [|intros _; apply reload_and_clean_raises].
  destruct (List.filter _ entries); [apply stop_api_server_raises | by intros st e [=]].
Qed.

Lemma stop_app_raises (vk : string) :
  is_app_name_valid env (project_of vk) = true ->
  raises_only is_http_or_value_error (stop_app env vk).
Proof.
  intros Hvalid. unfold stop_app. rewrite Hvalid. cbn [negb].
  apply raises_only_bind; [by intros st e [=]|]. intros _.
  apply raises_only_bind; [by intros st e [=]|]. intros entries.
  apply raises_only_bind.
  { apply raises_only_for_each. intros entry. apply stop_entry_raises. }
  intros _. apply raises_only_bind.
  { destruct (List.filter _ entries); [apply stop_api_server_raises | by intros st e [=]]. }
  intros _. apply raises_only_bind; [|intros _; apply reload_and_clean_raises].
  apply raises_only_returns. intros st.
  destruct (projects_manager env !! project_of vk); [by eexists _, _, _|].
  unfold remove_logrotate, bind, tell, ret.
  destruct (logrotate_removable env (project_of vk)); by eexists _, _, _.
Qed.

Lemma handler_passes {A} (m : M A) (st : State) :
  (forall value, result (m st) <> inl (BadConfigurationException value)) ->
  try_except m
    (fun e => match e with
              | BadConfigurationException value => Some (raise (HTTPError BAD_REQUEST value))
              | _ => None
              end) st = m st.
Proof.
  intros Hno. unfold try_except, result in *.
  destruct (m st) as [[[e|a] st1] tr1]; [|done].
  destruct e; try done. by destruct (Hno value).
Qed.

End StopRaises.

(** X8.  Both stop operations raise [BadConfigurationException] exactly
    when the project id of the version key is not valid, before anything
    is done: the state is untouched, the trace is empty and the DELETE
    handlers raise [HTTPError] with the code [BAD_REQUEST].  With a valid
    project id they raise nothing but [HTTPError] (no matching watch, or a
    status of Monit) and [ValueError] (a watch name without a port), and
    the handlers add nothing to them. *)
Theorem stop_paths_bad_configuration (env : Env) (vk : string) (port : Z) (st : State) :
  (is_app_name_valid env (project_of vk) = false ->
   let refusal := "Invalid project ID: " +:+ project_of vk in
   stop_app_instance env vk port st = (inl (BadConfigurationException refusal), st, []) /\
   stop_app env vk st = (inl (BadConfigurationException refusal), st, []) /\
   InstanceHandler_delete env vk port st = (inl (HTTPError BAD_REQUEST refusal), st, []) /\
   VersionHandler_delete env vk st = (inl (HTTPError BAD_REQUEST refusal), st, [])) /\
  (is_app_name_valid env (project_of vk) = true ->
   (forall e, result (stop_app_instance env vk port st) = inl e ->
              is_http_or_value_error e) /\
   (forall e, result (stop_app env vk st) = inl e -> is_http_or_value_error e) /\
   InstanceHandler_delete env vk port st = stop_app_instance env vk port st /\
   VersionHandler_delete env vk st = stop_app env vk st).
Proof.
  split.
  - intros Hinvalid. cbv zeta.
    unfold InstanceHandler_delete, VersionHandler_delete, try_except,
      stop_app_instance, stop_app. by rewrite Hinvalid.
  - intros Hvalid.
    pose proof (stop_app_instance_raises env vk port Hvalid st) as Hone.
    pose proof (stop_app_raises env vk Hvalid st) as Hall.
    split; [exact Hone|]. split; [exact Hall|]. split.
    + apply handler_passes. intros value Hbad. by apply Hone in Hbad.
    + apply handler_passes. intros value Hbad. by apply Hall in Hbad.
Qed.

Lemma stop_paths_bad_configuration_witness :
  InstanceHandler_delete node_env "Proj_default_v1" 8080 one_instance
  = (inl (HTTPError 400 "Invalid project ID: Proj"), one_instance, []) /\
  VersionHandler_delete node_env "proj_default_v1" one_instance
  = stop_app node_env "proj_default_v1" one_instance.
Proof.
  destruct (stop_paths_bad_configuration node_env "Proj_default_v1" 8080 one_instance)
    as [Hinvalid _].
  destruct (Hinvalid eq_refl) as (_ & _ & Hone & _).
  destruct (stop_paths_bad_configuration node_env "proj_default_v1" 8080 one_instance)
    as [_ Hvalid].
  destruct (Hvalid eq_refl) as (_ & _ & _ & Hall).
  split; [exact Hone | exact Hall].
Defined.

(** ** Keys: splitting and joining on the separator *)

Section Keys.

Lemma append_nil_r (s : string) : s +:+ EmptyString = s.
Proof. induction s as [|c s IH]; [done|]. by rewrite append_cons, IH. Qed.

Lemma split_go_cons (c x : ascii) (cur s : string) :
  Py.split_go (String c EmptyString) 0 cur (String x s)
  = if Ascii.eqb c x
    then cur :: Py.split_go (String c EmptyString) 0 EmptyString s
    else Py.split_go (String c EmptyString) 0 (cur +:+ String x EmptyString) s.
Proof. simpl. by destruct (Ascii.eqb c x). Qed.

Lemma split_go_nonempty (sep : string) (skip : nat) (cur s : string) :
  Py.split_go sep skip cur s <> [].
Proof.
  revert skip cur. induction s as [|x s IH]; intros skip cur; simpl; [done|].
  destruct skip; [|apply IH]. destruct (Py.startswith sep (String x s)); [done|apply IH].
Qed.

(** Splitting a string that has the separator in it. *)
Lemma split_go_app (c : ascii) (a b : string) :
  forall cur,
  Py.split_go (String c EmptyString) 0 cur (a +:+ String c b)
  = Py.split_go (String c EmptyString) 0 cur a
    ++ Py.split_go (String c EmptyString) 0 EmptyString b.
Proof.
  induction a as [|x a IH]; intros cur.
  - rewrite append_nil, split_go_cons, Ascii.eqb_refl. done.
  - rewrite append_cons, !split_go_cons. destruct (Ascii.eqb c x).
    + by rewrite IH.
    + apply IH.
Qed.

Lemma split_go_absent (c : ascii) (s : string) :
  forall cur,
  Py.mem_char c s = false ->
  Py.split_go (String c EmptyString) 0 cur s = [cur +:+ s].
Proof.
  induction s as [|x s IH]; intros cur Hs; [by rewrite append_nil_r|].
  simpl in Hs. apply orb_false_elim in Hs as [Hx Hs].
  rewrite split_go_cons, Ascii.eqb_sym, Hx, IH by done.
  by rewrite append_assoc.
Qed.

(** [sep.join(s.split(sep))] is [s]. *)
Lemma join_split_go (c : ascii) (s : string) :
  forall cur,
  Py.join (String c EmptyString) (Py.split_go (String c EmptyString) 0 cur s)
  = cur +:+ s.
Proof.
  induction s as [|x s IH]; intros cur; [by rewrite append_nil_r|].
  rewrite split_go_cons. destruct (Ascii.eqb_spec c x) as [<-|Hne].
  - unfold Py.join in *. cbn [String.concat].
    destruct (Py.split_go (String c EmptyString) 0 EmptyString s) as [|y l] eqn:Hsplit.
    + by destruct (split_go_nonempty _ _ _ _ Hsplit).
    + rewrite <- Hsplit, IH. done.
  - rewrite IH. by rewrite append_assoc.
Qed.

Lemma digits_no_underscore (d : uint) :
  Py.mem_char "_" (NilEmpty.string_of_uint d) = false.
Proof. induction d; simpl; auto. Qed.

Lemma str_no_underscore (n : Z) : Py.mem_char "_" (Py.str n) = false.
Proof.
  unfold Py.str. destruct n as [|p|p]; [done| |]; simpl;
    destruct (Pos.to_uint p); simpl; auto using digits_no_underscore.
Qed.

(** The revision key that [start_app] builds is read back by the
    properties of [Instance]. *)
Lemma version_key_of_revision_key (vk p s v r : string) (port : Z) :
  Py.split VERSION_PATH_SEPARATOR vk = [p; s; v] ->
  version_key (mkInstance (Py.join VERSION_PATH_SEPARATOR [p; s; v; r]) port) = vk /\
  (Py.mem_char "_" r = false ->
   revision (mkInstance (Py.join VERSION_PATH_SEPARATOR [p; s; v; r]) port) = r).
Proof.
  intros Hsplit.
  assert (Hvk : vk = p +:+ "_" +:+ s +:+ "_" +:+ v).
  { pose proof (join_split_go "_" vk EmptyString) as Hjoin.
    unfold Py.split, VERSION_PATH_SEPARATOR in Hsplit. rewrite Hsplit in Hjoin.
    rewrite append_nil in Hjoin. by rewrite <- Hjoin. }
  assert (Hrk : Py.join VERSION_PATH_SEPARATOR [p; s; v; r] = vk +:+ String "_" r).
  { rewrite Hvk. unfold Py.join, VERSION_PATH_SEPARATOR. cbn [String.concat].
    rewrite !append_assoc. done. }
  assert (Hparts : Py.split VERSION_PATH_SEPARATOR (vk +:+ String "_" r)
                   = [p; s; v] ++ Py.split VERSION_PATH_SEPARATOR r).
  { unfold Py.split, VERSION_PATH_SEPARATOR in *. by rewrite split_go_app, Hsplit. }
  unfold version_key, revision. cbn [revision_key]. rewrite Hrk, Hparts. split.
  - cbn [app take]. rewrite Hvk. unfold Py.join, VERSION_PATH_SEPARATOR.
    cbn [String.concat]. done.
  - intros Hr. unfold Py.split, VERSION_PATH_SEPARATOR.
    rewrite split_go_absent by done. by rewrite append_nil.
Qed.

End Keys.

(** ** The start path: what a start leaves behind *)

(** Every branch of [start_app], with the outcome of each test kept. *)
Ltac break_start_eqn :=
  unfold start_app, ensure_api_server, create_config_file, monit_interface_start,
    ensure_version_node, setup_logrotate, bind, tell, get, ret, raise, modify, lift;
  repeat (simpl;
    match goal with
    | |- context [app_port ?c] => destruct (app_port c) eqn:?
    | |- context [login_server ?c] => destruct (login_server c) as [[|]|] eqn:?
    | |- context [Py.split ?a ?b] => destruct (Py.split a b) as [|? [|? [|? [|]]]] eqn:?
    | |- context [is_app_name_valid ?e ?p] => destruct (is_app_name_valid e p) eqn:?
    | |- context [lookup_version ?e ?a ?b ?c] => destruct (lookup_version e a b c) eqn:?
    | |- context [api_servers ?s !! ?p] => destruct (api_servers s !! p) eqn:?
    | |- context [monit_start ?e ?w] => destruct (monit_start e w) eqn:?
    | |- context [is_python_front_end ?r] => destruct (is_python_front_end r) eqn:?
    | |- context [String.eqb ?r JAVA] => destruct (String.eqb r JAVA) eqn:?
    | |- context [?x <=? 0] => destruct (x <=? 0) eqn:?
    end); simpl.

Section StartState.

Variable env : Env.

(** What a start that returns was given. *)
Lemma start_app_inputs (vk : string) (config : Config) (st : State) :
  result (start_app env vk config st) = inr tt ->
  exists p s v vd port login,
    Py.split VERSION_PATH_SEPARATOR vk = [p; s; v] /\
    app_port config = Some port /\
    login_server config = Some login /\
    is_app_name_valid env p = true /\
    lookup_version env p s v = Some vd.
Proof.
  unfold result. break_start_eqn.
  all: try (intros; discriminate).
  all: intros _; eexists _, _, _, _, _, _.
  all: split; [reflexivity|]; split; [reflexivity|]; split; [reflexivity|].
  all: split; [reflexivity || eassumption | eassumption].
Qed.

(** What a start that returns leaves behind. *)
Lemma start_app_state (vk : string) (config : Config) (st : State)
    (p s v login : string) (vd : VersionDetails) (port : Z) :
  Py.split VERSION_PATH_SEPARATOR vk = [p; s; v] ->
  app_port config = Some port ->
  login_server config = Some login ->
  lookup_version env p s v = Some vd ->
  result (start_app env vk config st) = inr tt ->
  let rk := Py.join VERSION_PATH_SEPARATOR [p; s; v; Py.str (vd_revision vd)] in
  let q := match api_servers st !! p with
           | Some cached => cached
           | None => next_api_server_port (values (api_servers st))
           end in
  let fin := final (start_app env vk config st) in
  spawned (trace (start_app env vk config st)) = [AddRouting (mkInstance rk port)] /\
  running_instances fin = running_instances st /\
  zk_nodes fin = match zk_nodes st !! vk with
                 | Some _ => zk_nodes st
                 | None => <[vk := ∅]> (zk_nodes st)
                 end /\
  api_servers fin = match api_servers st !! p with
                    | Some _ => api_servers st
                    | None => <[p := q]> (api_servers st)
                    end /\
  monit_entries fin
  = with_watch (instance_watch rk port)
      (match api_servers st !! p with
       | Some _ => monit_entries st
       | None => with_watch (api_server_watch p q) (monit_entries st)
       end) /\
  List.filter is_instance_config (trace (start_app env vk config st))
  = [CreateConfigFile (MONIT_INSTANCE_PREFIX +:+ rk)
       (instance_cmd env vd p login port rk q) (pidfile_of rk port) port
       (max_memory_of env vd)].
Proof.
  intros Hsplit Hport Hlogin Hlookup.
  unfold result, trace, final, instance_cmd, with_watch.
  unfold start_app. rewrite Hport, Hlogin, Hsplit, Hlookup.
  destruct login as [|c login]; [intros; discriminate|].
  unfold ensure_api_server, create_config_file, monit_interface_start,
    ensure_version_node, setup_logrotate, bind, tell, get, ret, raise, modify, lift.
  repeat (simpl;
    match goal with
    | |- context [is_app_name_valid ?e ?p] => destruct (is_app_name_valid e p)
    | |- context [api_servers ?s !! ?p] => destruct (api_servers s !! p)
    | |- context [monit_start ?e ?w] => destruct (monit_start e w)
    | |- context [is_python_front_end ?r] => destruct (is_python_front_end r)
    | |- context [String.eqb ?r JAVA] => destruct (String.eqb r JAVA)
    | |- context [?x <=? 0] => destruct (x <=? 0)
    end); simpl.
  all: try (intros; discriminate).
  all: intros _; repeat split; reflexivity.
Qed.

End StartState.

Section StartThenRoute.

Variable env : Env.

(** The callback [add_routing] on the loop, when the probe is answered and
    the version node is there. *)
Lemma routing_callback_registers (instance : Instance) (st : State)
    (children : gmap string string) :
  result (wait_on_app env (port instance) st) = inr true ->
  zk_nodes st !! version_key instance = Some children ->
  result (add_routing env instance st) = inr tt /\
  final (for_each [AddRouting instance] (run_callback env) st)
  = mkState (api_servers st) ({[instance]} ∪ running_instances st)
            (<[version_key instance :=
                 <[instance_entry env instance := revision instance]> children]>
               (zk_nodes st))
            (monit_entries st).
Proof.
  intros Hready Hnode.
  destruct (add_routing_run env instance st) as (b & tr & Hw & _ & Hrun).
  rewrite Hw in Hready. unfold result in Hready. cbn [fst] in Hready.
  injection Hready as ->.
  rewrite register_instance_run, Hnode in Hrun.
  unfold for_each, run_callback, try_except, bind, ret, result, final.
  rewrite Hrun. done.
Qed.

End StartThenRoute.

(** X9.  A start that returns hands to [add_routing] an instance whose
    version key is the version key of the request, whose revision is the
    printed revision of the version record and whose port is the
    [app_port] of the request; Monit lists its watch and
    [running_instances] is not touched yet.  When the probe of that port
    is answered, [add_routing] returns: the instance joins
    [running_instances], the node of the version holds the child
    [{private_ip}:{port}] with the revision as payload, and the other
    version nodes are as they were before the start. *)
Theorem start_app_registers (env : Env) (vk : string) (config : Config) (st : State) :
  result (start_app env vk config st) = inr tt ->
  exists instance p s v vd,
    let started := final (start_app env vk config st) in
    let run := on_ioloop env (start_app env vk config) st in
    Py.split VERSION_PATH_SEPARATOR vk = [p; s; v] /\
    lookup_version env p s v = Some vd /\
    spawned (trace (start_app env vk config st)) = [AddRouting instance] /\
    version_key instance = vk /\
    revision instance = Py.str (vd_revision vd) /\
    app_port config = Some (port instance) /\
    instance_watch (revision_key instance) (port instance) ∈ monit_entries started /\
    running_instances started = running_instances st /\
    (result (wait_on_app env (port instance) started) = inr true ->
     result (add_routing env instance started) = inr tt /\
     running_instances (final run) = {[instance]} ∪ running_instances st /\
     (exists children,
        zk_nodes (final run) !! vk = Some children /\
        children !! instance_entry env instance = Some (revision instance)) /\
     (forall other, other <> vk ->
        zk_nodes (final run) !! other = zk_nodes st !! other)).
Proof.
  intros Hok.
  destruct (start_app_inputs env vk config st Hok)
    as (p & s & v & vd & port & login & Hsplit & Hport & Hlogin & _ & Hlookup).
  destruct (start_app_state env vk config st p s v login vd port
              Hsplit Hport Hlogin Hlookup Hok)
    as (Hsp & Hrun & Hzk & _ & Hentries & _).
  destruct (version_key_of_revision_key vk p s v (Py.str (vd_revision vd)) port Hsplit)
    as [Hvk Hrev].
  specialize (Hrev (str_no_underscore _)).
  set (instance := mkInstance
         (Py.join VERSION_PATH_SEPARATOR [p; s; v; Py.str (vd_revision vd)]) port) in *.
  exists instance, p, s, v, vd. cbv zeta.
  split; [exact Hsplit|]. split; [exact Hlookup|]. split; [exact Hsp|].
  split; [exact Hvk|]. split; [exact Hrev|]. split; [exact Hport|].
  split.
  { rewrite Hentries. unfold with_watch. case_bool_decide as Hin; [exact Hin|].
    apply elem_of_app. right. by apply list_elem_of_singleton. }
  split; [exact Hrun|].
  intros Hready.
  assert (Hnode : exists children,
            zk_nodes (final (start_app env vk config st)) !! version_key instance
            = Some children).
  { rewrite Hvk, Hzk. destruct (zk_nodes st !! vk) as [children|] eqn:Hnode.
    - by exists children.
    - exists ∅. by rewrite lookup_insert_eq. }
  destruct Hnode as [children Hnode].
  destruct (routing_callback_registers env instance _ children Hready Hnode)
    as [Hret Hfin].
  split; [exact Hret|].
  rewrite on_ioloop_final, Hsp, Hfin.
  cbn [running_instances zk_nodes]. rewrite Hvk, Hrun.
  split; [done|]. split.
  - eexists. split; [by rewrite lookup_insert_eq|]. by rewrite lookup_insert_eq.
  - intros other Hother. rewrite lookup_insert_ne by done. rewrite Hzk.
    destruct (zk_nodes st !! vk); [done|]. by rewrite lookup_insert_ne.
Qed.

Lemma start_app_registers_witness :
  running_instances
    (final (on_ioloop node_env
              (start_app node_env "proj_default_v1" (mkConfig (Some 8080) (Some "10.0.0.1")))
              empty_state))
  = {[ mkInstance "proj_default_v1_3" 8080 ]} ∪ running_instances empty_state.
Proof.
  destruct (start_app_registers node_env "proj_default_v1"
              (mkConfig (Some 8080) (Some "10.0.0.1")) empty_state eq_refl)
    as (instance & p & s & v & vd & _ & _ & Hsp & _ & _ & _ & _ & _ & Hafter).
  vm_compute in Hsp. injection Hsp as <-.
  destruct (Hafter eq_refl) as (_ & Hrun & _). exact Hrun.
Defined.

(** ** The start path: a refusal that comes late *)

Section StartRefused.

Variable env : Env.

Lemma start_app_refused_run (vk : string) (config : Config) (st : State)
    (p s v login : string) (vd : VersionDetails) (port : Z) :
  Py.split VERSION_PATH_SEPARATOR vk = [p; s; v] ->
  app_port config = Some port ->
  login_server config = Some login ->
  login <> EmptyString ->
  is_app_name_valid env p = true ->
  lookup_version env p s v = Some vd ->
  runtime_refused env vd = true ->
  api_server_ensured env st p = true ->
  let q := next_api_server_port (values (api_servers st)) in
  let run := start_app env vk config st in
  (exists message, result run = inl (BadConfigurationException message)) /\
  final run
  = match api_servers st !! p with
    | Some _ => st
    | None => mkState (<[p := q]> (api_servers st)) (running_instances st) (zk_nodes st)
                      (with_watch (api_server_watch p q) (monit_entries st))
    end /\
  List.filter (fun ev => is_instance_config ev || is_instance_start ev) (trace run) = [] /\
  spawned (trace run) = [] /\
  match api_servers st !! p with
  | Some _ => True
  | None => MonitStart (api_server_watch p q) ∈ trace run
  end.
Proof.
  intros Hsplit Hport Hlogin Hne Hvalid Hlookup Hrefused Hensured.
  unfold result, trace, final, with_watch, runtime_refused, api_server_ensured in *.
  unfold start_app. rewrite Hport, Hlogin, Hsplit, Hlookup, Hvalid.
  destruct login as [|c login]; [done|].
  revert Hrefused Hensured.
  unfold ensure_api_server, create_config_file, monit_interface_start,
    ensure_version_node, setup_logrotate, bind, tell, get, ret, raise, modify, lift.
  repeat (simpl;
    match goal with
    | |- context [api_servers ?s !! ?p] => destruct (api_servers s !! p)
    | |- context [monit_start ?e ?w] => destruct (monit_start e w)
    | |- context [is_python_front_end ?r] => destruct (is_python_front_end r)
    | |- context [String.eqb ?r JAVA] => destruct (String.eqb r JAVA)
    | |- context [?x <=? 0] => destruct (x <=? 0)
    end); simpl.
  all: try (intros; discriminate).
  all: intros _ _; destruct st; repeat split; try reflexivity; try (by eexists).
  all: repeat first [apply list_elem_of_here | apply list_elem_of_further].
Qed.

End StartRefused.

(** X10.  The runtime of a version is looked at after the API server of
    its project was ensured.  A start request that is complete and names a
    known version of a runtime that is not served (neither a Python
    front-end runtime nor [java] with more than 250MB) is refused with
    [BadConfigurationException], as [HTTPError(400)] by the handler, with
    no instance configured, started or routed; but a project that had no
    API server has one now: its watch is started and its port is recorded
    in [api_servers].  With a cached port the refusal leaves the state as
    it was. *)
Theorem start_app_refuses_after_api_server (env : Env) (vk : string) (config : Config)
    (st : State) (p s v login : string) (vd : VersionDetails) (port : Z) :
  Py.split VERSION_PATH_SEPARATOR vk = [p; s; v] ->
  app_port config = Some port ->
  login_server config = Some login ->
  login <> EmptyString ->
  is_app_name_valid env p = true ->
  lookup_version env p s v = Some vd ->
  runtime_refused env vd = true ->
  api_server_ensured env st p = true ->
  let q := next_api_server_port (values (api_servers st)) in
  let run := start_app env vk config st in
  let served := VersionHandler_post env vk config st in
  (exists message,
     result run = inl (BadConfigurationException message) /\
     result served = inl (HTTPError BAD_REQUEST message)) /\
  final served = final run /\
  List.filter (fun ev => is_instance_config ev || is_instance_start ev) (trace run) = [] /\
  spawned (trace run) = [] /\
  (forall cached, api_servers st !! p = Some cached -> final run = st) /\
  (api_servers st !! p = None ->
   api_servers (final run) !! p = Some q /\
   api_server_watch p q ∈ monit_entries (final run) /\
   MonitStart (api_server_watch p q) ∈ trace run /\
   running_instances (final run) = running_instances st /\
   zk_nodes (final run) = zk_nodes st).
Proof.
  intros Hsplit Hport Hlogin Hne Hvalid Hlookup Hrefused Hensured.
  destruct (start_app_refused_run env vk config st p s v login vd port
              Hsplit Hport Hlogin Hne Hvalid Hlookup Hrefused Hensured)
    as ([message Hraise] & Hfinal & Hquiet & Hspawned & Hstarted).
  cbv zeta.
  assert (Hserved : VersionHandler_post env vk config st
                    = (inl (HTTPError BAD_REQUEST message),
                       final (start_app env vk config st),
                       trace (start_app env vk config st))).
  { unfold VersionHandler_post, try_except, raise.
    unfold result in Hraise. unfold final, trace.
    destruct (start_app env vk config st) as [[r st1] tr1]. simpl in Hraise.
    subst r. by rewrite app_nil_r. }
  split; [exists message; split; [exact Hraise | by rewrite Hserved]|].
  split; [by rewrite Hserved|].
  split; [exact Hquiet|]. split; [exact Hspawned|]. split.
  - intros cached Hcached. by rewrite Hfinal, Hcached.
  - intros Hnone. rewrite Hfinal, Hnone.
    cbn [api_servers monit_entries running_instances zk_nodes].
    split; [by rewrite lookup_insert_eq|]. split.
    { unfold with_watch. case_bool_decide as Hin; [exact Hin|].
      apply elem_of_app. right. by apply list_elem_of_singleton. }
    split; [|done]. by rewrite Hnone in Hstarted.
Qed.

Lemma start_app_refuses_after_api_server_witness :
  api_servers (final (start_app legacy_env "legacy_default_v1"
                        (mkConfig (Some 8080) (Some "10.0.0.1")) empty_state))
    !! "legacy" = Some 19999.
Proof.
  refine (proj1 ((proj2 (proj2 (proj2 (proj2 (proj2
            (start_app_refuses_after_api_server legacy_env "legacy_default_v1"
               (mkConfig (Some 8080) (Some "10.0.0.1")) empty_state
               "legacy" "default" "v1" "10.0.0.1" ruby_v1 8080
               eq_refl eq_refl eq_refl _ eq_refl eq_refl eq_refl eq_refl)))))) eq_refl)).
  discriminate.
Defined.

(** ** The start path: what Monit is told to run *)

Section StartConfigures.

Variable env : Env.

Lemma start_app_served (vk : string) (config : Config) (st : State)
    (p s v login : string) (vd : VersionDetails) (port : Z) :
  Py.split VERSION_PATH_SEPARATOR vk = [p; s; v] ->
  app_port config = Some port ->
  login_server config = Some login ->
  lookup_version env p s v = Some vd ->
  result (start_app env vk config st) = inr tt ->
  runtime_refused env vd = false.
Proof.
  intros Hsplit Hport Hlogin Hlookup.
  unfold result, runtime_refused.
  unfold start_app. rewrite Hport, Hlogin, Hsplit, Hlookup.
  destruct login as [|c login]; [intros; discriminate|].
  unfold ensure_api_server, create_config_file, monit_interface_start,
    ensure_version_node, setup_logrotate, bind, tell, get, ret, raise, modify, lift.
  repeat (simpl;
    match goal with
    | |- context [is_app_name_valid ?e ?p] => destruct (is_app_name_valid e p)
    | |- context [api_servers ?s !! ?p] => destruct (api_servers s !! p)
    | |- context [monit_start ?e ?w] => destruct (monit_start e w)
    | |- context [is_python_front_end ?r] => destruct (is_python_front_end r)
    | |- context [String.eqb ?r JAVA] => destruct (String.eqb r JAVA)
    | |- context [?x <=? 0] => destruct (x <=? 0)
    end); simpl.
  all: try (intros; discriminate).
  all: reflexivity.
Qed.

End StartConfigures.

(** X11.  A start that returns has written one instance configuration and
    no more.  Its watch is [instance_{revision_key}], its port the
    [app_port] of the request, its memory limit the one of the instance
    class of the version, and its command names the revision key, the
    login server of the request and, as the port of the external API
    server, the port that [api_servers] now holds for the project: the
    cached one if there was one.  Ports of other projects are as they
    were, and the runtime is one the module serves. *)
Theorem start_app_configures (env : Env) (vk : string) (config : Config) (st : State) :
  result (start_app env vk config st) = inr tt ->
  exists p s v vd port login q,
    let rk := Py.join VERSION_PATH_SEPARATOR [p; s; v; Py.str (vd_revision vd)] in
    let cmd := instance_cmd env vd p login port rk q in
    let started := final (start_app env vk config st) in
    Py.split VERSION_PATH_SEPARATOR vk = [p; s; v] /\
    lookup_version env p s v = Some vd /\
    app_port config = Some port /\
    login_server config = Some login /\
    List.filter is_instance_config (trace (start_app env vk config st))
    = [CreateConfigFile (MONIT_INSTANCE_PREFIX +:+ rk) cmd (pidfile_of rk port) port
         (max_memory_of env vd)] /\
    cmd_api_server_port cmd = Some q /\
    api_servers started !! p = Some q /\
    (forall cached, api_servers st !! p = Some cached -> q = cached) /\
    (forall other, other <> p -> api_servers started !! other = api_servers st !! other) /\
    runtime_refused env vd = false.
Proof.
  intros Hok.
  destruct (start_app_inputs env vk config st Hok)
    as (p & s & v & vd & port & login & Hsplit & Hport & Hlogin & _ & Hlookup).
  destruct (start_app_state env vk config st p s v login vd port
              Hsplit Hport Hlogin Hlookup Hok)
    as (_ & _ & _ & Hservers & _ & Hconfig).
  pose proof (start_app_served env vk config st p s v login vd port
                Hsplit Hport Hlogin Hlookup Hok) as Hserved.
  eexists p, s, v, vd, port, login, _. cbv zeta.
  split; [exact Hsplit|]. split; [exact Hlookup|]. split; [exact Hport|].
  split; [exact Hlogin|]. split; [exact Hconfig|].
  split; [unfold instance_cmd; by destruct (is_python_front_end (runtime vd))|].
  rewrite Hservers.
  split; [|split; [|split; [|exact Hserved]]].
  - destruct (api_servers st !! p) eqn:Hp; [exact Hp | by rewrite lookup_insert_eq].
  - by intros cached ->.
  - intros other Hother. destruct (api_servers st !! p); [done|].
    by rewrite lookup_insert_ne.
Qed.

Lemma start_app_configures_witness :
  List.filter is_instance_config
    (trace (start_app node_env "proj_default_v1" (mkConfig (Some 8081) (Some "10.0.0.1"))
              one_instance))
  = [CreateConfigFile "instance_proj_default_v1_3"
       (Python27Cmd "proj" "10.0.0.1" 8081
          "/var/run/appscale/app___proj_default_v1_3-8081.pid" "proj_default_v1_3" 19999)
       "/var/run/appscale/app___proj_default_v1_3-8081.pid" 8081 400].
Proof.
  destruct (start_app_configures node_env "proj_default_v1"
              (mkConfig (Some 8081) (Some "10.0.0.1")) one_instance eq_refl)
    as (p & s & v & vd & port & login & q
        & Hsplit & Hlookup & Hport & Hlogin & Hconfig & _ & _ & Hcached & _).
  injection Hsplit as <- <- <-. injection Hlookup as <-.
  injection Hport as <-. injection Hlogin as <-.
  rewrite (Hcached 19999 eq_refl) in Hconfig. exact Hconfig.
Defined.

(** ** Frames: what an operation leaves alone *)

Section Frames.

Variable R : State -> State -> Prop.
Hypothesis R_refl : forall st, R st st.
Hypothesis R_trans : forall st1 st2 st3, R st1 st2 -> R st2 st3 -> R st1 st3.

Lemma final_bind {A B} (m : M A) (k : A -> M B) (st : State) :
  final (bind m k st)
  = match result (m st) with
    | inl _ => final (m st)
    | inr a => final (k a (final (m st)))
    end.
Proof.
  unfold bind, final, result. destruct (m st) as [[[e|a] st1] tr1]; [done|].
  simpl. by destruct (k a st1) as [[r st2] tr2].
Qed.

Lemma preserves_ret {A} (a : A) : preserves R (ret a).
Proof. intros st. apply R_refl. Qed.

Lemma preserves_tell (ev : event) : preserves R (tell ev).
Proof. intros st. apply R_refl. Qed.

Lemma preserves_raise {A} (e : exn) : preserves R (raise e : M A).
Proof. intros st. apply R_refl. Qed.

Lemma preserves_get : preserves R get.
Proof. intros st. apply R_refl. Qed.

Lemma preserves_lift {A} (r : exn + A) : preserves R (lift r).
Proof. intros st. apply R_refl. Qed.

Lemma preserves_bind {A B} (m : M A) (k : A -> M B) :
  preserves R m -> (forall a, preserves R (k a)) -> preserves R (bind m k).
Proof.
  intros Hm Hk st. rewrite final_bind. destruct (result (m st)) as [e|a]; [apply Hm|].
  eapply R_trans; [apply Hm | apply Hk].
Qed.

Lemma preserves_for_each {A} (xs : list A) (body : A -> M unit) :
  (forall x, preserves R (body x)) -> preserves R (for_each xs body).
Proof.
  intros Hbody. induction xs as [|x xs IH]; simpl.
  - apply preserves_ret.
  - apply preserves_bind; [apply Hbody | intros _; exact IH].
Qed.

Lemma preserves_try_except {A} (m : M A) (h : exn -> option (M A)) :
  preserves R m -> (forall e k, h e = Some k -> preserves R k) ->
  preserves R (try_except m h).
Proof.
  intros Hm Hh st. specialize (Hm st). unfold try_except, final in *.
  destruct (m st) as [[[e|a] st1] tr1]; [|exact Hm]. simpl in Hm.
  destruct (h e) as [k|] eqn:Hk; [|exact Hm].
  specialize (Hh e k Hk st1). unfold final in Hh.
  destruct (k st1) as [[r st2] tr2]. simpl in *. eapply R_trans; eassumption.
Qed.

(** The state after a first step that returned, for what the rest leaves
    alone. *)
Lemma preserves_after {A B} (m : M A) (k : A -> M B) (st st1 : State) (a : A)
    (tr1 : list event) :
  m st = (inr a, st1, tr1) -> preserves R (k a) -> R st1 (final (bind m k st)).
Proof.
  intros Hm Hk. rewrite final_bind. unfold result, final at 1. rewrite Hm. simpl.
  apply Hk.
Qed.

End Frames.

Section FrameInstances.

Variable env : Env.

Lemma same_registry_refl (st : State) : same_registry st st.
Proof. by split. Qed.

Lemma same_registry_trans (st1 st2 st3 : State) :
  same_registry st1 st2 -> same_registry st2 st3 -> same_registry st1 st3.
Proof. intros [H1 H2] [H3 H4]. split; congruence. Qed.

Lemma fewer_watches_refl (st : State) : fewer_watches st st.
Proof. by intros w. Qed.

Lemma fewer_watches_trans (st1 st2 st3 : State) :
  fewer_watches st1 st2 -> fewer_watches st2 st3 -> fewer_watches st1 st3.
Proof. intros H1 H2 w Hw. by apply H1, H2. Qed.

Lemma same_watches_refl (st : State) : same_watches st st.
Proof. done. Qed.

Lemma same_watches_trans (st1 st2 st3 : State) :
  same_watches st1 st2 -> same_watches st2 st3 -> same_watches st1 st3.
Proof. unfold same_watches. congruence. Qed.

Lemma unmonitor_and_terminate_registry (watch : string) :
  preserves same_registry (unmonitor_and_terminate env watch).
Proof.
  intros st. rewrite unmonitor_and_terminate_run.
  destruct (unmonitor_run env watch) as (r & tr & Hrun & _ & _). rewrite Hrun.
  destruct r as [e|[]]; [by destruct e|done].
Qed.

Lemma unmonitor_and_terminate_watches (watch : string) :
  preserves fewer_watches (unmonitor_and_terminate env watch).
Proof.
  intros st. rewrite unmonitor_and_terminate_run.
  destruct (unmonitor_run env watch) as (r & tr & Hrun & _ & _). rewrite Hrun.
  destruct r as [e|[]]; [destruct e; apply fewer_watches_refl|].
  intros w Hw. unfold final in Hw. simpl in Hw.
  by apply list_elem_of_filter in Hw as [_ Hw].
Qed.

Lemma stop_api_server_registry (project_id : string) :
  preserves same_registry (stop_api_server env project_id).
Proof.
  unfold stop_api_server.
  apply (preserves_bind _ same_registry_trans).
  { apply preserves_get, same_registry_refl. }
  intros st. cbv beta. destruct (api_servers st !! project_id).
  - apply (preserves_bind _ same_registry_trans).
    + apply unmonitor_and_terminate_registry.
    + intros _ st'. by split.
  - apply preserves_ret, same_registry_refl.
Qed.

Lemma stop_api_server_watches (project_id : string) :
  preserves fewer_watches (stop_api_server env project_id).
Proof.
  unfold stop_api_server.
  apply (preserves_bind _ fewer_watches_trans).
  { apply preserves_get, fewer_watches_refl. }
  intros st. cbv beta. destruct (api_servers st !! project_id).
  - apply (preserves_bind _ fewer_watches_trans).
    + apply unmonitor_and_terminate_watches.
    + intros _ st'. by intros w Hw.
  - apply preserves_ret, fewer_watches_refl.
Qed.

Lemma clean_old_sources_same (R : State -> State -> Prop) :
  (forall st, R st st) -> preserves R (clean_old_sources env).
Proof.
  intros Hrefl st. destruct (clean_old_sources_run env st) as (tr & ->). apply Hrefl.
Qed.

Lemma unregister_instance_watches (instance : Instance) :
  preserves fewer_watches (unregister_instance env instance).
Proof.
  intros st. destruct (unregister_instance_state env instance st) as (tr & ->).
  by intros w Hw.
Qed.

End FrameInstances.

(** ** Stopping the instance that was started *)

Section StartedWatch.





Lemma revision_key_of_version_key (vk p s v r : string) :
  Py.split VERSION_PATH_SEPARATOR vk = [p; s; v] ->
  Py.join VERSION_PATH_SEPARATOR [p; s; v; r] = vk +:+ String "_" r.
Proof.
  intros Hsplit.
  pose proof (join_split_go "_" vk EmptyString) as Hjoin.
  unfold Py.split, VERSION_PATH_SEPARATOR in Hsplit. rewrite Hsplit in Hjoin.
  rewrite append_nil in Hjoin. rewrite <- Hjoin.
  unfold Py.join, VERSION_PATH_SEPARATOR. cbn [String.concat].
  by rewrite !append_assoc.
Qed.





End StartedWatch.

Section StopFinal.

Variable env : Env.

Lemma final_bind_tell {B} (ev : event) (k : unit -> M B) (st : State) :
  final (bind (tell ev) k st) = final (k tt st).
Proof. rewrite bind_tell. by destruct (k tt st) as [[r st'] tr]. Qed.

Lemma final_bind_returns {A B} (m : M A) (k : A -> M B) (st st1 : State) (a : A)
    (tr1 : list event) :
  m st = (inr a, st1, tr1) -> final (bind m k st) = final (k a st1).
Proof.
  intros Hm. rewrite (bind_returns _ _ _ _ _ _ Hm).
  by destruct (k a st1) as [[r st2] tr2].
Qed.

(** The end of [stop_app_instance], after the watch was unmonitored. *)
Lemma stop_tail_registry (project_id : string) (remaining : list string) :
  preserves same_registry
    ((match remaining with
      | [] => stop_api_server env project_id
      | _ :: _ => ret tt
      end) ;; tell MonitReload ;; clean_old_sources env)%M.
Proof.
  apply (preserves_bind _ same_registry_trans).
  - destruct remaining; [apply stop_api_server_registry|].
    apply preserves_ret, same_registry_refl.
  - intros _. apply (preserves_bind _ same_registry_trans).
    + apply preserves_tell, same_registry_refl.
    + intros _. apply clean_old_sources_same, same_registry_refl.
Qed.

Lemma stop_tail_watches (project_id : string) (remaining : list string) :
  preserves fewer_watches
    ((match remaining with
      | [] => stop_api_server env project_id
      | _ :: _ => ret tt
      end) ;; tell MonitReload ;; clean_old_sources env)%M.
Proof.
  apply (preserves_bind _ fewer_watches_trans).
  - destruct remaining; [apply stop_api_server_watches|].
    apply preserves_ret, fewer_watches_refl.
  - intros _. apply (preserves_bind _ fewer_watches_trans).
    + apply preserves_tell, fewer_watches_refl.
    + intros _. apply clean_old_sources_same, fewer_watches_refl.
Qed.

(** The registrations that [stop_app_instance] leaves are those that the
    retraction of the parsed instance leaves; the watch is unlisted when
    Monit answered the request to unmonitor it. *)
Lemma stop_app_instance_final (vk : string) (port : Z) (st : State)
    (watch revision_key : string) (parsed : Z) :
  is_app_name_valid env (project_of vk) = true ->
  List.find (instance_key_re_match vk port) (monit_entries st) = Some watch ->
  instance_info watch = inr (revision_key, parsed) ->
  let instance := mkInstance revision_key parsed in
  let stop := stop_app_instance env vk port st in
  running_instances (final stop) = running_instances st ∖ {[instance]} /\
  zk_nodes (final stop)
  = alter (delete (instance_entry env instance)) (version_key instance) (zk_nodes st) /\
  (result (unmonitor env watch st) = inr tt -> watch ∉ monit_entries (final stop)).
Proof.
  intros Hvalid Hfind Hinfo. cbv zeta.
  unfold stop_app_instance. rewrite Hvalid. cbn [negb].
  rewrite final_bind_tell.
  rewrite (final_bind_returns _ _ st st (monit_entries st) [MonitGetEntries] eq_refl).
  rewrite Hfind. unfold lift. rewrite Hinfo.
  rewrite (final_bind_returns _ _ st st (revision_key, parsed) [] eq_refl).
  cbn [fst snd].
  destruct (unregister_instance_state env (mkInstance revision_key parsed) st)
    as (tr1 & Hun).
  rewrite (final_bind_returns _ _ _ _ _ _ Hun).
  match goal with
  | |- context [final (bind ?m ?k ?s)] =>
      assert (Hreg : same_registry s (final (bind m k s)));
      [ apply (preserves_bind _ same_registry_trans);
        [apply unmonitor_and_terminate_registry | intros _; apply stop_tail_registry]
      | assert (Hfew : result (unmonitor env watch st) = inr tt ->
                       watch ∉ monit_entries (final (bind m k s))) ]
  end.
  - intros Hun_ok Hin. revert Hin. rewrite final_bind.
    rewrite unmonitor_and_terminate_run.
    destruct (unmonitor_run env watch) as (r & tr & Hrun & _ & _).
    rewrite Hrun in *. unfold result in Hun_ok. cbn [fst] in Hun_ok. subst r.
    unfold result, final at 1 2. cbn [fst snd].
    intros Hin. apply stop_tail_watches in Hin. cbn in Hin.
    apply list_elem_of_filter in Hin as [Hne _]. done.
  - destruct Hreg as [Hrun Hzk]. cbn [running_instances zk_nodes] in Hrun, Hzk.
    split; [exact Hrun|]. split; [exact Hzk|exact Hfew].
Qed.


End StopFinal.

Section StoppedInstance.

Lemma instance_info_watch (revision_key : string) (port : Z) :
  0 <= port -> instance_info (instance_watch revision_key port) = inr (revision_key, port).
Proof.
  intros Hport. unfold instance_info, instance_watch.
  rewrite append_assoc, slice_from_app.
  change ("-" +:+ Py.str port) with (String "-" (Py.str port)).
  rewrite rsplit1_last by (by apply str_no_minus). by rewrite int_str.
Qed.

End StoppedInstance.





(** ** Stopping a version *)

Section StopVersion.

Variable env : Env.

Lemma trace_bind {A B} (m : M A) (k : A -> M B) (st : State) :
  trace (bind m k st)
  = trace (m st) ++ match result (m st) with
                    | inl _ => []
                    | inr a => trace (k a (final (m st)))
                    end.
Proof.
  unfold bind, trace, result, final. destruct (m st) as [[[e|a] st1] tr1]; simpl.
  - by rewrite app_nil_r.
  - by destruct (k a st1) as [[r st2] tr2].
Qed.

Lemma result_bind {A B} (m : M A) (k : A -> M B) (st : State) :
  result (bind m k st)
  = match result (m st) with
    | inl e => inl e
    | inr a => result (k a (final (m st)))
    end.
Proof.
  unfold bind, result, final. destruct (m st) as [[[e|a] st1] tr1]; simpl; [done|].
  by destruct (k a st1) as [[r st2] tr2].
Qed.

Lemma calls_unmonitor_posts (tr : list event) :
  forallb is_unmonitor_post tr = true -> calls tr = [].
Proof.
  induction tr as [|ev tr IH]; [done|]. simpl. intros H.
  apply andb_prop in H as [Hev Htr]. destruct ev; try done. by apply IH.
Qed.

Lemma unmonitor_and_terminate_calls (watch : string) (st : State) :
  calls (trace (unmonitor_and_terminate env watch st)) = [].
Proof.
  rewrite unmonitor_and_terminate_run.
  destruct (unmonitor_run env watch) as (r & tr & Hrun & Hposts & _). rewrite Hrun.
  pose proof (calls_unmonitor_posts tr Hposts) as Hcalls.
  destruct r as [e|[]]; [by destruct e|].
  unfold trace. cbn [snd]. unfold calls in *. by rewrite omap_app, Hcalls.
Qed.

Lemma stop_api_server_calls (project_id : string) (st : State) :
  calls (trace (stop_api_server env project_id st)) = [].
Proof.
  unfold stop_api_server. rewrite trace_bind. cbn.
  destruct (api_servers st !! project_id); [|done].
  rewrite trace_bind, calls_app, unmonitor_and_terminate_calls.
  by destruct (result (unmonitor_and_terminate env _ st)).
Qed.

Lemma clean_old_sources_calls (st : State) :
  calls (trace (clean_old_sources env st)) = [].
Proof. done. Qed.

(** The end of [stop_app], after the loop over the watches of the
    version. *)
Lemma stop_app_tail_calls (project_id : string) (remaining : list string) (st : State) :
  calls (trace
    (((match remaining with
       | [] => stop_api_server env project_id
       | _ :: _ => ret tt
       end) ;;
      (match projects_manager env !! project_id with
       | Some _ => ret tt
       | None =>
           removed <- remove_logrotate env project_id ;;
           if removed : bool then ret tt
           else tell (Log ERROR "Error while removing log rotation")
       end) ;; tell MonitReload ;; clean_old_sources env)%M st)) = [].
Proof.
  rewrite trace_bind, calls_app.
  assert (calls (trace ((match remaining with
                         | [] => stop_api_server env project_id
                         | _ :: _ => ret tt
                         end) st)) = []) as ->.
  { destruct remaining; [apply stop_api_server_calls | done]. }
  destruct (result _) as [e|[]]; [done|]. cbn [app].
  generalize (final ((match remaining with
                      | [] => stop_api_server env project_id
                      | _ :: _ => ret tt
                      end) st)). intros st1.
  unfold remove_logrotate, bind, tell, ret, trace.
  destruct (projects_manager env !! project_id); [done|].
  by destruct (logrotate_removable env project_id).
Qed.

Lemma stop_app_tail_registry (project_id : string) (remaining : list string) :
  preserves same_registry
    ((match remaining with
      | [] => stop_api_server env project_id
      | _ :: _ => ret tt
      end) ;;
     (match projects_manager env !! project_id with
      | Some _ => ret tt
      | None =>
          removed <- remove_logrotate env project_id ;;
          if removed : bool then ret tt
          else tell (Log ERROR "Error while removing log rotation")
      end) ;; tell MonitReload ;; clean_old_sources env)%M.
Proof.
  apply (preserves_bind _ same_registry_trans).
  - destruct remaining; [apply stop_api_server_registry|].
    apply preserves_ret, same_registry_refl.
  - intros _. apply (preserves_bind _ same_registry_trans).
    + intros st. unfold remove_logrotate, bind, tell, ret.
      destruct (projects_manager env !! project_id); [by split|].
      by destruct (logrotate_removable env project_id).
    + intros _. apply (preserves_bind _ same_registry_trans).
      * apply preserves_tell, same_registry_refl.
      * intros _. apply clean_old_sources_same, same_registry_refl.
Qed.

Lemma stop_app_tail_watches (project_id : string) (remaining : list string) :
  preserves fewer_watches
    ((match remaining with
      | [] => stop_api_server env project_id
      | _ :: _ => ret tt
      end) ;;
     (match projects_manager env !! project_id with
      | Some _ => ret tt
      | None =>
          removed <- remove_logrotate env project_id ;;
          if removed : bool then ret tt
          else tell (Log ERROR "Error while removing log rotation")
      end) ;; tell MonitReload ;; clean_old_sources env)%M.
Proof.
  apply (preserves_bind _ fewer_watches_trans).
  - destruct remaining; [apply stop_api_server_watches|].
    apply preserves_ret, fewer_watches_refl.
  - intros _. apply (preserves_bind _ fewer_watches_trans).
    + intros st. unfold remove_logrotate, bind, tell, ret.
      destruct (projects_manager env !! project_id); [by intros w|].
      by destruct (logrotate_removable env project_id); intros w.
    + intros _. apply (preserves_bind _ fewer_watches_trans).
      * apply preserves_tell, fewer_watches_refl.
      * intros _. apply clean_old_sources_same, fewer_watches_refl.
Qed.

Lemma unregister_instance_calls (instance : Instance) (st : State) :
  calls (trace (unregister_instance env instance st)) = [UnregisterInstance instance].
Proof.
  unfold unregister_instance, bind, tell, get, ret, modify. simpl.
  by case_bool_decide.
Qed.

(** One turn of the loop of [stop_app]. *)
Lemma stop_entry_run (entry : string) (st : State) :
  exists tr1,
    calls tr1 = [] /\
    (info <- lift (instance_info entry) ;;
     unregister_instance env (mkInstance (fst info) (snd info)) ;;
     unmonitor_and_terminate env entry)%M st
    = match instance_info entry with
      | inl e => (inl e, st, [])
      | inr info =>
          let instance := mkInstance (fst info) (snd info) in
          match unmonitor_and_terminate env entry
                  (mkState (api_servers st) (running_instances st ∖ {[instance]})
                           (retracted env (zk_nodes st) instance) (monit_entries st)) with
          | (r, st2, tr2) => (r, st2, Call (UnregisterInstance instance) :: tr1 ++ tr2)
          end
      end.
Proof.
  destruct (instance_info entry) as [e|info] eqn:Hinfo.
  - exists []. split; [done|]. reflexivity.
  - destruct (unregister_instance_state env (mkInstance (fst info) (snd info)) st)
      as (tr1 & Hun).
    exists (ZkDelete (instance_node env (mkInstance (fst info) (snd info))) :: tr1).
    split.
    + pose proof (unregister_instance_calls (mkInstance (fst info) (snd info)) st) as Hcalls.
      rewrite Hun in Hcalls. by injection Hcalls.
    + unfold lift.
      rewrite (bind_returns _ _ st st info [] eq_refl).
      rewrite (bind_returns _ _ _ _ _ _ Hun). cbv zeta. unfold retracted.
      by destruct (unmonitor_and_terminate env entry _) as [[r st2] tr2].
Qed.

Lemma bind_run {A B} (m : M A) (k : A -> M B) (st : State) :
  bind m k st
  = match m st with
    | (inl e, st1, tr1) => (inl e, st1, tr1)
    | (inr a, st1, tr1) =>
        match k a st1 with
        | (r, st2, tr2) => (r, st2, tr1 ++ tr2)
        end
    end.
Proof. reflexivity. Qed.

(** The loop of [stop_app] over the watches of the version, when it runs
    to its end. *)
Lemma stop_entries_run (entries : list string) :
  forall st,
  let loop := for_each entries
                (fun entry =>
                   info <- lift (instance_info entry) ;;
                   unregister_instance env (mkInstance (fst info) (snd info)) ;;
                   unmonitor_and_terminate env entry)%M st in
  result loop = inr tt ->
  exists infos,
    map_raising instance_info entries = inr infos /\
    calls (trace loop) = map UnregisterInstance (parsed_instances infos) /\
    running_instances (final loop)
    = running_instances st ∖ list_to_set (parsed_instances infos) /\
    zk_nodes (final loop) = foldl (retracted env) (zk_nodes st) (parsed_instances infos) /\
    fewer_watches st (final loop) /\
    (forall entry, entry ∈ entries -> result (unmonitor env entry st) = inr tt ->
                   entry ∉ monit_entries (final loop)).
Proof.
  induction entries as [|entry entries IH]; intros st; cbv zeta.
  - intros _. exists []. cbn. split; [done|]. split; [done|].
    split.
    { apply set_eq. intros x. rewrite elem_of_difference. split; [|by intros [? _]].
      intros Hx. split; [done|]. apply not_elem_of_empty. }
    split; [done|]. split; [by intros w|]. intros e He. by apply elem_of_nil in He.
  - cbn [for_each]. rewrite bind_run.
    destruct (stop_entry_run entry st) as (tr1 & Hquiet & ->).
    destruct (instance_info entry) as [e|info] eqn:Hinfo; [intros; discriminate|].
    cbv zeta.
    set (instance := mkInstance (fst info) (snd info)).
    set (st1 := mkState (api_servers st) (running_instances st ∖ {[instance]})
                        (retracted env (zk_nodes st) instance) (monit_entries st)).
    pose proof (unmonitor_and_terminate_registry env entry st1) as Hreg.
    pose proof (unmonitor_and_terminate_watches env entry st1) as Hfew.
    pose proof (unmonitor_and_terminate_calls entry st1) as Hcalls.
    pose proof (unmonitor_and_terminate_run env entry st1) as Hterm.
    destruct (unmonitor_and_terminate env entry st1) as [[r st2] tr2].
    unfold final in Hreg, Hfew. unfold trace in Hcalls. cbn [fst snd] in Hreg, Hfew, Hcalls.
    destruct r as [e|[]]; [intros; discriminate|].
    pose proof (IH st2) as IH2. cbv zeta in IH2.
    destruct (for_each entries _ st2) as [[r3 st3] tr3].
    unfold result, final, trace in *. cbn [fst snd] in *.
    intros Hrest. destruct (IH2 Hrest) as (infos & Hinfos & Hc & Hr & Hz & Hf & Hgone).
    exists (info :: infos). cbn [map_raising]. rewrite Hinfo, Hinfos.
    split; [done|]. split.
    { rewrite calls_app.
      change (calls (Call (UnregisterInstance instance) :: tr1 ++ tr2))
        with (UnregisterInstance instance :: calls (tr1 ++ tr2)).
      by rewrite calls_app, Hquiet, Hcalls, Hc. }
    destruct Hreg as [Hreg_run Hreg_zk]. cbn [running_instances zk_nodes] in Hreg_run, Hreg_zk.
    split.
    { rewrite Hr, Hreg_run. unfold st1. cbn [running_instances parsed_instances map].
      fold instance.
      apply set_eq. intros x.
      rewrite !elem_of_difference, !elem_of_list_to_set, elem_of_cons,
        elem_of_singleton. tauto. }
    split; [rewrite Hz, Hreg_zk; reflexivity|].
    split; [intros w Hw; by apply (Hfew w), Hf|].
    intros e' He' Hok. apply elem_of_cons in He' as [->|He'].
    + intros Hin. apply Hf in Hin. revert Hterm.
      destruct (unmonitor_run env entry) as (r & tr & Hrun & _ & _).
      rewrite Hrun in *. cbn [fst] in Hok. subst r.
      intros [= -> _]. cbn in Hin. by apply list_elem_of_filter in Hin as [Hne _].
    + apply Hgone; [exact He'|].
      destruct (unmonitor_run env e') as (r & tr & Hrun & _ & _).
      rewrite Hrun in *. exact Hok.
Qed.

Lemma retracted_gone (instance other : Instance) (zk : gmap string (gmap string string))
    (children : gmap string string) :
  (forall ch, zk !! version_key instance = Some ch ->
              ch !! instance_entry env instance = None) ->
  retracted env zk other !! version_key instance = Some children ->
  children !! instance_entry env instance = None.
Proof.
  intros Hgone. unfold retracted.
  destruct (decide (version_key other = version_key instance)) as [Heq|Hne].
  - rewrite Heq, lookup_alter_eq.
    destruct (zk !! version_key instance) as [ch|] eqn:Hch; [|done].
    intros [= <-]. rewrite lookup_delete. case_decide; [done|]. by apply Hgone.
  - rewrite lookup_alter_ne by done. apply Hgone.
Qed.

Lemma foldl_retracted_gone (instances : list Instance) (instance : Instance) :
  forall zk,
  instance ∈ instances \/
  (forall ch, zk !! version_key instance = Some ch ->
              ch !! instance_entry env instance = None) ->
  forall children,
  foldl (retracted env) zk instances !! version_key instance = Some children ->
  children !! instance_entry env instance = None.
Proof.
  induction instances as [|i instances IH]; intros zk Hin children; cbn [foldl].
  - destruct Hin as [Hin|Hgone]; [by apply elem_of_nil in Hin | apply Hgone].
  - apply IH. destruct Hin as [Hin|Hgone].
    + apply elem_of_cons in Hin as [->|Hin]; [|by left]. right.
      intros ch. unfold retracted. rewrite lookup_alter_eq.
      destruct (zk !! version_key i); [|done]. intros [= <-]. apply lookup_delete_eq.
    + right. intros ch. by apply retracted_gone.
Qed.

End StopVersion.

Section StopVersionWhole.

Variable env : Env.

Lemma map_raising_elem {A B} (f : A -> exn + B) (xs : list A) (ys : list B) (x : A) :
  map_raising f xs = inr ys -> x ∈ xs -> exists y, f x = inr y /\ y ∈ ys.
Proof.
  revert ys. induction xs as [|x' xs IH]; intros ys Hmap Hin.
  - by apply elem_of_nil in Hin.
  - simpl in Hmap. destruct (f x') as [e|y'] eqn:Hx'; [done|].
    destruct (map_raising f xs) as [e|ys'] eqn:Hxs; [done|].
    injection Hmap as <-. apply elem_of_cons in Hin as [->|Hin].
    + exists y'. split; [done|]. apply elem_of_cons. by left.
    + destruct (IH ys' eq_refl Hin) as (y & Hy & Hys). exists y. split; [done|].
      apply elem_of_cons. by right.
Qed.

(** [stop_app] when it returns: the loop has run to its end and the rest
    leaves the registrations alone. *)
Lemma stop_app_run (vk : string) (st : State) :
  result (stop_app env vk st) = inr tt ->
  let version_entries :=
    List.filter (Py.startswith (MONIT_INSTANCE_PREFIX +:+ vk)) (monit_entries st) in
  let loop := for_each version_entries
                (fun entry =>
                   info <- lift (instance_info entry) ;;
                   unregister_instance env (mkInstance (fst info) (snd info)) ;;
                   unmonitor_and_terminate env entry)%M st in
  result loop = inr tt /\
  calls (trace (stop_app env vk st)) = calls (trace loop) /\
  same_registry (final loop) (final (stop_app env vk st)) /\
  fewer_watches (final loop) (final (stop_app env vk st)).
Proof.
  cbv zeta. unfold stop_app.
  destruct (is_app_name_valid env (project_of vk)); [|intros; discriminate].
  cbn [negb]. rewrite bind_tell.
  rewrite (bind_returns _ _ st st (monit_entries st) [MonitGetEntries] eq_refl).
  rewrite bind_run.
  match goal with
  | |- context [for_each ?es ?body st] =>
      destruct (for_each es body st) as [[[e|[]] st1] tr1] eqn:Hloop
  end; [intros; discriminate|].
  intros _.
  match goal with
  | |- context [List.filter ?f (monit_entries st)] =>
      match f with
      | (fun entry => _ && _) =>
          pose proof (stop_app_tail_calls env (project_of vk)
                        (List.filter f (monit_entries st)) st1) as Hcalls;
          pose proof (stop_app_tail_registry env (project_of vk)
                        (List.filter f (monit_entries st)) st1) as Hreg;
          pose proof (stop_app_tail_watches env (project_of vk)
                        (List.filter f (monit_entries st)) st1) as Hfew
      end
  end.
  match goal with
  | |- context [ (?tail st1) ] =>
      match type of Hcalls with
      | calls (trace (tail st1)) = [] => destruct (tail st1) as [[r2 st2] tr2]
      end
  end.
  unfold result, final, trace in *. cbn [fst snd] in *.
  split; [done|]. split; [|by split].
  change (calls (Log INFO "Stopping version" :: MonitGetEntries :: tr1 ++ tr2)
          = calls tr1).
  change (calls (tr1 ++ tr2) = calls tr1). by rewrite calls_app, Hcalls, app_nil_r.
Qed.

End StopVersionWhole.

(** X14.  When [stop_app] returns, every watch whose name starts with
    [instance_{version_key}] has been parsed and its instance retracted,
    in the order of Monit's list, and nothing else was retracted: these
    instances have left [running_instances], their children are gone from
    the registry, and each of the watches that Monit agreed to unmonitor is
    no longer listed.  The watches are chosen by the prefix alone: a listed
    watch of any revision key that begins with the version key is among
    them. *)
Theorem stop_app_retracts_version (env : Env) (vk : string) (st : State) :
  result (stop_app env vk st) = inr tt ->
  let version_entries :=
    List.filter (Py.startswith (MONIT_INSTANCE_PREFIX +:+ vk)) (monit_entries st) in
  let stop := stop_app env vk st in
  exists infos,
    map_raising instance_info version_entries = inr infos /\
    calls (trace stop) = map UnregisterInstance (parsed_instances infos) /\
    running_instances (final stop)
    = running_instances st ∖ list_to_set (parsed_instances infos) /\
    (forall instance children,
       instance ∈ parsed_instances infos ->
       zk_nodes (final stop) !! version_key instance = Some children ->
       children !! instance_entry env instance = None) /\
    (forall entry,
       entry ∈ version_entries -> result (unmonitor env entry st) = inr tt ->
       entry ∉ monit_entries (final stop)) /\
    (forall rest port,
       0 <= port -> instance_watch (vk +:+ rest) port ∈ monit_entries st ->
       mkInstance (vk +:+ rest) port ∈ parsed_instances infos).
Proof.
  intros Hok. cbv zeta.
  destruct (stop_app_run env vk st Hok) as (Hloop & Hcalls & [Hrun Hzk] & Hfew).
  destruct (stop_entries_run env _ st Hloop) as (infos & Hinfos & Hc & Hr & Hz & _ & Hgone).
  exists infos. split; [exact Hinfos|]. split; [by rewrite Hcalls|].
  split; [by rewrite Hrun|]. split; [|split].
  - intros instance children Hin. rewrite Hzk, Hz.
    apply foldl_retracted_gone. by left.
  - intros entry Hentry Hun Hin. by apply (Hgone entry Hentry Hun), Hfew.
  - intros rest port Hport Hlisted.
    assert (Hin : instance_watch (vk +:+ rest) port
                  ∈ List.filter (Py.startswith (MONIT_INSTANCE_PREFIX +:+ vk))
                      (monit_entries st)).
    { apply list_elem_of_In, filter_In. split; [by apply list_elem_of_In|].
      unfold instance_watch. rewrite <- (append_assoc MONIT_INSTANCE_PREFIX).
      rewrite append_assoc. apply startswith_app. }
    destruct (map_raising_elem _ _ _ _ Hinfos Hin) as (info & Hinfo & Hinfo_in).
    rewrite (instance_info_watch _ _ Hport) in Hinfo. injection Hinfo as <-.
    unfold parsed_instances. apply list_elem_of_fmap.
    exists (vk +:+ rest, port). by split.
Qed.

Lemma stop_app_retracts_version_witness :
  mkInstance "proj_default_v1_3" 8080
    ∉ running_instances (final (stop_app node_env "proj_default_v1" one_instance)).
Proof.
  destruct (stop_app_retracts_version node_env "proj_default_v1" one_instance eq_refl)
    as (infos & _ & _ & Hrun & _ & _ & Hlisted).
  rewrite Hrun. intros Hin. apply elem_of_difference in Hin as [_ Hout].
  apply Hout, elem_of_list_to_set.
  apply (Hlisted "_3" 8080); [lia|].
  apply elem_of_cons. right. apply elem_of_cons. by left.
Defined.

(** ** API-server pool: recovery from Monit's list *)

Section Populate.

Lemma map_raising_map {A B} (f : A -> exn + B) (g : B -> A) (ys : list B) :
  (forall y, y ∈ ys -> f (g y) = inr y) -> map_raising f (map g ys) = inr ys.
Proof.
  induction ys as [|y ys IH]; intros Hall; [done|]. cbn [map map_raising].
  rewrite (Hall y) by (apply elem_of_cons; by left).
  rewrite IH; [done|]. intros y' Hy'. apply Hall, elem_of_cons. by right.
Qed.

Lemma map_raising_raises {A B} (f : A -> exn + B) (xs : list A) (x : A) (e : exn) :
  x ∈ xs -> f x = inl e -> exists e', map_raising f xs = inl e' /\
                                      exists x', x' ∈ xs /\ f x' = inl e'.
Proof.
  induction xs as [|x' xs IH]; intros Hin Hx; [by apply elem_of_nil in Hin|].
  cbn [map_raising]. destruct (f x') as [e'|y'] eqn:Hx'.
  - exists e'. split; [done|]. exists x'. split; [apply elem_of_cons; by left | done].
  - apply elem_of_cons in Hin as [->|Hin]; [congruence|].
    destruct (IH Hin Hx) as (e' & -> & x'' & Hx'' & He').
    exists e'. split; [done|]. exists x''. split; [apply elem_of_cons; by right | done].
Qed.

Lemma record_servers_run (servers : list (string * Z)) :
  forall st,
  for_each servers (fun info => modify (set_api_servers <[fst info := snd info]>)) st
  = (inr tt, set_api_servers (assigned servers) st, []).
Proof.
  induction servers as [|info servers IH]; intros st; cbn [for_each].
  - by destruct st.
  - rewrite (bind_returns _ _ st (set_api_servers <[fst info := snd info]> st) tt []
               eq_refl).
    by rewrite IH.
Qed.

Lemma assigned_other (servers : list (string * Z)) (project : string) :
  forall m, project ∉ servers.*1 -> assigned servers m !! project = m !! project.
Proof.
  induction servers as [|info servers IH]; intros m Hnot; [done|].
  cbn [assigned foldl]. fold (assigned servers (<[fst info := snd info]> m)).
  cbn [fmap list_fmap] in Hnot. apply not_elem_of_cons in Hnot as [Hne Hnot].
  rewrite IH by done. by rewrite lookup_insert_ne.
Qed.

Lemma assigned_lookup (servers : list (string * Z)) (project : string) (port : Z) :
  forall m, NoDup servers.*1 -> (project, port) ∈ servers ->
            assigned servers m !! project = Some port.
Proof.
  induction servers as [|info servers IH]; intros m Hnodup Hin.
  - by apply elem_of_nil in Hin.
  - cbn [assigned foldl]. fold (assigned servers (<[fst info := snd info]> m)).
    cbn [fmap list_fmap] in Hnodup. apply NoDup_cons in Hnodup as [Hfresh Hnodup].
    apply elem_of_cons in Hin as [<-|Hin].
    + rewrite assigned_other by done. cbn [fst snd]. by rewrite lookup_insert_eq.
    + by apply IH.
Qed.

Lemma api_server_info_value_error (entry : string) (e : exn) :
  api_server_info entry = inl e -> exists message, e = ValueError message.
Proof.
  unfold api_server_info. destruct (Py.rsplit1 "-" entry) as [[prefix port]|].
  - destruct (Py.int port); [done|]. intros [= <-]. by eexists.
  - intros [= <-]. by eexists.
Qed.

Lemma api_server_info_watch (project_id : string) (port : Z) :
  0 <= port -> api_server_info (api_server_watch project_id port) = inr (project_id, port).
Proof.
  intros Hport. unfold api_server_info, api_server_watch, Py.join.
  cbn [String.concat].
  change ("-" +:+ Py.str port) with (String "-" (Py.str port)).
  rewrite rsplit1_last by (by apply str_no_minus).
  by rewrite slice_from_app, int_str.
Qed.

End Populate.

(** X15.  [populate_api_servers] rebuilds [api_servers] from Monit's list.
    When the API-server watches that Monit lists are the names that
    [ensure_api_server] gives to the pairs of [servers], it returns and
    has assigned these pairs in order, so with one watch per project every
    project has its port back, the other projects keep what they had, and
    nothing but [api_servers] has changed.  When the name of one listed
    API-server watch does not parse, it raises [ValueError] and has
    assigned nothing. *)
Theorem populate_api_servers_recovers (st : State) :
  let run := populate_api_servers st in
  let listed := List.filter (Py.startswith API_SERVER_PREFIX) (monit_entries st) in
  (forall servers,
     listed = map (fun info => api_server_watch (fst info) (snd info)) servers ->
     (forall info, info ∈ servers -> 0 <= snd info) ->
     run = (inr tt, set_api_servers (assigned servers) st, [MonitGetEntries]) /\
     (NoDup servers.*1 ->
      forall project port, (project, port) ∈ servers ->
                           api_servers (final run) !! project = Some port) /\
     (forall project, project ∉ servers.*1 ->
                      api_servers (final run) !! project = api_servers st !! project)) /\
  (forall entry e,
     entry ∈ listed -> api_server_info entry = inl e ->
     exists message, run = (inl (ValueError message), st, [MonitGetEntries])).
Proof.
  cbv zeta. unfold populate_api_servers.
  rewrite (bind_returns _ _ st st (monit_entries st) [MonitGetEntries] eq_refl).
  split.
  - intros servers Hlisted Hports. rewrite Hlisted.
    rewrite (map_raising_map api_server_info _ servers).
    2:{ intros info Hin. rewrite api_server_info_watch by (by apply Hports).
        by destruct info. }
    unfold lift.
    rewrite (bind_returns _ _ st st servers [] eq_refl).
    rewrite record_servers_run. unfold final. cbn [fst snd api_servers set_api_servers].
    split; [done|]. split.
    + intros Hnodup project port Hin. by apply assigned_lookup.
    + intros project Hnot. by apply assigned_other.
  - intros entry e Hin Hinfo.
    destruct (map_raising_raises api_server_info _ entry e Hin Hinfo)
      as (e' & Hmap & entry' & _ & Hentry').
    destruct (api_server_info_value_error entry' e' Hentry') as [message ->].
    exists message. rewrite Hmap. reflexivity.
Qed.

Lemma populate_api_servers_recovers_witness :
  api_servers (final (populate_api_servers after_restart)) !! "beta"
  = Some 19998.
Proof.
  destruct (populate_api_servers_recovers after_restart) as [Hgood _].
  destruct (Hgood [("alpha", 19997); ("beta", 19998)] eq_refl) as (_ & Hback & _).
  - intros info Hin. apply elem_of_cons in Hin as [->|Hin]; [simpl; lia|].
    apply elem_of_cons in Hin as [->|Hin]; [simpl; lia|]. by apply elem_of_nil in Hin.
  - apply Hback.
    + cbn. apply NoDup_cons. split.
      * intros Hin. apply elem_of_cons in Hin as [Heq|Hin]; [discriminate|].
        by apply elem_of_nil in Hin.
      * apply NoDup_cons. split; [apply not_elem_of_nil | apply NoDup_nil_2].
    + apply elem_of_cons. right. apply elem_of_cons. by left.
Defined.

(** ** Failure detector: one tick *)

Section Ticks.

Variable env : Env.

(** A stop takes at most one instance out of [running_instances]. *)
Lemma stop_app_instance_running (vk : string) (port : Z) (st : State) :
  let stop := stop_app_instance env vk port st in
  running_instances (final stop) = running_instances st \/
  exists instance,
    instance ∈ running_instances st /\
    running_instances (final stop) = running_instances st ∖ {[instance]}.
Proof.
  cbv zeta.
  destruct (is_app_name_valid env (project_of vk)) eqn:Hvalid.
  2:{ left. unfold stop_app_instance. by rewrite Hvalid. }
  destruct (List.find (instance_key_re_match vk port) (monit_entries st))
    as [watch|] eqn:Hfind.
  2:{ left. by rewrite (stop_app_instance_no_entry env vk port st Hvalid Hfind). }
  destruct (instance_info watch) as [e|[rk parsed]] eqn:Hinfo.
  { left. unfold stop_app_instance. rewrite Hvalid. cbn [negb].
    rewrite final_bind_tell.
    rewrite (final_bind_returns _ _ st st (monit_entries st) [MonitGetEntries] eq_refl).
    rewrite Hfind. unfold lift. by rewrite Hinfo. }
  destruct (stop_app_instance_final env vk port st watch rk parsed Hvalid Hfind Hinfo)
    as (Hrun & _ & _).
  destruct (decide (mkInstance rk parsed ∈ running_instances st)) as [Hin|Hout].
  - right. by exists (mkInstance rk parsed).
  - left. rewrite Hrun. apply set_eq. intros x.
    rewrite elem_of_difference, elem_of_singleton. split; [by intros [? _]|].
    intros Hx. split; [done|]. by intros ->.
Qed.

Lemma size_without (s : gset Instance) (instance : Instance) :
  instance ∈ s -> size (s ∖ {[instance]}) <> size s.
Proof.
  intros Hin. rewrite size_difference by (by apply singleton_subseteq_l).
  rewrite size_singleton. apply elem_of_subseteq_singleton, subseteq_size in Hin.
  rewrite size_singleton in Hin. lia.
Qed.

(** The loop of a tick from a state in which the set has the size it had
    when the iteration began. *)
Lemma stop_failed_loop_run (failed : gset (string * Z)) (todo : list Instance) :
  forall st,
  let run := stop_failed_loop env failed (size (running_instances st)) todo st in
  (tick_result run = inr tt -> running_instances (tick_final run) = running_instances st) /\
  (running_instances (tick_final run) = running_instances st \/
   exists instance,
     instance ∈ running_instances st /\
     running_instances (tick_final run) = running_instances st ∖ {[instance]}).
Proof.
  induction todo as [|instance todo IH]; intros st; cbv zeta; cbn [stop_failed_loop];
    rewrite Nat.eqb_refl; cbn [negb].
  - split; [done | by left].
  - case_bool_decide as Hfailed; [|apply IH].
    pose proof (stop_app_instance_running (version_key instance) (port instance) st)
      as Hstop. cbv zeta in Hstop.
    destruct (stop_app_instance env (version_key instance) (port instance) st)
      as [[[e|[]] st1] tr1]; unfold final in Hstop; cbn [fst snd] in Hstop.
    { split; [intros; discriminate | exact Hstop]. }
    destruct Hstop as [Hsame | (gone & Hgone & Hless)].
    + specialize (IH st1). cbv zeta in IH. rewrite Hsame in IH.
      destruct (stop_failed_loop env failed _ todo st1) as [[r st2] tr2].
      unfold tick_result, tick_final in *. cbn [fst snd] in *. exact IH.
    + destruct todo as [|next todo]; cbn [stop_failed_loop];
        rewrite Hless; rewrite (proj2 (Nat.eqb_neq _ _) (size_without _ _ Hgone));
        cbn [negb]; unfold tick_result, tick_final; cbn [fst snd];
        (split; [intros; discriminate | right; by exists gone]).
Qed.

Lemma stop_failed_loop_idle (failed : gset (string * Z)) (todo : list Instance)
    (st : State) :
  (forall instance, instance ∈ todo -> (version_key instance, port instance) ∉ failed) ->
  stop_failed_loop env failed (size (running_instances st)) todo st = (inr tt, st, []).
Proof.
  induction todo as [|instance todo IH]; intros Hnone; cbn [stop_failed_loop];
    rewrite Nat.eqb_refl; cbn [negb]; [done|].
  rewrite bool_decide_eq_false_2 by (apply Hnone, elem_of_cons; by left).
  apply IH. intros i Hi. apply Hnone, elem_of_cons. by right.
Qed.

End Ticks.

(** X16.  One run of [stop_failed_instances], with no other coroutine at
    work on [running_instances] meanwhile.  When the request for the
    statistics fails the run raises what the request raised and touches
    nothing.  When no running instance is reported as failed it returns
    and has done nothing.  In every case it takes at most one instance out
    of [running_instances], and when it has taken one out it does not
    return: [unregister_instance] removes the instance from the set that
    the loop iterates over, and the iterator raises [RuntimeError] when it
    is asked for the next instance, unless the stop itself has raised
    before. *)
Theorem stop_failed_instances_one_per_tick (env : Env)
    (proxies_stats : exn + list ProxyStats)
    (iteration_order : gset Instance -> list Instance) (st : State) :
  iterates iteration_order ->
  let tick := stop_failed_instances env proxies_stats iteration_order st in
  (forall e, proxies_stats = inl e -> tick = (inl (Raised e), st, [])) /\
  (forall proxy_stats,
     proxies_stats = inr proxy_stats ->
     (forall instance, instance ∈ running_instances st ->
        (version_key instance, port instance) ∉ failed_of env proxy_stats) ->
     tick = (inr tt, st, [])) /\
  (running_instances (tick_final tick) = running_instances st \/
   exists instance,
     instance ∈ running_instances st /\
     running_instances (tick_final tick) = running_instances st ∖ {[instance]}) /\
  (tick_result tick = inr tt -> running_instances (tick_final tick) = running_instances st).
Proof.
  intros Horder. cbv zeta. unfold stop_failed_instances, get_failed_instances, lift.
  destruct proxies_stats as [e|proxy_stats].
  - split; [by intros ? [= <-]|]. split; [intros; discriminate|].
    split; [by left | done].
  - rewrite (bind_returns _ _ st st proxy_stats [] eq_refl). unfold ret.
    split; [intros; discriminate|].
    pose proof (stop_failed_loop_run env (failed_of env proxy_stats)
                  (iteration_order (running_instances st)) st) as Hrun.
    cbv zeta in Hrun. split.
    + intros ? [= <-] Hnone. rewrite stop_failed_loop_idle; [done|].
      intros instance Hin. apply Hnone.
      rewrite (Horder (running_instances st)) in Hin. by apply elem_of_elements in Hin.
    + destruct (stop_failed_loop env _ _ _ st) as [[r st2] tr2].
      unfold tick_result, tick_final in *. cbn [fst snd] in *.
      destruct Hrun as [Hret Hone].
      split; [exact Hone | exact Hret].
Qed.

Lemma stop_failed_instances_one_per_tick_witness :
  exists instance,
    running_instances (tick_final (stop_failed_instances node_env (inr both_down) elements
                                two_projects))
    = running_instances two_projects ∖ {[instance]} /\
    tick_result (stop_failed_instances node_env (inr both_down) elements two_projects)
    = inl (RuntimeError "Set changed size during iteration").
Proof.
  assert (Horder : iterates elements) by (by intros s).
  destruct (stop_failed_instances_one_per_tick node_env (inr both_down) elements
              two_projects Horder) as (_ & _ & [Hsame | (instance & _ & Hone)] & _).
  - exfalso. apply (f_equal size) in Hsame. vm_compute in Hsame. discriminate.
  - exists instance. split; [exact Hone|]. vm_compute. reflexivity.
Defined.

(** ** Recovery: the processes that are not accounted for *)

Section CleanUp.

Variable processes : list (Z * list string).
Variable getpgid : Z -> Z.
Variables JAVA_APPSERVER_CLASS PYTHON_APPSERVER APPS_PATH : string.

Lemma unaccounted_spec (monitored : gset (string * Z)) (procs : list (Z * list string)) :
  (forall pid cmd, (pid, cmd) ∈ procs ->
     exists found,
       process_instance JAVA_APPSERVER_CLASS PYTHON_APPSERVER APPS_PATH cmd = inr found) ->
  unaccounted JAVA_APPSERVER_CLASS PYTHON_APPSERVER APPS_PATH monitored procs
  = inr (omap (fun proc =>
                 match process_instance JAVA_APPSERVER_CLASS PYTHON_APPSERVER APPS_PATH
                         (snd proc) with
                 | inr (Some key) =>
                     if bool_decide (key ∈ monitored) then None else Some (fst proc)
                 | _ => None
                 end) procs).
Proof.
  induction procs as [|[pid cmd] procs IH]; intros Hall; [done|].
  destruct (Hall pid cmd) as [found Hfound]; [apply elem_of_cons; by left|].
  cbn [unaccounted omap list_omap fst snd]. rewrite Hfound, IH.
  - destruct found as [key|]; [|done]. by destruct (bool_decide (key ∈ monitored)).
  - intros p c Hin. apply (Hall p c), elem_of_cons. by right.
Qed.

Lemma unaccounted_raises (monitored : gset (string * Z)) (procs : list (Z * list string))
    (pid : Z) (cmd : list string) (e : boot_exn) :
  (pid, cmd) ∈ procs ->
  process_instance JAVA_APPSERVER_CLASS PYTHON_APPSERVER APPS_PATH cmd = inl e ->
  exists e', unaccounted JAVA_APPSERVER_CLASS PYTHON_APPSERVER APPS_PATH monitored procs
             = inl e'.
Proof.
  induction procs as [|[pid' cmd'] procs IH]; intros Hin Hcmd.
  - by apply elem_of_nil in Hin.
  - cbn [unaccounted].
    destruct (process_instance _ _ _ cmd') as [e'|found] eqn:Hcmd'; [by eexists|].
    apply elem_of_cons in Hin as [[= <- <-]|Hin]; [congruence|].
    destruct (IH Hin Hcmd) as [e' ->]. by eexists.
Qed.

Lemma omap_ext_all {A C} (f g : A -> option C) (l : list A) :
  (forall x, f x = g x) -> omap f l = omap g l.
Proof.
  intros Hfg. induction l as [|x l IH]; [done|]. cbn. by rewrite Hfg, IH.
Qed.

Lemma boot_bind_tell {C} (ev : boot_event) (k : unit -> B C) (st : State) :
  boot_bind (boot_tell ev) k st
  = match k tt st with (r, st', tr) => (r, st', ev :: tr) end.
Proof. unfold boot_bind, boot_tell. by destruct (k tt st) as [[r st'] tr]. Qed.

Lemma kill_all_run (pids : list Z) (st : State) :
  boot_for_each pids (fun pid => boot_tell (KillProcessGroup (getpgid pid))) st
  = (inr tt, st, map (fun pid => KillProcessGroup (getpgid pid)) pids).
Proof.
  induction pids as [|pid pids IH]; [done|].
  cbn [boot_for_each]. by rewrite boot_bind_tell, IH.
Qed.

Lemma kills_kill_all (pids : list Z) :
  kills (map (fun pid => KillProcessGroup (getpgid pid)) pids) = map getpgid pids.
Proof. induction pids as [|pid pids IH]; [done|]. cbn. by rewrite <- IH. Qed.

End CleanUp.

(** X17.  [clean_up_instances] reads the command line of every process
    before it kills anything.  When every command line can be read it
    returns, and the process groups it has killed are, in the order of the
    processes, those of the AppServer processes whose revision and port
    are not among the monitored entries: a process that is passed over
    (fewer than two arguments, or neither a Java nor a Python AppServer)
    and a process whose revision and port Monit accounts for are not
    selected.  When the command line of one AppServer process cannot be
    read, it raises and has killed nothing.  The module state is not
    touched. *)
Theorem clean_up_instances_kills_unaccounted (processes : list (Z * list string))
    (getpgid : Z -> Z) (JAVA_APPSERVER_CLASS PYTHON_APPSERVER APPS_PATH : string)
    (monit_entries : list (string * Z)) (st : State) :
  let read := process_instance JAVA_APPSERVER_CLASS PYTHON_APPSERVER APPS_PATH in
  let run := clean_up_instances processes getpgid JAVA_APPSERVER_CLASS PYTHON_APPSERVER
               APPS_PATH monit_entries st in
  boot_final run = st /\
  ((forall pid cmd, (pid, cmd) ∈ processes -> exists found, read cmd = inr found) ->
   boot_result run = inr tt /\
   kills (boot_trace run)
   = map getpgid
       (omap (fun proc =>
                match read (snd proc) with
                | inr (Some key) =>
                    if bool_decide (key ∈ monit_entries) then None else Some (fst proc)
                | _ => None
                end) processes) /\
   (forall group,
      group ∈ kills (boot_trace run) <->
      exists pid cmd key,
        (pid, cmd) ∈ processes /\ getpgid pid = group /\
        read cmd = inr (Some key) /\ key ∉ monit_entries)) /\
  (forall pid cmd e,
     (pid, cmd) ∈ processes -> read cmd = inl e ->
     (exists e', boot_result run = inl e') /\ boot_trace run = []).
Proof.
  cbv zeta. unfold clean_up_instances, boot_lift.
  split; [|split].
  - unfold boot_bind at 1.
    destruct (unaccounted _ _ _ _ processes) as [e|[|pid to_stop]]; [done|done|].
    by rewrite boot_bind_tell, kill_all_run.
  - intros Hall.
    rewrite (unaccounted_spec _ _ _ _ _ Hall).
    set (to_stop := omap _ processes).
    assert (Hstop : to_stop
                    = omap (fun proc =>
                              match process_instance JAVA_APPSERVER_CLASS PYTHON_APPSERVER
                                      APPS_PATH (snd proc) with
                              | inr (Some key) =>
                                  if bool_decide (key ∈ monit_entries) then None
                                  else Some (fst proc)
                              | _ => None
                              end) processes).
    { unfold to_stop. apply omap_ext_all. intros proc.
      destruct (process_instance _ _ _ (snd proc)) as [e|[key|]]; [done| |done].
      destruct (decide (key ∈ monit_entries)) as [Hin|Hout].
      - rewrite !bool_decide_eq_true_2; [done|done|by apply elem_of_list_to_set].
      - rewrite !bool_decide_eq_false_2; [done|done|by rewrite elem_of_list_to_set]. }
    assert (Hrun : kills (boot_trace
                     (boot_bind (fun st0 => (inr to_stop, st0, []))
                        (fun to_stop0 =>
                           match to_stop0 with
                           | [] => boot_ret tt
                           | _ :: _ =>
                               boot_bind
                                 (boot_tell (Engine (Log INFO "Killing unmonitored instances")))
                                 (fun _ => boot_for_each to_stop0
                                    (fun pid => boot_tell (KillProcessGroup (getpgid pid))))
                           end) st)) = map getpgid to_stop /\
                   boot_result
                     (boot_bind (fun st0 => (inr to_stop, st0, []))
                        (fun to_stop0 =>
                           match to_stop0 with
                           | [] => boot_ret tt
                           | _ :: _ =>
                               boot_bind
                                 (boot_tell (Engine (Log INFO "Killing unmonitored instances")))
                                 (fun _ => boot_for_each to_stop0
                                    (fun pid => boot_tell (KillProcessGroup (getpgid pid))))
                           end) st) = inr tt).
    { unfold boot_bind at 1 3. destruct to_stop as [|pid to_stop']; [done|].
      rewrite boot_bind_tell, kill_all_run. unfold boot_trace, boot_result.
      cbn [fst snd app]. split; [|done].
      change (kills (map (fun pid0 => KillProcessGroup (getpgid pid0)) (pid :: to_stop'))
              = map getpgid (pid :: to_stop')).
      apply kills_kill_all. }
    destruct Hrun as [Hkills Hres]. rewrite Hkills, Hres, Hstop.
    split; [done|]. split; [done|].
    intros group. rewrite list_elem_of_fmap. split.
    + intros (pid & -> & Hpid). apply list_elem_of_omap in Hpid as ([pid' cmd] & Hin & Hsel).
      cbn [fst snd] in Hsel.
      destruct (process_instance _ _ _ cmd) as [e|[key|]] eqn:Hcmd; [done| |done].
      case_bool_decide as Hkey; [done|]. injection Hsel as ->.
      by exists pid, cmd, key.
    + intros (pid & cmd & key & Hin & <- & Hcmd & Hkey). exists pid. split; [done|].
      apply list_elem_of_omap. exists (pid, cmd). split; [done|]. cbn [fst snd].
      rewrite Hcmd. by rewrite bool_decide_eq_false_2.
  - intros pid cmd e Hin Hcmd.
    destruct (unaccounted_raises JAVA_APPSERVER_CLASS PYTHON_APPSERVER APPS_PATH
                (list_to_set monit_entries) processes pid cmd e Hin Hcmd) as [e' He'].
    unfold boot_bind at 1. rewrite He'. split; [by exists e' | done].
Qed.

Lemma clean_up_instances_kills_unaccounted_witness :
  kills (boot_trace
           (clean_up_instances sample_processes (fun pid => pid) "DevAppServerMain"
              "/opt/appserver/dev_appserver.py" "/var/apps/"
              [("proj_default_v1_3", 8080)] empty_state))
  = [102].
Proof.
  destruct (clean_up_instances_kills_unaccounted sample_processes (fun pid => pid)
              "DevAppServerMain" "/opt/appserver/dev_appserver.py" "/var/apps/"
              [("proj_default_v1_3", 8080)] empty_state) as (_ & Hreadable & _).
  destruct Hreadable as (_ & Hkills & _).
  - intros pid cmd Hin.
    apply elem_of_cons in Hin as [[= -> ->]|Hin]; [by eexists|].
    apply elem_of_cons in Hin as [[= -> ->]|Hin]; [by eexists|].
    apply elem_of_cons in Hin as [[= -> ->]|Hin]; [by eexists|].
    by apply elem_of_nil in Hin.
  - exact Hkills.
Defined.

(** ** Recovery: the state after a restart *)

Section Recover.

Variable env : Env.

Lemma boot_bind_returns {A C} (m : B A) (k : A -> B C) (st st1 : State) (a : A)
    (tr1 : list boot_event) :
  m st = (inr a, st1, tr1) ->
  boot_bind m k st = match k a st1 with (r, st2, tr2) => (r, st2, tr1 ++ tr2) end.
Proof. intros Hm. unfold boot_bind. by rewrite Hm. Qed.

Lemma engine_returns {A} (m : M A) (st st1 : State) (a : A) (tr1 : list event) :
  m st = (inr a, st1, tr1) -> engine m st = (inr a, st1, map Engine tr1).
Proof. intros Hm. unfold engine. by rewrite Hm. Qed.

(** The loop that removes the configuration of the unmonitored watches. *)
Lemma remove_all_run (removed : list string) :
  forall st,
  exists st1 tr,
    boot_for_each removed (fun entry => engine (remove_configuration entry)) st
    = (inr tt, st1, tr) /\
    (forall watch, watch ∈ monit_entries st1 <->
                   watch ∈ monit_entries st /\ watch ∉ removed) /\
    api_servers st1 = api_servers st /\
    running_instances st1 = running_instances st /\
    zk_nodes st1 = zk_nodes st /\
    kills tr = [].
Proof.
  induction removed as [|entry removed IH]; intros st.
  - exists st, []. split; [done|]. split; [|done].
    intros watch. split; [|by intros [? _]]. intros Hw. split; [done|].
    apply not_elem_of_nil.
  - cbn [boot_for_each].
    rewrite (boot_bind_returns (engine (remove_configuration entry)) _ st
               (set_monit_entries (filter (fun e => e <> entry)) st) tt
               [Engine (RemoveConfiguration entry)] eq_refl).
    destruct (IH (set_monit_entries (filter (fun e => e <> entry)) st))
      as (st1 & tr & -> & Hwatches & Hservers & Hrunning & Hzk & Hkills).
    exists st1, (Engine (RemoveConfiguration entry) :: tr).
    split; [done|]. split; [|done].
    intros watch. rewrite Hwatches. cbn [monit_entries set_monit_entries].
    rewrite list_elem_of_filter, not_elem_of_cons. tauto.
Qed.

(** The registry once the nodes of [versions] have been ensured. *)
Lemma ensure_all_run (versions : list string) :
  forall st,
  exists st1 tr,
    boot_for_each versions (fun version_key => engine (ensure_version_node version_key)) st
    = (inr tt, st1, tr) /\
    (forall version_key, version_key ∈ versions -> is_Some (zk_nodes st1 !! version_key)) /\
    (forall version_key children,
       zk_nodes st1 !! version_key = Some children ->
       zk_nodes st !! version_key = Some children \/ children = ∅) /\
    (forall version_key, is_Some (zk_nodes st !! version_key) ->
                         is_Some (zk_nodes st1 !! version_key)) /\
    api_servers st1 = api_servers st /\
    running_instances st1 = running_instances st /\
    monit_entries st1 = monit_entries st /\
    kills tr = [].
Proof.
  induction versions as [|vk versions IH]; intros st.
  - exists st, []. split; [done|]. split; [by intros ? Hin%elem_of_nil|].
    split; [by left|]. done.
  - cbn [boot_for_each].
    set (st0 := set_zk_nodes (fun zk => match zk !! vk with
                                        | Some _ => zk
                                        | None => <[vk := ∅]> zk
                                        end) st).
    rewrite (boot_bind_returns (engine (ensure_version_node vk)) _ st st0 tt
               [Engine (ZkEnsurePath (Py.join "/" [VERSION_REGISTRATION_NODE; vk]))]
               eq_refl).
    destruct (IH st0) as (st1 & tr & -> & Hthere & Hfrom & Hkeep & Hs & Hr & Hm & Hk).
    assert (Hstep : forall k, is_Some (zk_nodes st !! k) -> is_Some (zk_nodes st0 !! k)).
    { intros k Hk'. unfold st0. cbn [zk_nodes set_zk_nodes].
      destruct (zk_nodes st !! vk); [done|]. apply lookup_insert_is_Some'. by right. }
    assert (Hvk : is_Some (zk_nodes st0 !! vk)).
    { unfold st0. cbn [zk_nodes set_zk_nodes].
      destruct (zk_nodes st !! vk) eqn:Hlook; [by rewrite Hlook|].
      by rewrite lookup_insert_eq. }
    eexists st1, _. split; [reflexivity|]. split; [|split; [|split]].
    + intros k Hin. apply elem_of_cons in Hin as [->|Hin]; [by apply Hkeep | by apply Hthere].
    + intros k children Hlook. destruct (Hfrom k children Hlook) as [Hold|Hnew]; [|by right].
      revert Hold. unfold st0. cbn [zk_nodes set_zk_nodes].
      destruct (zk_nodes st !! vk) eqn:Hvk'; [by left|].
      destruct (decide (k = vk)) as [->|Hne].
      * rewrite lookup_insert_eq. intros [= <-]. by right.
      * rewrite lookup_insert_ne by done. by left.
    + intros k Hk'. by apply Hkeep, Hstep.
    + by rewrite Hs, Hr, Hm.
Qed.

Lemma keeps_nodes_refl (st : State) : keeps_nodes st st.
Proof. by split. Qed.

Lemma keeps_nodes_trans (st1 st2 st3 : State) :
  keeps_nodes st1 st2 -> keeps_nodes st2 st3 -> keeps_nodes st1 st3.
Proof.
  intros (H1 & H2 & H3) (H4 & H5 & H6). split; [|split; congruence].
  intros k Hk. by apply H4, H1.
Qed.

Lemma unregister_instance_nodes (instance : Instance) :
  preserves keeps_nodes (unregister_instance env instance).
Proof.
  intros st. destruct (unregister_instance_state env instance st) as (tr & ->).
  split; [|done]. intros k Hk. by apply lookup_alter_is_Some.
Qed.

Lemma register_instance_nodes (instance : Instance) :
  preserves keeps_nodes (register_instance env instance).
Proof.
  intros st. rewrite register_instance_run.
  destruct (zk_nodes st !! version_key instance); [|apply keeps_nodes_refl].
  split; [|done]. intros k Hk. apply lookup_insert_is_Some'. by right.
Qed.

Lemma declare_instance_nodes_nodes (running : gset Instance) :
  preserves keeps_nodes (declare_instance_nodes env running).
Proof.
  unfold declare_instance_nodes.
  apply (preserves_bind _ keeps_nodes_trans); [apply preserves_get, keeps_nodes_refl|].
  intros st. apply (preserves_bind _ keeps_nodes_trans);
    [apply preserves_lift, keeps_nodes_refl|].
  intros registered. apply (preserves_bind _ keeps_nodes_trans).
  - apply (preserves_for_each _ keeps_nodes_refl keeps_nodes_trans).
    apply unregister_instance_nodes.
  - intros _. apply (preserves_for_each _ keeps_nodes_refl keeps_nodes_trans).
    apply register_instance_nodes.
Qed.

(** [declare_instance_nodes] returns when the registry can be read and
    the version nodes of the running instances are there. *)
Lemma declare_instance_nodes_returns (running : gset Instance) (st : State) :
  registry_parses env (zk_nodes st) ->
  version_nodes_exist (zk_nodes st) running ->
  result (declare_instance_nodes env running st) = inr tt.
Proof.
  intros Hparse Hnodes.
  destruct (registered_instances_spec env (zk_nodes st) Hparse) as (registered & Hreg & _).
  unfold declare_instance_nodes.
  rewrite (bind_returns _ _ st st st [] eq_refl).
  unfold lift. rewrite Hreg.
  rewrite (bind_returns _ _ st st registered [] eq_refl).
  destruct (unregister_all env (elements (registered ∖ running)) st)
    as (st1 & tr1 & Hun & _ & Hkeep).
  rewrite (bind_returns _ _ _ _ _ _ Hun).
  destruct (register_all env (elements (running ∖ registered)) st1)
    as (st2 & tr2 & -> & _); [|done].
  intros i Hi. apply Hkeep, Hnodes.
  by apply elem_of_elements, elem_of_difference in Hi as [Hi _].
Qed.

End Recover.

Section RecoverRun.

Variable env : Env.
Variable unmonitored : string -> bool.
Variable processes : list (Z * list string).
Variable getpgid : Z -> Z.
Variables JAVA_APPSERVER_CLASS PYTHON_APPSERVER APPS_PATH : string.

Lemma elem_of_List_filter {A} (f : A -> bool) (l : list A) (x : A) :
  x ∈ List.filter f l <-> x ∈ l /\ f x = true.
Proof. rewrite !list_elem_of_In. apply filter_In. Qed.

Lemma clean_up_instances_returns (monit_entries : list (string * Z)) (st : State) :
  (forall pid cmd, (pid, cmd) ∈ processes ->
     exists found,
       process_instance JAVA_APPSERVER_CLASS PYTHON_APPSERVER APPS_PATH cmd = inr found) ->
  exists tr,
    clean_up_instances processes getpgid JAVA_APPSERVER_CLASS PYTHON_APPSERVER APPS_PATH
      monit_entries st = (inr tt, st, tr).
Proof.
  intros Hall. unfold clean_up_instances, boot_lift. unfold boot_bind at 1.
  rewrite (unaccounted_spec _ _ _ _ _ Hall).
  destruct (omap _ processes) as [|pid to_stop]; [by eexists|].
  rewrite boot_bind_tell, kill_all_run. by eexists.
Qed.

Lemma recover_state_run (st : State) (details : list (string * Z)) :
  let kept := List.filter (fun entry => negb (unmonitored entry))
                (List.filter (Py.startswith MONIT_INSTANCE_PREFIX) (monit_entries st)) in
  let running : gset Instance := list_to_set (parsed_instances details) in
  map_raising instance_info kept = inr details ->
  (forall pid cmd, (pid, cmd) ∈ processes ->
     exists found,
       process_instance JAVA_APPSERVER_CLASS PYTHON_APPSERVER APPS_PATH cmd = inr found) ->
  registry_parses env (zk_nodes st) ->
  exists st3 tr,
    recover_state env unmonitored processes getpgid JAVA_APPSERVER_CLASS PYTHON_APPSERVER
      APPS_PATH st = (inr running, st3, tr) /\
    (forall watch,
       watch ∈ monit_entries st3 <->
       watch ∈ monit_entries st /\
       ~ (Py.startswith MONIT_INSTANCE_PREFIX watch = true /\ unmonitored watch = true)) /\
    version_nodes_exist (zk_nodes st3) running /\
    (forall version_key, is_Some (zk_nodes st !! version_key) ->
                         is_Some (zk_nodes st3 !! version_key)) /\
    api_servers st3 = api_servers st.
Proof.
  cbv zeta. intros Hparse Hreadable Hregistry.
  unfold recover_state. rewrite boot_bind_tell.
  rewrite (boot_bind_returns (engine get_entries) _ st st (monit_entries st)
             [Engine MonitGetEntries] eq_refl).
  cbv zeta.
  set (instance_entries := List.filter (Py.startswith MONIT_INSTANCE_PREFIX)
                             (monit_entries st)) in *.
  set (removed := List.filter unmonitored instance_entries).
  destruct (remove_all_run removed st) as (st1 & tr1 & Hrm & Hw1 & Hs1 & Hr1 & Hz1 & _).
  rewrite (boot_bind_returns _ _ _ _ _ _ Hrm).
  assert (Hreload : exists tr,
            (match removed with
             | [] => boot_ret tt
             | _ :: _ => boot_tell (Engine MonitReload)
             end) st1 = (inr tt, st1, tr)).
  { destruct removed; by eexists. }
  destruct Hreload as [tr2 Hreload]. rewrite (boot_bind_returns _ _ _ _ _ _ Hreload).
  assert (Hdetails : engine (lift (map_raising instance_info
                       (List.filter (fun entry => negb (unmonitored entry))
                          instance_entries))) st1 = (inr details, st1, [])).
  { unfold engine, lift. by rewrite Hparse. }
  rewrite (boot_bind_returns _ _ _ _ _ _ Hdetails).
  destruct (clean_up_instances_returns details st1 Hreadable) as [tr3 Hclean].
  rewrite (boot_bind_returns _ _ _ _ _ _ Hclean).
  rewrite boot_bind_tell.
  match goal with
  | |- context [boot_for_each (elements ?vs) _] =>
      set (running_versions := vs);
      destruct (ensure_all_run (elements running_versions) st1)
        as (st2 & tr4 & Hens & Hthere & Hfrom & Hkeep & Hs2 & Hr2 & Hm2 & _)
  end.
  rewrite (boot_bind_returns _ _ _ _ _ _ Hens).
  set (running := (list_to_set (map (fun instance => mkInstance (fst instance) (snd instance))
                                    details) : gset Instance)).
  assert (Hnodes : version_nodes_exist (zk_nodes st2) running).
  { intros instance Hin. apply Hthere, elem_of_elements.
    apply elem_of_list_to_set, list_elem_of_fmap in Hin as (info & -> & Hinfo).
    apply elem_of_list_to_set, list_elem_of_fmap. by exists info. }
  assert (Hregistry2 : registry_parses env (zk_nodes st2)).
  { intros vk children entry payload Hvk Hentry.
    destruct (Hfrom vk children Hvk) as [Hold | ->]; [|by rewrite lookup_empty in Hentry].
    rewrite Hz1 in Hold. by apply (Hregistry vk children entry payload). }
  pose proof (declare_instance_nodes_returns env running st2 Hregistry2 Hnodes) as Hdeclare.
  pose proof (declare_instance_nodes_nodes env running st2) as (Hkeep3 & Hs3 & Hm3).
  destruct (declare_instance_nodes env running st2) as [[r st3] tr5] eqn:Hrun.
  unfold result, final in *. cbn [fst snd] in *. subst r.
  rewrite (boot_bind_returns (engine (declare_instance_nodes env running)) _ st2 st3 tt
             (map Engine tr5) (engine_returns _ _ _ _ _ Hrun)).
  unfold boot_ret. eexists st3, _. split; [reflexivity|].
  split; [|split; [|split]].
  - intros watch. rewrite Hm3, Hm2, Hw1. unfold removed, instance_entries.
    rewrite !elem_of_List_filter. tauto.
  - intros instance Hin. by apply Hkeep3, Hnodes.
  - intros vk Hvk. apply Hkeep3, Hkeep. by rewrite Hz1.
  - by rewrite Hs3, Hs2, Hs1.
Qed.

End RecoverRun.

Section RecoverFails.

Variable env : Env.
Variable unmonitored : string -> bool.
Variable processes : list (Z * list string).
Variable getpgid : Z -> Z.
Variables JAVA_APPSERVER_CLASS PYTHON_APPSERVER APPS_PATH : string.

Lemma map_raising_elem_inv {A C} (f : A -> exn + C) (xs : list A) (ys : list C) (y : C) :
  map_raising f xs = inr ys -> y ∈ ys -> exists x, x ∈ xs /\ f x = inr y.
Proof.
  revert ys. induction xs as [|x xs IH]; intros ys Hmap Hin.
  - injection Hmap as <-. by apply elem_of_nil in Hin.
  - simpl in Hmap. destruct (f x) as [e|y'] eqn:Hx; [done|].
    destruct (map_raising f xs) as [e|ys'] eqn:Hxs; [done|].
    injection Hmap as <-. apply elem_of_cons in Hin as [->|Hin].
    + exists x. split; [apply elem_of_cons; by left | done].
    + destruct (IH ys' eq_refl Hin) as (x' & Hx' & Hfx'). exists x'.
      split; [apply elem_of_cons; by right | done].
Qed.

(** A watch name that cannot be read ends the recovery before any process
    is looked at and before the registry is touched. *)
Lemma recover_state_unreadable (st : State) (e : exn) :
  map_raising instance_info
    (List.filter (fun entry => negb (unmonitored entry))
       (List.filter (Py.startswith MONIT_INSTANCE_PREFIX) (monit_entries st))) = inl e ->
  let run := recover_state env unmonitored processes getpgid JAVA_APPSERVER_CLASS
               PYTHON_APPSERVER APPS_PATH st in
  boot_result run = inl (Failed e) /\
  kills (boot_trace run) = [] /\
  zk_nodes (boot_final run) = zk_nodes st /\
  running_instances (boot_final run) = running_instances st.
Proof.
  cbv zeta. intros Hparse.
  unfold recover_state. rewrite boot_bind_tell.
  rewrite (boot_bind_returns (engine get_entries) _ st st (monit_entries st)
             [Engine MonitGetEntries] eq_refl).
  cbv zeta.
  set (removed := List.filter unmonitored _).
  destruct (remove_all_run removed st) as (st1 & tr1 & Hrm & _ & _ & Hr1 & Hz1 & Hk1).
  rewrite (boot_bind_returns _ _ _ _ _ _ Hrm).
  assert (Hreload : exists tr,
            (match removed with
             | [] => boot_ret tt
             | _ :: _ => boot_tell (Engine MonitReload)
             end) st1 = (inr tt, st1, tr) /\ kills tr = []).
  { destruct removed; by eexists. }
  destruct Hreload as (tr2 & Hreload & Hk2).
  rewrite (boot_bind_returns _ _ _ _ _ _ Hreload).
  unfold boot_bind at 1. unfold engine at 1, lift at 1. rewrite Hparse.
  unfold boot_result, boot_final, boot_trace. cbn [fst snd].
  split; [done|]. split; [|by split].
  change (kills ([Engine MonitGetEntries] ++ tr1 ++ tr2 ++ []) = []).
  unfold kills in *. rewrite !omap_app, Hk1, Hk2. done.
Qed.

End RecoverFails.

(** X18.  [recover_state] rebuilds the state of the module from Monit's
    list.  The watches of instances that Monit reports as unmonitored are
    removed from Monit; the other instance watches are read, and when each
    of them names a revision key and a port, every command line can be
    read and the registry can be read, the recovery returns the set of the
    instances so named, which the main program makes [running_instances]:
    an instance is in it exactly when Monit still lists a watch that names
    it, the watch of a started instance that is not unmonitored among
    them.  The node of the version of each of these instances exists by
    the time they are declared, so no registration fails for a missing
    node; the version nodes of before are kept and [api_servers] is not
    touched.  When an instance watch that is kept cannot be read, the
    recovery raises the [ValueError] of the reading, with no process killed
    and the registry untouched. *)
Theorem recover_state_restores (env : Env) (unmonitored : string -> bool)
    (processes : list (Z * list string)) (getpgid : Z -> Z)
    (JAVA_APPSERVER_CLASS PYTHON_APPSERVER APPS_PATH : string) (st : State) :
  let kept := List.filter (fun entry => negb (unmonitored entry))
                (List.filter (Py.startswith MONIT_INSTANCE_PREFIX) (monit_entries st)) in
  let run := recover_state env unmonitored processes getpgid JAVA_APPSERVER_CLASS
               PYTHON_APPSERVER APPS_PATH st in
  let boot := main_recover_state env unmonitored processes getpgid JAVA_APPSERVER_CLASS
                PYTHON_APPSERVER APPS_PATH st in
  (forall details,
     map_raising instance_info kept = inr details ->
     (forall pid cmd, (pid, cmd) ∈ processes ->
        exists found,
          process_instance JAVA_APPSERVER_CLASS PYTHON_APPSERVER APPS_PATH cmd
          = inr found) ->
     registry_parses env (zk_nodes st) ->
     let running : gset Instance := list_to_set (parsed_instances details) in
     boot_result run = inr running /\
     boot_result boot = inr tt /\
     running_instances (boot_final boot) = running /\
     (forall watch,
        watch ∈ monit_entries (boot_final run) <->
        watch ∈ monit_entries st /\
        ~ (Py.startswith MONIT_INSTANCE_PREFIX watch = true /\ unmonitored watch = true)) /\
     (forall instance,
        instance ∈ running <->
        exists watch,
          watch ∈ monit_entries (boot_final run) /\
          Py.startswith MONIT_INSTANCE_PREFIX watch = true /\
          instance_info watch = inr (revision_key instance, port instance)) /\
     (forall revision_key port,
        0 <= port -> instance_watch revision_key port ∈ monit_entries st ->
        unmonitored (instance_watch revision_key port) = false ->
        mkInstance revision_key port ∈ running) /\
     version_nodes_exist (zk_nodes (boot_final run)) running /\
     (forall version_key, is_Some (zk_nodes st !! version_key) ->
                          is_Some (zk_nodes (boot_final run) !! version_key)) /\
     api_servers (boot_final run) = api_servers st) /\
  (forall e,
     map_raising instance_info kept = inl e ->
     boot_result run = inl (Failed e) /\
     kills (boot_trace run) = [] /\
     zk_nodes (boot_final run) = zk_nodes st /\
     running_instances (boot_final run) = running_instances st).
Proof.
  cbv zeta. split; [|apply recover_state_unreadable].
  intros details Hparse Hreadable Hregistry.
  destruct (recover_state_run env unmonitored processes getpgid JAVA_APPSERVER_CLASS
              PYTHON_APPSERVER APPS_PATH st details Hparse Hreadable Hregistry)
    as (st3 & tr & Hrun & Hwatches & Hnodes & Hkeep & Hservers).
  unfold main_recover_state.
  rewrite (boot_bind_returns _ _ _ _ _ _ Hrun). rewrite Hrun.
  unfold boot_result, boot_final. cbn [fst snd engine modify set_running_instances
                                        running_instances].
  split; [done|]. split; [done|]. split; [done|]. split; [exact Hwatches|].
  assert (Hkept : forall watch,
            watch ∈ List.filter (fun entry => negb (unmonitored entry))
                      (List.filter (Py.startswith MONIT_INSTANCE_PREFIX) (monit_entries st))
            <-> watch ∈ monit_entries st3 /\
                Py.startswith MONIT_INSTANCE_PREFIX watch = true).
  { intros watch. rewrite Hwatches, !elem_of_List_filter.
    destruct (unmonitored watch), (Py.startswith MONIT_INSTANCE_PREFIX watch);
      cbn [negb]; intuition congruence. }
  split; [|split; [|split; [exact Hnodes|split; [exact Hkeep|exact Hservers]]]].
  - intros instance. rewrite elem_of_list_to_set. unfold parsed_instances.
    rewrite list_elem_of_fmap. split.
    + intros (info & -> & Hinfo).
      destruct (map_raising_elem_inv _ _ _ _ Hparse Hinfo) as (watch & Hin & Hread).
      apply Hkept in Hin as [Hin Hprefix]. exists watch. cbn [revision_key port].
      split; [done|]. split; [done|]. by destruct info.
    + intros (watch & Hin & Hprefix & Hread).
      destruct (map_raising_elem _ _ _ watch Hparse) as (info & Hinfo & Hin').
      { apply Hkept. by split. }
      exists info. split; [|done]. rewrite Hread in Hinfo. injection Hinfo as <-.
      by destruct instance.
  - intros rk port Hport Hlisted Hmon.
    destruct (map_raising_elem _ _ _ (instance_watch rk port) Hparse)
      as (info & Hinfo & Hin).
    { rewrite !elem_of_List_filter. split; [split; [done|]|by rewrite Hmon].
      unfold instance_watch. rewrite append_assoc. apply startswith_app. }
    rewrite (instance_info_watch _ _ Hport) in Hinfo. injection Hinfo as <-.
    apply elem_of_list_to_set, list_elem_of_fmap. by exists (rk, port).
Qed.

Lemma recover_state_restores_witness :
  running_instances
    (boot_final (main_recover_state node_env
                   (String.eqb "instance_proj_default_v1_2-8081") sample_processes
                   (fun pid => pid) "DevAppServerMain" "/opt/appserver/dev_appserver.py"
                   "/var/apps/" before_recovery))
  = list_to_set (parsed_instances [("proj_default_v1_3", 8080)]).
Proof.
  destruct (recover_state_restores node_env (String.eqb "instance_proj_default_v1_2-8081")
              sample_processes (fun pid => pid) "DevAppServerMain"
              "/opt/appserver/dev_appserver.py" "/var/apps/" before_recovery)
    as [Hgood _].
  destruct (Hgood [("proj_default_v1_3", 8080)] eq_refl) as (_ & _ & Hrunning & _).
  - intros pid cmd Hin.
    apply elem_of_cons in Hin as [[= -> ->]|Hin]; [by eexists|].
    apply elem_of_cons in Hin as [[= -> ->]|Hin]; [by eexists|].
    apply elem_of_cons in Hin as [[= -> ->]|Hin]; [by eexists|].
    by apply elem_of_nil in Hin.
  - intros vk children entry payload Hvk.
    unfold before_recovery in Hvk. cbn [zk_nodes] in Hvk. by rewrite lookup_empty in Hvk.
  - exact Hrunning.
Defined.

(** ** Registry: what is written is what is read *)

Section ReadBack.

Variable env : Env.

Lemma digits_no_colon (d : uint) :
  Py.mem_char ":" (NilEmpty.string_of_uint d) = false.
Proof. induction d; simpl; auto. Qed.

Lemma str_no_colon (n : Z) : Py.mem_char ":" (Py.str n) = false.
Proof.
  unfold Py.str. destruct n as [|p|p]; [done| |]; simpl;
    destruct (Pos.to_uint p); simpl; auto using digits_no_colon.
Qed.

(** The name of the child of an instance splits into the private IP and
    the printed port. *)
Lemma split_instance_entry (instance : Instance) :
  Py.mem_char ":" (private_ip env) = false ->
  Py.split ":" (instance_entry env instance) = [private_ip env; Py.str (port instance)].
Proof.
  intros Hip. unfold instance_entry, Py.join, Py.split. cbn [String.concat].
  change (":" +:+ Py.str (port instance)) with (String ":" (Py.str (port instance))).
  rewrite split_go_app, !split_go_absent by (done || apply str_no_colon).
  by rewrite !append_nil.
Qed.

(** [declare_instance_nodes] reads the child that [register_instance]
    writes for an instance of four components as that instance. *)
Lemma local_registration_written (vk p s v : string) (rev number : Z) :
  Py.split VERSION_PATH_SEPARATOR vk = [p; s; v] ->
  Py.mem_char ":" (private_ip env) = false ->
  let instance :=
    mkInstance (Py.join VERSION_PATH_SEPARATOR [p; s; v; Py.str rev]) number in
  local_registration env (version_key instance) (instance_entry env instance)
    (revision instance) = inr (Some instance).
Proof.
  intros Hsplit Hip. cbv zeta.
  destruct (version_key_of_revision_key vk p s v (Py.str rev) number Hsplit) as [Hvk Hrev].
  rewrite Hvk, (Hrev (str_no_underscore rev)).
  unfold local_registration. rewrite split_instance_entry by done.
  cbn [hd List.last port]. rewrite String.eqb_refl, int_str. cbn [negb].
  rewrite (revision_key_of_version_key vk p s v (Py.str rev) Hsplit).
  unfold Py.join, VERSION_PATH_SEPARATOR. cbn [String.concat]. done.
Qed.

(** The calls of a reconciliation. *)
Lemma declare_instance_nodes_calls (running : gset Instance) (st : State) :
  registry_parses env (zk_nodes st) ->
  version_nodes_exist (zk_nodes st) running ->
  exists registered,
    (forall instance, instance ∈ registered <-> local_entry env (zk_nodes st) instance) /\
    calls (trace (declare_instance_nodes env running st))
    = map UnregisterInstance (elements (registered ∖ running))
      ++ map RegisterInstance (elements (running ∖ registered)).
Proof.
  intros Hparse Hnodes.
  destruct (registered_instances_spec env (zk_nodes st) Hparse) as (registered & Hreg & Hspec).
  exists registered. split; [exact Hspec|].
  unfold declare_instance_nodes.
  rewrite (bind_returns _ _ st st st [] eq_refl).
  unfold lift. rewrite Hreg.
  rewrite (bind_returns _ _ st st registered [] eq_refl).
  destruct (unregister_all env (elements (registered ∖ running)) st)
    as (st1 & tr1 & Hun & Hcalls1 & Hkeep).
  rewrite (bind_returns _ _ _ _ _ _ Hun).
  destruct (register_all env (elements (running ∖ registered)) st1)
    as (st2 & tr2 & -> & Hcalls2).
  { intros i Hi. apply Hkeep, Hnodes.
    by apply elem_of_elements, elem_of_difference in Hi as [Hi _]. }
  unfold trace. cbn [snd app]. by rewrite calls_app, Hcalls1, Hcalls2.
Qed.

End ReadBack.

(** X19.  What [register_instance] writes for an instance that
    [start_app] builds (a revision key of four components, the last one a
    printed revision), [declare_instance_nodes] reads back as the same
    instance, when the private IP has no colon in it: after the
    registration the instance is among the registered instances of this
    machine, and a reconciliation for a set of running instances that
    holds it neither unregisters it nor registers it again. *)
Theorem registered_instance_read_back (env : Env) (vk p s v : string) (rev port : Z)
    (st : State) (children : gmap string string) (running : gset Instance) :
  Py.split VERSION_PATH_SEPARATOR vk = [p; s; v] ->
  Py.mem_char ":" (private_ip env) = false ->
  zk_nodes st !! vk = Some children ->
  let instance :=
    mkInstance (Py.join VERSION_PATH_SEPARATOR [p; s; v; Py.str rev]) port in
  let registered := final (register_instance env instance st) in
  local_entry env (zk_nodes registered) instance /\
  (instance ∈ running ->
   registry_parses env (zk_nodes registered) ->
   version_nodes_exist (zk_nodes registered) running ->
   let again := declare_instance_nodes env running registered in
   (UnregisterInstance instance ∉ calls (trace again)) /\
   (RegisterInstance instance ∉ calls (trace again))).
Proof.
  intros Hsplit Hip Hnode. cbv zeta.
  set (instance := mkInstance (Py.join VERSION_PATH_SEPARATOR [p; s; v; Py.str rev]) port).
  destruct (version_key_of_revision_key vk p s v (Py.str rev) port Hsplit) as [Hvk _].
  fold instance in Hvk.
  pose proof (local_registration_written env vk p s v rev port Hsplit Hip) as Hread.
  cbv zeta in Hread. fold instance in Hread.
  assert (Hlocal : local_entry env (zk_nodes (final (register_instance env instance st)))
                     instance).
  { rewrite register_instance_run, Hvk, Hnode. unfold final. cbn [fst snd zk_nodes].
    apply local_registration_some in Hread as (Hhd & parsed & Hparsed & Hinstance).
    exists vk, (<[instance_entry env instance := revision instance]> children),
      (instance_entry env instance), (revision instance), parsed.
    split; [by rewrite lookup_insert_eq|]. split; [by rewrite lookup_insert_eq|].
    split; [exact Hhd|]. split; [exact Hparsed|]. by rewrite Hvk in Hinstance. }
  split; [exact Hlocal|].
  intros Hrunning Hparse Hnodes.
  destruct (declare_instance_nodes_calls env running _ Hparse Hnodes)
    as (registered & Hspec & ->).
  apply Hspec in Hlocal.
  split; intros Hin; apply elem_of_app in Hin as [Hin|Hin];
    apply list_elem_of_fmap in Hin as (i & Heq & Hi); try discriminate;
    injection Heq as <-; apply elem_of_elements, elem_of_difference in Hi as [? Hnot];
    by apply Hnot.
Qed.

Lemma registered_instance_read_back_witness :
  local_entry node_env
    (zk_nodes (final (register_instance node_env (mkInstance "proj_default_v1_4" 8080)
                        one_instance)))
    (mkInstance "proj_default_v1_4" 8080).
Proof.
  exact (proj1 (registered_instance_read_back node_env "proj_default_v1" "proj" "default"
                  "v1" 4 8080 one_instance {[ "10.0.0.2:8080" := "3" ]} ∅
                  eq_refl eq_refl eq_refl)).
Defined.

(** ** The start path: Monit does not start the instance *)

Section StartNotStarted.

Variable env : Env.

Lemma start_app_not_started_run (vk : string) (config : Config) (st : State)
    (p s v login : string) (vd : VersionDetails) (port : Z) :
  Py.split VERSION_PATH_SEPARATOR vk = [p; s; v] ->
  app_port config = Some port ->
  login_server config = Some login ->
  login <> EmptyString ->
  is_app_name_valid env p = true ->
  lookup_version env p s v = Some vd ->
  runtime_refused env vd = false ->
  api_server_ensured env st p = true ->
  let rk := Py.join VERSION_PATH_SEPARATOR [p; s; v; Py.str (vd_revision vd)] in
  let q := match api_servers st !! p with
           | Some cached => cached
           | None => next_api_server_port (values (api_servers st))
           end in
  monit_start env (instance_watch rk port) = false ->
  let run := start_app env vk config st in
  result run
  = inl (AssertionError ("Monit was unable to start " +:+ p +:+ ":" +:+ Py.str port)) /\
  List.filter is_instance_config (trace run)
  = [CreateConfigFile (MONIT_INSTANCE_PREFIX +:+ rk)
       (instance_cmd env vd p login port rk q) (pidfile_of rk port) port
       (max_memory_of env vd)] /\
  List.filter (fun ev => is_teardown ev || is_register ev) (trace run) = [] /\
  spawned (trace run) = [] /\
  final run
  = match api_servers st !! p with
    | Some _ => st
    | None => mkState (<[p := q]> (api_servers st)) (running_instances st) (zk_nodes st)
                      (with_watch (api_server_watch p q) (monit_entries st))
    end.
Proof.
  intros Hsplit Hport Hlogin Hne Hvalid Hlookup Hserved Hensured.
  unfold result, trace, final, with_watch, runtime_refused, api_server_ensured,
    instance_cmd in *.
  unfold start_app. rewrite Hport, Hlogin, Hsplit, Hlookup, Hvalid.
  destruct login as [|c login]; [done|].
  revert Hserved Hensured.
  unfold ensure_api_server, create_config_file, monit_interface_start,
    ensure_version_node, setup_logrotate, bind, tell, get, ret, raise, modify, lift.
  repeat (simpl;
    match goal with
    | |- context [api_servers ?s !! ?p] => destruct (api_servers s !! p)
    | |- context [monit_start ?e ?w] => destruct (monit_start e w)
    | |- context [is_python_front_end ?r] => destruct (is_python_front_end r)
    | |- context [String.eqb ?r JAVA] => destruct (String.eqb r JAVA)
    | |- context [?x <=? 0] => destruct (x <=? 0)
    end); simpl.
  all: try (intros; discriminate).
  all: intros _ _ _; destruct st; repeat split; reflexivity.
Qed.

End StartNotStarted.

(** X20.  When Monit does not start the watch of the instance,
    [start_app] raises [AssertionError], which the handler does not turn
    into a bad request.  By then the configuration of the instance has been
    written and it is not removed; the API server of the project, if it
    was started for this request, stays.  The version node is not ensured,
    nothing is registered and no routing is spawned. *)
Theorem start_app_instance_not_started (env : Env) (vk : string) (config : Config)
    (st : State) (p s v login : string) (vd : VersionDetails) (port : Z) :
  Py.split VERSION_PATH_SEPARATOR vk = [p; s; v] ->
  app_port config = Some port ->
  login_server config = Some login ->
  login <> EmptyString ->
  is_app_name_valid env p = true ->
  lookup_version env p s v = Some vd ->
  runtime_refused env vd = false ->
  api_server_ensured env st p = true ->
  let rk := Py.join VERSION_PATH_SEPARATOR [p; s; v; Py.str (vd_revision vd)] in
  monit_start env (instance_watch rk port) = false ->
  let run := start_app env vk config st in
  let served := VersionHandler_post env vk config st in
  let failure :=
    AssertionError ("Monit was unable to start " +:+ p +:+ ":" +:+ Py.str port) in
  result run = inl failure /\
  served = run /\
  (exists cmd pidfile max_memory,
     List.filter is_instance_config (trace run)
     = [CreateConfigFile (MONIT_INSTANCE_PREFIX +:+ rk) cmd pidfile port max_memory]) /\
  List.filter (fun ev => is_teardown ev || is_register ev) (trace run) = [] /\
  spawned (trace run) = [] /\
  zk_nodes (final run) = zk_nodes st /\
  running_instances (final run) = running_instances st /\
  (forall cached, api_servers st !! p = Some cached -> final run = st) /\
  (api_servers st !! p = None ->
   api_servers (final run) !! p
   = Some (next_api_server_port (values (api_servers st)))).
Proof.
  intros Hsplit Hport Hlogin Hne Hvalid Hlookup Hserved Hensured. cbv zeta.
  intros Hmonit.
  destruct (start_app_not_started_run env vk config st p s v login vd port
              Hsplit Hport Hlogin Hne Hvalid Hlookup Hserved Hensured Hmonit)
    as (Hraise & Hconfig & Hquiet & Hspawned & Hfinal).
  split; [exact Hraise|]. split.
  { unfold VersionHandler_post, try_except. unfold result in Hraise.
    destruct (start_app env vk config st) as [[r st1] tr1]. simpl in Hraise.
    by subst r. }
  split; [by eexists _, _, _|]. split; [exact Hquiet|]. split; [exact Hspawned|].
  rewrite Hfinal.
  destruct (api_servers st !! p) as [cached|]; cbn [zk_nodes running_instances api_servers].
  - split; [done|]. split; [done|]. split; [done|]. intros; discriminate.
  - split; [done|]. split; [done|]. split; [intros; discriminate|].
    intros _. by rewrite lookup_insert_eq.
Qed.

Lemma start_app_instance_not_started_witness :
  result (start_app no_instance_env "proj_default_v1"
            (mkConfig (Some 8080) (Some "10.0.0.1")) empty_state)
  = inl (AssertionError "Monit was unable to start proj:8080").
Proof.
  refine (proj1 (start_app_instance_not_started no_instance_env "proj_default_v1"
                   (mkConfig (Some 8080) (Some "10.0.0.1")) empty_state
                   "proj" "default" "v1" "10.0.0.1" guestbook_v1 8080
                   eq_refl eq_refl eq_refl _ eq_refl eq_refl eq_refl eq_refl eq_refl)).
  discriminate.
Defined.

(** ** Stopping a version that runs nothing here *)

Section StopIdle.

Variable env : Env.

(** The end of [stop_app]: the log rotation, the reload and the cleaning
    of old sources return and leave the state alone. *)
Lemma stop_app_end_run (project_id : string) (st : State) :
  exists tr,
    ((match projects_manager env !! project_id with
      | Some _ => ret tt
      | None =>
          removed <- remove_logrotate env project_id ;;
          if removed : bool then ret tt
          else tell (Log ERROR "Error while removing log rotation")
      end) ;; tell MonitReload ;; clean_old_sources env)%M st
    = (inr tt, st, tr) /\ calls tr = [].
Proof.
  unfold remove_logrotate, clean_old_sources, get_entries, bind, tell, get, ret.
  destruct (projects_manager env !! project_id); [by eexists|].
  destruct (logrotate_removable env project_id); by eexists.
Qed.

Lemma filter_not_in_nil (f : string -> bool) (entries : list string) :
  List.filter (fun entry => f entry && negb (bool_decide (entry ∈ ([] : list string))))
              entries
  = List.filter f entries.
Proof.
  induction entries as [|entry entries IH]; [done|]. cbn [List.filter].
  rewrite bool_decide_eq_false_2 by apply not_elem_of_nil.
  cbn [negb]. rewrite andb_true_r, IH. done.
Qed.

End StopIdle.

(** Once [stop_api_server] has returned, the project has no API server. *)
Lemma stop_api_server_down (env : Env) (project_id : string) (st : State) :
  result (stop_api_server env project_id st) = inr tt ->
  api_servers (final (stop_api_server env project_id st)) !! project_id = None.
Proof.
  destruct (api_servers st !! project_id) as [port|] eqn:Hport.
  - rewrite (stop_api_server_run env project_id port st Hport).
    destruct (unmonitor env (api_server_watch project_id port) st) as [[[e|[]] st1] tr].
    + destruct e; unfold result, final; cbn [fst snd]; try discriminate.
      intros _. apply lookup_delete_eq.
    + unfold result, final. cbn [fst snd]. intros _. apply lookup_delete_eq.
  - unfold stop_api_server, bind, get. cbn. rewrite Hport. intros _. exact Hport.
Qed.

(** [stop_app] on a version of which Monit lists no watch. *)
Lemma stop_app_idle_run (env : Env) (vk : string) (st : State) :
  is_app_name_valid env (project_of vk) = true ->
  List.filter (Py.startswith (MONIT_INSTANCE_PREFIX +:+ vk)) (monit_entries st) = [] ->
  let stop := stop_app env vk st in
  let project_watches :=
    List.filter (Py.startswith (MONIT_INSTANCE_PREFIX +:+ project_of vk))
                (monit_entries st) in
  calls (trace stop) = [] /\
  same_registry st (final stop) /\
  (project_watches <> [] -> result stop = inr tt /\ final stop = st) /\
  (project_watches = [] ->
   result stop = result (stop_api_server env (project_of vk) st) /\
   final stop = final (stop_api_server env (project_of vk) st)).
Proof.
  intros Hvalid Hidle. cbv zeta.
  unfold stop_app. rewrite Hvalid. cbn [negb].
  rewrite bind_tell.
  rewrite (bind_returns _ _ st st (monit_entries st) [MonitGetEntries] eq_refl).
  rewrite Hidle. cbn [for_each].
  rewrite (bind_returns _ _ st st tt [] eq_refl).
  rewrite filter_not_in_nil.
  destruct (List.filter (Py.startswith (MONIT_INSTANCE_PREFIX +:+ project_of vk))
              (monit_entries st)) as [|watch watches] eqn:Hproject.
  - pose proof (stop_api_server_calls env (project_of vk) st) as Hcalls.
    pose proof (stop_api_server_registry env (project_of vk) st) as Hreg.
    rewrite bind_run.
    destruct (stop_api_server env (project_of vk) st) as [[[e|[]] st1] tr1].
    + unfold trace, final, result in *. cbn [fst snd] in *.
      split; [exact Hcalls|]. split; [exact Hreg|]. split; [done|]. done.
    + destruct (stop_app_end_run env (project_of vk) st1) as (tr2 & -> & Hquiet).
      unfold trace, final, result in *. cbn [fst snd] in *.
      split.
      { change (calls (tr1 ++ tr2) = []). by rewrite calls_app, Hcalls, Hquiet. }
      split; [exact Hreg|]. split; [done|]. done.
  - rewrite (bind_returns _ _ st st tt [] eq_refl).
    destruct (stop_app_end_run env (project_of vk) st) as (tr2 & -> & Hquiet).
    unfold trace, final, result. cbn [fst snd].
    split; [exact Hquiet|]. split; [by split|]. split; [done|]. intros; discriminate.
Qed.

(** X21.  A version of which Monit lists no watch is not an error for
    [stop_app], unlike the missing instance of [stop_app_instance]: with a
    valid project id nothing is unregistered and the registrations are
    left alone.  When Monit lists an instance watch with the prefix of the
    project, [stop_app] returns and the state is the one it was called in;
    when it lists none, [stop_app] ends as [stop_api_server] of the
    project does on that state, so once it has returned the project has no
    API server. *)
Theorem stop_app_idle_version (env : Env) (vk : string) (st : State) :
  is_app_name_valid env (project_of vk) = true ->
  List.filter (Py.startswith (MONIT_INSTANCE_PREFIX +:+ vk)) (monit_entries st) = [] ->
  let stop := stop_app env vk st in
  let project_watches :=
    List.filter (Py.startswith (MONIT_INSTANCE_PREFIX +:+ project_of vk))
                (monit_entries st) in
  calls (trace stop) = [] /\
  same_registry st (final stop) /\
  (project_watches <> [] -> result stop = inr tt /\ final stop = st) /\
  (project_watches = [] ->
   result stop = result (stop_api_server env (project_of vk) st) /\
   final stop = final (stop_api_server env (project_of vk) st)) /\
  (project_watches = [] -> result stop = inr tt ->
   api_servers (final stop) !! project_of vk = None).
Proof.
  intros Hvalid Hidle. cbv zeta.
  destruct (stop_app_idle_run env vk st Hvalid Hidle) as (Hcalls & Hreg & Hsome & Hends).
  split; [exact Hcalls|]. split; [exact Hreg|]. split; [exact Hsome|].
  split; [exact Hends|].
  intros Hnone Hres. destruct (Hends Hnone) as [Hresult Hfinal].
  rewrite Hfinal. apply stop_api_server_down. by rewrite <- Hresult.
Qed.

Lemma stop_app_idle_version_witness :
  let stop := stop_app node_env "proj_default_v2" lone_api_server in
  api_servers lone_api_server !! "proj" = Some 19999 /\
  monit_entries lone_api_server = ["api-server_proj-19999"] /\
  result stop = inr tt /\
  calls (trace stop) = [] /\
  api_servers (final stop) !! "proj" = None /\
  monit_entries (final stop) = [].
Proof.
  destruct (stop_app_idle_version node_env "proj_default_v2" lone_api_server
              eq_refl eq_refl) as (Hcalls & _ & _ & Hends & Hdown).
  destruct (Hends eq_refl) as [Hresult Hfinal]. cbv zeta.
  assert (Hreturned : result (stop_app node_env "proj_default_v2" lone_api_server)
                      = inr tt).
  { rewrite Hresult. vm_compute. reflexivity. }
  split; [reflexivity|]. split; [reflexivity|]. split; [exact Hreturned|].
  split; [exact Hcalls|]. split; [exact (Hdown eq_refl Hreturned)|].
  rewrite Hfinal. vm_compute. reflexivity.
Defined.

(** * Reconciliation and the registry *)

Section ReconcileEffects.

Variable env : Env.













End ReconcileEffects.



